(** * Puppy Station: the SQLite store (db.js) and the broadcast server (server.js)

    A shallow embedding of the store operations of [db.js] and of the
    routes and the WebSocket fan-out of [server.js], with the properties
    the design document states about them.

    Conventions of the embedding.
    - A table is the list of its rows in rowid order (the order of
      insertion: no statement of [db.js] deletes a row).
    - [CURRENT_TIMESTAMP] has a resolution of one second; a timestamp is the
      number of seconds as an integer, and every call of a store operation
      receives the reading [now] of the clock that its statements see.
    - A thrown JavaScript exception is a value of [exn]; the state reached
      when it is thrown is kept, as no operation runs in a transaction.
    - Arguments are strings (numbers for limits), the values the routes of
      [server.js] pass; a string is kept as its UTF-8 text, the form in
      which the engine stores it.  The [question] of [addReview] and the
      [reviewId] of [resolveReview] are a string or a number.
    - [metadata_json] keeps the metadata object itself instead of its
      [JSON.stringify] text. *)

From Stdlib Require Import ZArith List String Bool Lia.
From Stdlib Require Import Sorting.Sorted Sorting.Permutation.
From Stdlib Require Import Ascii DecimalString.
Import ListNotations.

Local Open Scope string_scope.
Local Open Scope Z_scope.

(** ** Strings

    JavaScript counts a string in UTF-16 code units: a character whose
    UTF-8 text has one, two or three bytes is one unit, a character of four
    bytes is two units (a surrogate pair). *)

(** The units of the character whose UTF-8 text starts with the byte [c],
    and the bytes of it that follow [c]. *)
Definition code_units (c : ascii) : nat :=
  if (N_of_ascii c <? 240)%N then 1%nat else 2%nat.

Definition continuation_bytes (c : ascii) : nat :=
  if (N_of_ascii c <? 192)%N then 0%nat
  else if (N_of_ascii c <? 224)%N then 1%nat
  else if (N_of_ascii c <? 240)%N then 2%nat
  else 3%nat.

(** U+FFFD, which the binding writes for half of a surrogate pair. *)
Definition replacement_character : string :=
  String "239"%char (String "191"%char (String "189"%char "")).

(** The first [k] units of [s]; [pending] bytes of the character being
    copied are still to come.  A cut between the two units of a pair leaves
    the first half alone. *)
Fixpoint take_units (k pending : nat) (s : string) : string :=
  match s with
  | EmptyString => EmptyString
  | String c rest =>
      match pending with
      | S p => String c (take_units k p rest)
      | O =>
          if (code_units c <=? k)%nat
          then String c (take_units (k - code_units c) (continuation_bytes c) rest)
          else if (k =? 0)%nat then EmptyString else replacement_character
      end
  end.

(** [s.substring(0, k)] *)
Definition substring_0 (k : nat) (s : string) : string := take_units k 0 s.

(** Every character of [s] is one byte. *)
Fixpoint single_bytes (s : string) : bool :=
  match s with
  | EmptyString => true
  | String c rest => (N_of_ascii c <? 128)%N && single_bytes rest
  end.

(** ** Rows *)

Definition timestamp := Z.

Inductive jsvalue :=
| JStr (s : string)
| JNum (n : Z)
| JBool (b : bool).

(** A metadata object: its keys with their values, in order. *)
Definition metadata := list (string * jsvalue).

(** The [question] handed to [addReview]: a string, or a number other
    than NaN, which the TEXT affinity of [reviews.question] stores as the
    text [stored]. *)
Inductive question_value :=
| QText (s : string)
| QNumber (stored : string).

Definition stored_question (q : question_value) : string :=
  match q with QText s => s | QNumber stored => stored end.

(** The [reviewId] handed to [resolveReview]: a number, or a text (the
    path parameter of the route), which the INTEGER affinity of
    [reviews.id] reads as the number [reading], or as no number. *)
Inductive id_value :=
| IdNumber (n : Z)
| IdText (text : string) (reading : option Z).

Definition id_reading (v : id_value) : option Z :=
  match v with IdNumber n => Some n | IdText _ reading => reading end.

(** The value as a member of a metadata object. *)
Definition id_json (v : id_value) : jsvalue :=
  match v with IdNumber n => JNum n | IdText text _ => JStr text end.

Record agent := mkAgent {
  agent_id : string;
  agent_name : string;
  agent_emoji : string;
  agent_role : string;
  agent_model : string;
  agent_status : string;
  agent_current_task : option string;
  agent_updated_at : timestamp
}.

Record activity := mkActivity {
  activity_id : Z;
  activity_agent_id : string;
  activity_type : string;
  activity_description : string;
  activity_metadata_json : metadata;
  activity_timestamp : timestamp
}.

Record review := mkReview {
  review_id : Z;
  review_agent_id : string;
  review_question : string;
  review_priority : string;
  review_status : string;
  review_created_at : timestamp;
  review_resolved_at : option timestamp
}.

(** The file at [DB_PATH]: three tables and the two AUTOINCREMENT counters
    of [sqlite_sequence].  A file that does not exist yet reads as
    [empty_database], which is what the [CREATE TABLE IF NOT EXISTS]
    statements of [initDb] make of it. *)
Record database := mkDb {
  agents : list agent;
  activities : list activity;
  activities_seq : Z;
  reviews : list review;
  reviews_seq : Z
}.

Definition empty_database : database := mkDb [] [] 0 [] 0.

(** The module state of [db.js]: whether the variable [db] holds a
    connection ([let db = null] at first), the connection's [foreign_keys]
    pragma, which [db.js] never sets and so stays at the engine's default
    (on in better-sqlite3), and the file. *)
Record store := mkStore {
  db : bool;
  foreign_keys : bool;
  file : database
}.

Definition set_file (s : store) (d : database) : store :=
  mkStore (db s) (foreign_keys s) d.

(** ** Exceptions and the store monad *)

Inductive exn :=
| Error (message : string)
| TypeError (message : string)
| SqliteError (code : string) (message : string).

Definition exn_name (e : exn) : string :=
  match e with
  | Error _ => "Error"
  | TypeError _ => "TypeError"
  | SqliteError _ _ => "SqliteError"
  end.

Definition exn_message (e : exn) : string :=
  match e with
  | Error m | TypeError m | SqliteError _ m => m
  end.

Inductive result (A : Type) :=
| Ok (a : A)
| Throw (e : exn).
Arguments Ok {A} a.
Arguments Throw {A} e.

Definition M (A : Type) := store -> result A * store.

Definition ret {A} (a : A) : M A := fun s => (Ok a, s).
Definition throw {A} (e : exn) : M A := fun s => (Throw e, s).
Definition bind {A B} (m : M A) (k : A -> M B) : M B :=
  fun s =>
    match m s with
    | (Ok a, s') => k a s'
    | (Throw e, s') => (Throw e, s')
    end.

Declare Scope store_scope.
Delimit Scope store_scope with store.
Notation "x <- m ;; k" := (bind m (fun x => k))
  (at level 61, m at next level, right associativity) : store_scope.
Notation "m ;;; k" := (bind m (fun _ => k))
  (at level 61, right associativity) : store_scope.
Local Open Scope store_scope.

(** [if (!db) throw new Error('Database not initialized. Call initDb() first.')] *)
Definition require_db : M unit :=
  fun s =>
    if db s then (Ok tt, s)
    else (Throw (Error "Database not initialized. Call initDb() first."), s).

(** [db.prepare(...)]: reading the tables through the connection. *)
Definition conn : M database :=
  fun s =>
    if db s then (Ok (file s), s)
    else (Throw (TypeError "Cannot read properties of null (reading 'prepare')"), s).

Definition pragma_foreign_keys : M bool := fun s => (Ok (foreign_keys s), s).

Definition write (d : database) : M unit := fun s => (Ok tt, set_file s d).

(** ** SQL statements of db.js *)

Definition is_agent (id : string) (a : agent) : bool := String.eqb (agent_id a) id.
Definition is_review (id : Z) (r : review) : bool := Z.eqb (review_id r) id.

(** [WHERE id = ?] of the [reviews] table. *)
Definition has_id (v : id_value) (r : review) : bool :=
  match id_reading v with
  | Some n => is_review n r
  | None => false
  end.

Definition agent_exists (id : string) (d : database) : bool :=
  existsb (is_agent id) (agents d).

Definition fk_failed : exn :=
  SqliteError "SQLITE_CONSTRAINT_FOREIGNKEY" "FOREIGN KEY constraint failed".

Definition pk_failed : exn :=
  SqliteError "SQLITE_CONSTRAINT_PRIMARYKEY" "UNIQUE constraint failed: agents.id".

(** [INSERT INTO agents (id, name, emoji, role, model, status, current_task)
    VALUES (?, ?, ?, ?, ?, ?, ?)]; [updated_at] takes its default. *)
Definition insert_agent (now : timestamp)
    (id name emoji role model status task : string) : M unit :=
  d <- conn ;;
  if agent_exists id d then throw pk_failed
  else write (mkDb (agents d ++ [mkAgent id name emoji role model status (Some task) now])
                (activities d) (activities_seq d) (reviews d) (reviews_seq d)).

(** [FOREIGN KEY (agent_id) REFERENCES agents(id)], checked when the
    pragma is on. *)
Definition check_agent_fk (agentId : string) : M unit :=
  d <- conn ;;
  fk <- pragma_foreign_keys ;;
  if fk && negb (agent_exists agentId d) then throw fk_failed else ret tt.

(** [INSERT INTO activities (agent_id, type, description, metadata_json)
    VALUES (?, ?, ?, ?)]; the result is [lastInsertRowid]. *)
Definition insert_activity (now : timestamp)
    (agentId type description : string) (md : metadata) : M Z :=
  check_agent_fk agentId ;;;
  d <- conn ;;
  let rowid := activities_seq d + 1 in
  write (mkDb (agents d)
           (activities d ++ [mkActivity rowid agentId type description md now])
           rowid (reviews d) (reviews_seq d)) ;;;
  ret rowid.

(** [INSERT INTO reviews (agent_id, question, priority, status)
    VALUES (?, ?, ?, ?)]. *)
Definition insert_review (now : timestamp)
    (agentId question priority status : string) : M Z :=
  check_agent_fk agentId ;;;
  d <- conn ;;
  let rowid := reviews_seq d + 1 in
  write (mkDb (agents d) (activities d) (activities_seq d)
           (reviews d ++ [mkReview rowid agentId question priority status now None])
           rowid) ;;;
  ret rowid.

(** An UPDATE of the rows that satisfy [p]; [changes] is the number of rows
    the WHERE clause selects (whether or not a value in them differs
    afterwards). *)
Definition update_where {A} (p : A -> bool) (f : A -> A) (rows : list A) : list A :=
  map (fun r => if p r then f r else r) rows.

Definition changes {A} (p : A -> bool) (rows : list A) : Z :=
  Z.of_nat (List.length (filter p rows)).

Definition update_agents (p : agent -> bool) (f : agent -> agent) : M Z :=
  d <- conn ;;
  write (mkDb (update_where p f (agents d))
           (activities d) (activities_seq d) (reviews d) (reviews_seq d)) ;;;
  ret (changes p (agents d)).

Definition update_reviews (p : review -> bool) (f : review -> review) : M Z :=
  d <- conn ;;
  write (mkDb (agents d) (activities d) (activities_seq d)
           (update_where p f (reviews d)) (reviews_seq d)) ;;;
  ret (changes p (reviews d)).

(** [SET updated_at = CURRENT_TIMESTAMP] *)
Definition touch (now : timestamp) (a : agent) : agent :=
  mkAgent (agent_id a) (agent_name a) (agent_emoji a) (agent_role a) (agent_model a)
    (agent_status a) (agent_current_task a) now.

(** [SET current_task = ?, status = 'active', updated_at = CURRENT_TIMESTAMP] *)
Definition set_task (task : string) (now : timestamp) (a : agent) : agent :=
  mkAgent (agent_id a) (agent_name a) (agent_emoji a) (agent_role a) (agent_model a)
    "active" (Some task) now.

(** [SET status = ?, updated_at = CURRENT_TIMESTAMP] *)
Definition set_status (status : string) (now : timestamp) (a : agent) : agent :=
  mkAgent (agent_id a) (agent_name a) (agent_emoji a) (agent_role a) (agent_model a)
    status (agent_current_task a) now.

(** [SET status = 'resolved', resolved_at = CURRENT_TIMESTAMP] *)
Definition set_resolved (now : timestamp) (r : review) : review :=
  mkReview (review_id r) (review_agent_id r) (review_question r) (review_priority r)
    "resolved" (review_created_at r) (Some now).

(** *** ORDER BY and LIMIT

    [order_by precedes rows] sorts the rows met in table order; a row goes
    before the rows already placed that it may precede, so rows that the
    ORDER BY terms do not tell apart stay in table order (the statements
    name no further term, and SQL promises no order among such rows). *)
Section OrderBy.
Context {A : Type} (precedes : A -> A -> bool).

Fixpoint insert_row (x : A) (l : list A) : list A :=
  match l with
  | [] => [x]
  | y :: l' => if precedes x y then x :: l else y :: insert_row x l'
  end.

Fixpoint order_by (rows : list A) : list A :=
  match rows with
  | [] => []
  | x :: rest => insert_row x (order_by rest)
  end.
End OrderBy.

(** [LIMIT ?]: a negative bound is no bound (SQLite). *)
Definition sql_limit {A} (n : Z) (rows : list A) : list A :=
  if n <? 0 then rows else firstn (Z.to_nat n) rows.

(** The bound reaches the statement as a floating-point number, which the
    engine takes for a 64-bit integer when it lies strictly between [-2^63]
    and [2^63]; the statement fails on any other. *)
Definition accepted_limit (n : Z) : bool := (- 2 ^ 63 <? n) && (n <? 2 ^ 63).

Definition datatype_mismatch : exn := SqliteError "SQLITE_MISMATCH" "datatype mismatch".

Definition limited {A} (n : Z) (rows : list A) : M (list A) :=
  if accepted_limit n then ret (sql_limit n rows) else throw datatype_mismatch.

(** [ORDER BY timestamp DESC] *)
Definition timestamp_desc (a b : activity) : bool :=
  activity_timestamp b <=? activity_timestamp a.

(** [CASE r.priority WHEN 'high' THEN 1 WHEN 'medium' THEN 2 WHEN 'low'
    THEN 3 ELSE 4 END] *)
Definition priority_rank (p : string) : Z :=
  if String.eqb p "high" then 1
  else if String.eqb p "medium" then 2
  else if String.eqb p "low" then 3
  else 4.

(** [ORDER BY CASE ... END, r.created_at DESC] *)
Definition review_order (r s : review) : bool :=
  (priority_rank (review_priority r) <? priority_rank (review_priority s))
  || ((priority_rank (review_priority r) =? priority_rank (review_priority s))
      && (review_created_at s <=? review_created_at r)).

(** A row of a query that joins [agents]: the row with [ag.name as
    agent_name, ag.emoji as agent_emoji]. *)
Record joined (A : Type) := mkJoined {
  row : A;
  row_agent_name : string;
  row_agent_emoji : string
}.
Arguments mkJoined {A} _ _ _.
Arguments row {A} _.
Arguments row_agent_name {A} _.
Arguments row_agent_emoji {A} _.

(** [FROM t JOIN agents ag ON t.agent_id = ag.id] *)
Definition join_agents {A} (agent_of : A -> string) (ags : list agent)
    (rows : list A) : list (joined A) :=
  flat_map (fun r =>
              map (fun ag => mkJoined r (agent_name ag) (agent_emoji ag))
                (filter (is_agent (agent_of r)) ags))
    rows.

Definition is_pending (r : review) : bool := String.eqb (review_status r) "pending".

(** ** Store operations of db.js *)

(** [logActivity(agentId, type, description, metadata = {})] *)
Definition logActivity (now : timestamp)
    (agentId type description : string) (md : metadata) : M Z :=
  require_db ;;;
  rowid <- insert_activity now agentId type description md ;;
  update_agents (is_agent agentId) (touch now) ;;;
  ret rowid.

(** [updateAgentTask(agentId, task)] *)
Definition updateAgentTask (now : timestamp) (agentId task : string) : M bool :=
  require_db ;;;
  n <- update_agents (is_agent agentId) (set_task task now) ;;
  (if 0 <? n
   then logActivity now agentId "task_update" ("Updated task: " ++ task)
          [("task", JStr task)] ;;; ret tt
   else ret tt) ;;;
  ret (0 <? n).

(** [updateAgentStatus(agentId, status)] *)
Definition updateAgentStatus (now : timestamp) (agentId status : string) : M bool :=
  require_db ;;;
  n <- update_agents (is_agent agentId) (set_status status now) ;;
  ret (0 <? n).

(** [ORDER BY name] of [getAllAgents]. *)
Definition name_asc (a b : agent) : bool := String.leb (agent_name a) (agent_name b).

(** [getAllAgents()] *)
Definition getAllAgents : M (list agent) :=
  require_db ;;;
  d <- conn ;;
  ret (order_by name_asc (agents d)).

(** [getAgent(agentId)]; [None] is [undefined]. *)
Definition getAgent (agentId : string) : M (option agent) :=
  require_db ;;;
  d <- conn ;;
  ret (find (is_agent agentId) (agents d)).

(** [getRecentActivities(limit = 20)] *)
Definition getRecentActivities (limit : Z) : M (list (joined activity)) :=
  require_db ;;;
  d <- conn ;;
  limited limit
    (order_by (fun x y => timestamp_desc (row x) (row y))
       (join_agents activity_agent_id (agents d) (activities d))).

(** [getAgentActivities(agentId, limit = 20)] *)
Definition getAgentActivities (agentId : string) (limit : Z) : M (list activity) :=
  require_db ;;;
  d <- conn ;;
  limited limit
    (order_by timestamp_desc
       (filter (fun a => String.eqb (activity_agent_id a) agentId) (activities d))).

(** [getPendingReviews()] *)
Definition getPendingReviews : M (list (joined review)) :=
  require_db ;;;
  d <- conn ;;
  ret (order_by (fun x y => review_order (row x) (row y))
         (filter (fun x => is_pending (row x))
            (join_agents review_agent_id (agents d) (reviews d)))).

(** [addReview(agentId, question, priority = 'medium')]; a number has no
    [substring]. *)
Definition addReview (now : timestamp) (agentId : string) (question : question_value)
    (priority : string) : M Z :=
  require_db ;;;
  rid <- insert_review now agentId (stored_question question) priority "pending" ;;
  match question with
  | QText q =>
      logActivity now agentId "review_created"
        ("Created review: " ++ substring_0 50 q ++ "...")
        [("review_id", JNum rid); ("priority", JStr priority)] ;;;
      ret rid
  | QNumber _ => throw (TypeError "question.substring is not a function")
  end.

(** [resolveReview(reviewId)] *)
Definition resolveReview (now : timestamp) (reviewId : id_value) : M bool :=
  require_db ;;;
  n <- update_reviews (has_id reviewId) (set_resolved now) ;;
  (if 0 <? n
   then
     d <- conn ;;
     match find (has_id reviewId) (reviews d) with
     | Some review =>
         logActivity now (review_agent_id review) "review_resolved"
           ("Resolved review: " ++ substring_0 50 (review_question review) ++ "...")
           [("review_id", id_json reviewId)] ;;; ret tt
     | None => ret tt
     end
   else ret tt) ;;;
  ret (0 <? n).

(** [seedSampleReviews()] *)
Definition seedSampleReviews (now : timestamp) : M unit :=
  insert_review now "zoomie"
    "Should we use SwiftUI or UIKit for the AIGIS iOS enforcement module?"
    "high" "pending" ;;;
  insert_review now "mechly"
    "What database should we use for the agent session storage - SQLite or PostgreSQL?"
    "medium" "pending" ;;;
  insert_review now "buppy"
    "Should we add voice notifications for urgent reviews?"
    "low" "pending" ;;;
  ret tt.

(** The [agents] array of [seedInitialAgents]. *)
Record seed_agent := mkSeed {
  seed_id : string;
  seed_name : string;
  seed_emoji : string;
  seed_role : string;
  seed_model : string;
  seed_status : string;
  seed_task : string
}.

Definition seed_agents : list seed_agent :=
  [ mkSeed "buppy" "Buppy" "🐕" "Primary Coordinator" "moonshot/kimi-k2.5" "active"
      "Coordinating agent fleet and managing Admin requests";
    mkSeed "zoomie" "Zoomie" "⚡" "AIGIS Lead Developer" "nvidia/kimi-k2.5" "active"
      "Implementing iOS Screen Time integration for AIGIS Phase 2";
    mkSeed "mechly" "Mechly" "🔧" "Tool Builder & Infrastructure" "moonshot/kimi-k2.5"
      "active" "Building Agent Dashboard UI and API endpoints" ].

(** [for (const agent of agents) { insert.run(...); logActivity(...) }] *)
Fixpoint seed_loop (now : timestamp) (l : list seed_agent) : M unit :=
  match l with
  | [] => ret tt
  | a :: rest =>
      insert_agent now (seed_id a) (seed_name a) (seed_emoji a) (seed_role a)
        (seed_model a) (seed_status a) (seed_task a) ;;;
      logActivity now (seed_id a) "system" (seed_name a ++ " initialized and ready")
        [("source", JStr "database_seed")] ;;;
      seed_loop now rest
  end.

(** [seedInitialAgents()] *)
Definition seedInitialAgents (now : timestamp) : M unit :=
  d <- conn ;;
  if Z.of_nat (List.length (agents d)) =? 0
  then seed_loop now seed_agents ;;; seedSampleReviews now
  else ret tt.

(** [initDb()]: opens the file at [DB_PATH] (the [file] of the store),
    creates the tables that do not exist, seeds, and returns the
    connection. *)
Definition initDb (now : timestamp) : M database :=
  (fun s => (Ok tt, mkStore true (foreign_keys s) (file s))) ;;;
  seedInitialAgents now ;;;
  conn.

(** [closeDb()] *)
Definition closeDb : M unit :=
  fun s => (Ok tt, mkStore false (foreign_keys s) (file s)).

(** The store before the first [initDb]: no connection, no file. *)
Definition fresh_store (fk : bool) : store := mkStore false fk empty_database.

(** ** The server: push connections and routes of server.js *)

(** The objects handed to [broadcast] and [ws.send]; [JSON.stringify]
    turns each into the one text that is sent. *)
Inductive message :=
| MsgInit (ags : list agent) (revs : list (joined review))
| MsgActivity (agentId : string) (act : activity)
| MsgTaskUpdate (agentId task : string) (at_time : timestamp)
| MsgStatusUpdate (agentId status : string) (at_time : timestamp)
| MsgReview (rev : joined review)
| MsgReviewResolved (reviewId : string)
| MsgSystem (at_time : timestamp).

Inductive ready_state := CONNECTING | OPEN | CLOSING | CLOSED.

Definition ready_state_eqb (a b : ready_state) : bool :=
  match a, b with
  | CONNECTING, CONNECTING | OPEN, OPEN | CLOSING, CLOSING | CLOSED, CLOSED => true
  | _, _ => false
  end.

(** A WebSocket: its identity, its [readyState], and the messages handed
    to its [send], oldest first. *)
Record client := mkClient {
  socket : nat;
  readyState : ready_state;
  sent : list message
}.

Record server := mkServer {
  srv_store : store;
  clients : list client
}.

Definition same_socket (n : nat) (c : client) : bool := Nat.eqb (socket c) n.

(** [clients.add(ws)] and [clients.delete(ws)] of the [Set]. *)
Definition clients_add (ws : client) (cl : list client) : list client :=
  if existsb (same_socket (socket ws)) cl then cl else cl ++ [ws].

Definition clients_delete (n : nat) (cl : list client) : list client :=
  filter (fun c => negb (same_socket n c)) cl.

(** [client.send(message)]: the socket library queues the text of an open
    socket; errors of the transport reach the socket's events, not the
    caller. *)
Definition send (m : message) (c : client) : client :=
  mkClient (socket c) (readyState c) (sent c ++ [m]).

(** [broadcast(data)] on the set of clients. *)
Definition broadcast_to (data : message) (cl : list client) : list client :=
  map (fun c => if ready_state_eqb (readyState c) OPEN then send data c else c) cl.

Definition broadcast (data : message) (srv : server) : server :=
  mkServer (srv_store srv) (broadcast_to data (clients srv)).

(** A call of a store operation from the server. *)
Definition call {A} (m : M A) (srv : server) : result A * server :=
  let (r, s) := m (srv_store srv) in (r, mkServer s (clients srv)).

(** [logAgentActivity(agentId, type, description, metadata = {})];
    [None] is the [null] of the catch branch. *)
Definition logAgentActivity (now : timestamp)
    (agentId type description : string) (md : metadata) (srv : server)
    : option Z * server :=
  match call (logActivity now agentId type description md) srv with
  | (Ok activityId, srv1) =>
      (Some activityId,
       broadcast (MsgActivity agentId
                    (mkActivity activityId agentId type description md now)) srv1)
  | (Throw _, srv1) => (None, srv1)
  end.

Inductive body :=
| BodyError (error : string)
| BodyTask (task : string)
| BodyStatus (status : string)
| BodyActivity (activityId : option Z)
| BodyReview (rev : joined review)
| BodyResolved (reviewId : string).

Record response := mkResponse {
  status_code : Z;
  response_body : body
}.

(** [!x] for a field of [req.body] that is absent or a string. *)
Definition falsy (x : option string) : bool :=
  match x with
  | None => true
  | Some s => String.eqb s ""
  end.

Definition field (x : option string) : string :=
  match x with Some s => s | None => "" end.

Definition internal_error (e : exn) : response :=
  mkResponse 500 (BodyError (exn_message e)).

(** [app.post('/api/agents/:id/task')] *)
Definition post_task (now : timestamp) (id : string) (task : option string)
    (srv : server) : response * server :=
  if falsy task then (mkResponse 400 (BodyError "Task is required"), srv)
  else
    match call (getAgent id) srv with
    | (Throw e, srv1) => (internal_error e, srv1)
    | (Ok None, srv1) => (mkResponse 404 (BodyError "Agent not found"), srv1)
    | (Ok (Some _), srv1) =>
        match call (updateAgentTask now id (field task)) srv1 with
        | (Throw e, srv2) => (internal_error e, srv2)
        | (Ok true, srv2) =>
            (mkResponse 200 (BodyTask (field task)),
             broadcast (MsgTaskUpdate id (field task) now) srv2)
        | (Ok false, srv2) =>
            (mkResponse 500 (BodyError "Failed to update task"), srv2)
        end
    end.

(** [app.post('/api/agents/:id/status')] *)
Definition post_status (now : timestamp) (id : string) (status : option string)
    (srv : server) : response * server :=
  if falsy status then (mkResponse 400 (BodyError "Status is required"), srv)
  else
    match call (getAgent id) srv with
    | (Throw e, srv1) => (internal_error e, srv1)
    | (Ok None, srv1) => (mkResponse 404 (BodyError "Agent not found"), srv1)
    | (Ok (Some _), srv1) =>
        match call (updateAgentStatus now id (field status)) srv1 with
        | (Throw e, srv2) => (internal_error e, srv2)
        | (Ok true, srv2) =>
            let (_, srv3) :=
              logAgentActivity now id "status_change"
                ("Status changed to " ++ field status)
                [("status", JStr (field status))] srv2 in
            (mkResponse 200 (BodyStatus (field status)),
             broadcast (MsgStatusUpdate id (field status) now) srv3)
        | (Ok false, srv2) =>
            (mkResponse 500 (BodyError "Failed to update status"), srv2)
        end
    end.

(** [app.post('/api/agents/:id/activity')] *)
Definition post_activity (now : timestamp) (id : string)
    (type description : option string) (md : option metadata)
    (srv : server) : response * server :=
  if falsy type || falsy description
  then (mkResponse 400 (BodyError "type and description are required"), srv)
  else
    match call (getAgent id) srv with
    | (Throw e, srv1) => (internal_error e, srv1)
    | (Ok None, srv1) => (mkResponse 404 (BodyError "Agent not found"), srv1)
    | (Ok (Some _), srv1) =>
        let (activityId, srv2) :=
          logAgentActivity now id (field type) (field description)
            (match md with Some m => m | None => [] end) srv1 in
        (mkResponse 201 (BodyActivity activityId), srv2)
    end.

(** [app.post('/api/reviews')] *)
Definition post_review (now : timestamp) (agentId question priority : option string)
    (srv : server) : response * server :=
  if falsy agentId || falsy question
  then (mkResponse 400 (BodyError "agentId and question are required"), srv)
  else
    let prio := if falsy priority then "medium" else field priority in
    match call (getAgent (field agentId)) srv with
    | (Throw e, srv1) => (internal_error e, srv1)
    | (Ok None, srv1) => (mkResponse 404 (BodyError "Agent not found"), srv1)
    | (Ok (Some ag), srv1) =>
        match call (addReview now (field agentId) (QText (field question)) prio) srv1 with
        | (Throw e, srv2) => (internal_error e, srv2)
        | (Ok reviewId, srv2) =>
            let rev :=
              mkJoined (mkReview reviewId (field agentId) (field question) prio
                          "pending" now None)
                (agent_name ag) (agent_emoji ag) in
            (mkResponse 201 (BodyReview rev), broadcast (MsgReview rev) srv2)
        end
    end.

(** [app.patch('/api/reviews/:id/resolve')].  The path parameter [id] is a
    text; it reaches the statements, the metadata of the record, the
    response and the message as that text.  [reading] is the number that
    the INTEGER affinity of [reviews.id] reads it as. *)
Definition patch_resolve (now : timestamp) (id : string) (reading : option Z)
    (srv : server) : response * server :=
  match call (resolveReview now (IdText id reading)) srv with
  | (Throw e, srv1) => (internal_error e, srv1)
  | (Ok false, srv1) => (mkResponse 404 (BodyError "Review not found"), srv1)
  | (Ok true, srv1) =>
      (mkResponse 200 (BodyResolved id), broadcast (MsgReviewResolved id) srv1)
  end.

(** [wss.on('connection', ws => ...)]: the new socket joins the set and is
    sent the snapshot; an exception of the two reads is caught and logged. *)
Definition on_connection (n : nat) (srv : server) : server :=
  let ws := mkClient n OPEN [] in
  let srv0 := mkServer (srv_store srv) (clients_add ws (clients srv)) in
  match call getAllAgents srv0 with
  | (Ok ags, srv1) =>
      match call getPendingReviews srv1 with
      | (Ok revs, srv2) =>
          mkServer (srv_store srv2)
            (map (fun c => if same_socket n c then send (MsgInit ags revs) c else c)
               (clients srv2))
      | (Throw _, srv2) => srv2
      end
  | (Throw _, srv1) => srv1
  end.

(** [ws.on('close', () => clients.delete(ws))] *)
Definition on_close (n : nat) (srv : server) : server :=
  mkServer (srv_store srv) (clients_delete n (clients srv)).

(** The socket library moving a connection to another [readyState] (the
    peer starts the closing handshake, the network breaks). *)
Definition set_ready_state (n : nat) (rs : ready_state) (srv : server) : server :=
  mkServer (srv_store srv)
    (map (fun c => if same_socket n c then mkClient (socket c) rs (sent c) else c)
       (clients srv)).

(** ** Scenarios and notions used by the properties *)

Ltac run :=
  unfold bind, ret, throw, require_db, conn, pragma_foreign_keys, write, set_file;
  cbn [db foreign_keys file fst snd].

(** The store that a successful [logActivity] leaves. *)
Definition logged (now : timestamp) (agentId type description : string) (md : metadata)
    (d : database) : database :=
  mkDb (update_where (is_agent agentId) (touch now) (agents d))
    (activities d ++ [mkActivity (activities_seq d + 1) agentId type description md now])
    (activities_seq d + 1) (reviews d) (reviews_seq d).

(** The file right after the first [initDb], run at second 100: the three
    seed agents, their three [system] records and the three sample
    reviews. *)
Definition seeded_db : database :=
  Eval vm_compute in file (snd (initDb 100 (fresh_store true))).

Definition seeded (fk : bool) : store := mkStore true fk seeded_db.

(** One viewer connected to the seeded server, then review 1 resolved by
    the route at second 101, and once more at second 102. *)
Definition one_viewer : server := mkServer (seeded true) [mkClient 1 OPEN []].
Definition resolved_once : server := snd (patch_resolve 101 "1" (Some 1) one_viewer).
Definition resolved_twice : server := snd (patch_resolve 102 "1" (Some 1) resolved_once).

Definition is_review_resolved_record (a : activity) : bool :=
  String.eqb (activity_type a) "review_resolved".

Definition of_agent (agentId : string) (a : activity) : bool :=
  String.eqb (activity_agent_id a) agentId.

(** [a] is not older than [b]. *)
Definition newer_first (a b : activity) : Prop :=
  activity_timestamp b <= activity_timestamp a.

(** The seeded store after the start-up record of [server.listen], logged
    for [buppy] in the second of the seeding. *)
Definition started : store :=
  snd (logActivity 100 "buppy" "system" "Puppy Station dashboard started" [] (seeded true)).

(** The scenario of the retention property: one [logActivity] for the
    agent at each of the clock readings. *)
Fixpoint log_each (nows : list timestamp) (agentId type description : string)
    (md : metadata) : M unit :=
  match nows with
  | [] => ret tt
  | now :: rest =>
      logActivity now agentId type description md ;;;
      log_each rest agentId type description md
  end.

(** Fifty-five inserts for [buppy], one a second, after the seeding. *)
Definition fifty_five : list timestamp := map Z.of_nat (seq 101 55).

Definition flooded : store :=
  snd (log_each fifty_five "buppy" "command" "ping" [] (seeded true)).

Definition rank (r : review) : Z := priority_rank (review_priority r).

(** [r] comes no later than [s] in the queue: a smaller rank, or the same
    rank and not created earlier. *)
Definition queue_order (r s : review) : Prop :=
  rank r < rank s \/ (rank r = rank s /\ review_created_at s <= review_created_at r).

(** The scenario of the queue property: three reviews of priority low,
    high, medium created in that order, then the read of the queue. *)
Definition low_high_medium (t1 t2 t3 : timestamp) (a1 a2 a3 q1 q2 q3 : string)
    : M (list (joined review)) :=
  addReview t1 a1 (QText q1) "low" ;;;
  addReview t2 a2 (QText q2) "high" ;;;
  addReview t3 a3 (QText q3) "medium" ;;;
  getPendingReviews.

(** A store with the three seed agents and no review. *)
Definition agents_only : database :=
  mkDb (agents seeded_db) (activities seeded_db) (activities_seq seeded_db) [] 0.

Definition delivered (data : message) (c : client) : client :=
  if ready_state_eqb (readyState c) OPEN then send data c else c.

(** The seeded server with an open viewer and one whose connection is
    closing. *)
Definition two_viewers : server :=
  mkServer (seeded true) [mkClient 1 OPEN []; mkClient 2 CLOSING []].

(** Any number of calls of [initDb], one at each clock reading. *)
Fixpoint initDb_each (nows : list timestamp) : M unit :=
  match nows with
  | [] => ret tt
  | now :: rest => initDb now ;;; initDb_each rest
  end.

(** The rows that the seeding adds to a file whose [agents] table is
    empty. *)
Definition seed_agent_rows (now : timestamp) : list agent :=
  map (fun a => mkAgent (seed_id a) (seed_name a) (seed_emoji a) (seed_role a)
                  (seed_model a) (seed_status a) (Some (seed_task a)) now)
    seed_agents.

Definition seed_activity_rows (now : timestamp) (seq0 : Z) : list activity :=
  [ mkActivity (seq0 + 1) "buppy" "system" "Buppy initialized and ready"
      [("source", JStr "database_seed")] now;
    mkActivity (seq0 + 1 + 1) "zoomie" "system" "Zoomie initialized and ready"
      [("source", JStr "database_seed")] now;
    mkActivity (seq0 + 1 + 1 + 1) "mechly" "system" "Mechly initialized and ready"
      [("source", JStr "database_seed")] now ].

Definition seed_review_rows (now : timestamp) (seq0 : Z) : list review :=
  [ mkReview (seq0 + 1) "zoomie"
      "Should we use SwiftUI or UIKit for the AIGIS iOS enforcement module?"
      "high" "pending" now None;
    mkReview (seq0 + 1 + 1) "mechly"
      "What database should we use for the agent session storage - SQLite or PostgreSQL?"
      "medium" "pending" now None;
    mkReview (seq0 + 1 + 1 + 1) "buppy"
      "Should we add voice notifications for urgent reviews?"
      "low" "pending" now None ].

Ltac norm_db := cbn [agents activities activities_seq reviews reviews_seq app].

(** ** The rest of db.js and of the server *)

(** [getStats()]: the four row counts. *)
Record stats := mkStats {
  stats_agents : Z;
  stats_activities : Z;
  stats_reviews : Z;
  stats_pendingReviews : Z
}.

Definition getStats : M stats :=
  require_db ;;;
  d <- conn ;;
  ret (mkStats (Z.of_nat (List.length (agents d)))
         (Z.of_nat (List.length (activities d)))
         (Z.of_nat (List.length (reviews d)))
         (Z.of_nat (List.length (filter is_pending (reviews d))))).

(** The writes that [db.js] exports, as requests to the module. *)
Inductive op :=
| OpInitDb
| OpCloseDb
| OpLogActivity (agentId type description : string) (md : metadata)
| OpUpdateAgentTask (agentId task : string)
| OpUpdateAgentStatus (agentId status : string)
| OpAddReview (agentId : string) (question : question_value) (priority : string)
| OpResolveReview (reviewId : id_value).

Definition apply_op (now : timestamp) (o : op) : M unit :=
  match o with
  | OpInitDb => initDb now ;;; ret tt
  | OpCloseDb => closeDb
  | OpLogActivity agentId type description md =>
      logActivity now agentId type description md ;;; ret tt
  | OpUpdateAgentTask agentId task => updateAgentTask now agentId task ;;; ret tt
  | OpUpdateAgentStatus agentId status => updateAgentStatus now agentId status ;;; ret tt
  | OpAddReview agentId question priority =>
      addReview now agentId question priority ;;; ret tt
  | OpResolveReview reviewId => resolveReview now reviewId ;;; ret tt
  end.

(** The store after a request made at a clock reading, whether it
    returned or threw. *)
Definition step (c : timestamp * op) (s : store) : store :=
  snd (apply_op (fst c) (snd c) s).

Definition run_ops (l : list (timestamp * op)) (s : store) : store :=
  fold_left (fun s c => step c s) l s.

(** The answer of a GET route: the JSON value, or a status with an error
    text. *)
Inductive get_response (A : Type) :=
| GetJson (a : A)
| GetError (status : Z) (error : string).
Arguments GetJson {A} a.
Arguments GetError {A} status error.

(** [app.get('/api/agents')] *)
Definition get_agents (srv : server) : get_response (list agent) * server :=
  match call getAllAgents srv with
  | (Ok ags, srv1) => (GetJson ags, srv1)
  | (Throw e, srv1) => (GetError 500 (exn_message e), srv1)
  end.

(** [app.get('/api/agents/:id')] *)
Definition get_agent (id : string) (srv : server) : get_response agent * server :=
  match call (getAgent id) srv with
  | (Ok (Some ag), srv1) => (GetJson ag, srv1)
  | (Ok None, srv1) => (GetError 404 "Agent not found", srv1)
  | (Throw e, srv1) => (GetError 500 (exn_message e), srv1)
  end.

(** [app.get('/api/agents/:id/activity')] *)
Definition get_agent_activity (id : string) (srv : server)
    : get_response (list activity) * server :=
  match call (getAgent id) srv with
  | (Ok (Some _), srv1) =>
      match call (getAgentActivities id 20) srv1 with
      | (Ok acts, srv2) => (GetJson acts, srv2)
      | (Throw e, srv2) => (GetError 500 (exn_message e), srv2)
      end
  | (Ok None, srv1) => (GetError 404 "Agent not found", srv1)
  | (Throw e, srv1) => (GetError 500 (exn_message e), srv1)
  end.

(** [parseInt(req.query.limit) || 20], on the result of [parseInt]
    ([None] is [NaN]). *)
Definition limit_or_20 (parsed : option Z) : Z :=
  match parsed with
  | None => 20
  | Some n => if n =? 0 then 20 else n
  end.

(** [app.get('/api/activities')] *)
Definition get_activities (parsed : option Z) (srv : server)
    : get_response (list (joined activity)) * server :=
  match call (getRecentActivities (limit_or_20 parsed)) srv with
  | (Ok acts, srv1) => (GetJson acts, srv1)
  | (Throw e, srv1) => (GetError 500 (exn_message e), srv1)
  end.

(** [app.get('/api/reviews')] *)
Definition get_reviews (srv : server) : get_response (list (joined review)) * server :=
  match call getPendingReviews srv with
  | (Ok revs, srv1) => (GetJson revs, srv1)
  | (Throw e, srv1) => (GetError 500 (exn_message e), srv1)
  end.

(** [s.includes(needle)] *)
Definition includes (needle s : string) : bool :=
  match index 0 needle s with
  | Some _ => true
  | None => false
  end.

(** [path.basename(filePath)] for POSIX paths: the last segment between
    slashes that is not empty. *)
Fixpoint basename_from (segment last : string) (p : string) : string :=
  match p with
  | EmptyString => if String.eqb segment "" then last else segment
  | String c rest =>
      if Ascii.eqb c "/"%char
      then basename_from "" (if String.eqb segment "" then last else segment) rest
      else basename_from (segment ++ String c "") last rest
  end.

Definition basename (p : string) : string := basename_from "" "" p.

(** The agent and the activity type that the watcher reads off a changed
    path. *)
Definition watched_agent (filePath : string) : string :=
  let agentId := "buppy" in
  let agentId := if includes "zoomie" filePath then "zoomie" else agentId in
  if includes "mechly" filePath then "mechly" else agentId.

Definition watched_type (fileName : string) : string :=
  let type := "file_update" in
  let type := if includes "SOUL" fileName then "soul_update" else type in
  let type := if includes "IDENTITY" fileName then "identity_update" else type in
  let type := if includes "config" fileName then "config_update" else type in
  if includes "MEMORY" fileName then "memory_update" else type.

(** [watcher.on('change', filePath => ...)] *)
Definition on_change (now : timestamp) (filePath : string) (srv : server)
    : option Z * server :=
  let fileName := basename filePath in
  logAgentActivity now (watched_agent filePath) (watched_type fileName)
    ("Updated " ++ fileName) [("file", JStr filePath)] srv.

(** The arrays of the periodic generator. *)
Definition generator_commands : list string :=
  [ "Checked system status"; "Reviewed agent activities"; "Updated configuration";
    "Processed user request"; "Synced with OpenClaw gateway";
    "Polled for new messages"; "Ran heartbeat check" ].

Definition generator_agents : list string := ["buppy"; "zoomie"; "mechly"].

(** The body of the 60-second [setInterval]; [i] and [j] are the two
    values of [Math.floor(Math.random() * length)]. *)
Definition on_tick (now : timestamp) (i j : nat) (srv : server) : option Z * server :=
  match nth_error generator_agents i, nth_error generator_commands j with
  | Some randomAgent, Some randomCommand =>
      logAgentActivity now randomAgent "command" randomCommand
        [("automated", JBool true)] srv
  | _, _ => (None, srv)
  end.

(** The callback of [server.listen]. *)
Definition on_listen (now : timestamp) (version : string) (port : Z) (srv : server)
    : option Z * server :=
  logAgentActivity now "buppy" "system" "Puppy Station dashboard started"
    [("version", JStr version); ("port", JNum port)] srv.

(** Invariants of the file. *)
Definition agent_ids_unique (d : database) : Prop :=
  NoDup (map agent_id (agents d)).

Definition activity_ids_increasing (d : database) : Prop :=
  StronglySorted Z.lt (map activity_id (activities d)) /\
  Forall (fun a => activity_id a <= activities_seq d) (activities d).

Definition review_ids_increasing (d : database) : Prop :=
  StronglySorted Z.lt (map review_id (reviews d)) /\
  Forall (fun r => review_id r <= reviews_seq d) (reviews d).

Definition references_hold (d : database) : Prop :=
  Forall (fun a => agent_exists (activity_agent_id a) d = true) (activities d) /\
  Forall (fun r => agent_exists (review_agent_id r) d = true) (reviews d).

Definition review_coherent (r : review) : Prop :=
  (review_status r = "pending" /\ review_resolved_at r = None) \/
  (review_status r = "resolved" /\ exists t, review_resolved_at r = Some t).

(** The fields of an agent that no statement of [db.js] updates. *)
Definition identity_of (a : agent) : string * string * string * string * string :=
  (agent_id a, agent_name a, agent_emoji a, agent_role a, agent_model a).

(** The changes that the statements of [db.js] make to the file: an
    activity logged, rows of [agents] updated outside their identity, a
    pending review inserted, reviews resolved by id, the seeding of an empty
    [agents] table, and their sequences.  [fk] is the pragma: with it on, an
    insert that names an agent needs the agent. *)
Inductive change (fk : bool) : database -> database -> Prop :=
| change_none d : change fk d d
| change_log now agentId type description md d :
    (fk = true -> agent_exists agentId d = true) ->
    change fk d (logged now agentId type description md d)
| change_agents p f d :
    (forall a, identity_of (f a) = identity_of a) ->
    change fk d
      (mkDb (update_where p f (agents d)) (activities d) (activities_seq d)
         (reviews d) (reviews_seq d))
| change_review now agentId question priority d :
    (fk = true -> agent_exists agentId d = true) ->
    change fk d
      (mkDb (agents d) (activities d) (activities_seq d)
         (reviews d ++
            [mkReview (reviews_seq d + 1) agentId question priority "pending" now None])
         (reviews_seq d + 1))
| change_resolve now reviewId d :
    change fk d
      (mkDb (agents d) (activities d) (activities_seq d)
         (update_where (has_id reviewId) (set_resolved now) (reviews d))
         (reviews_seq d))
| change_seed now d :
    agents d = [] ->
    change fk d
      (mkDb (seed_agent_rows now)
         (activities d ++ seed_activity_rows now (activities_seq d))
         (activities_seq d + 1 + 1 + 1)
         (reviews d ++ seed_review_rows now (reviews_seq d))
         (reviews_seq d + 1 + 1 + 1))
| change_trans d1 d2 d3 : change fk d1 d2 -> change fk d2 d3 -> change fk d1 d3.

(** The identities of the three seed agents. *)
Definition seed_identities : list (string * string * string * string * string) :=
  map identity_of (seed_agent_rows 0).

(** [r'] is the row of review [r] at a later time: the same review, and
    resolved if [r] was. *)
Definition review_kept (r r' : review) : Prop :=
  review_id r' = review_id r /\ review_agent_id r' = review_agent_id r /\
  review_question r' = review_question r /\ review_priority r' = review_priority r /\
  review_created_at r' = review_created_at r /\
  (review_status r = "resolved" -> review_status r' = "resolved").

(** A response that refuses the request: 400 or 404. *)
Definition rejected (r : response) : bool :=
  (status_code r =? 400) || (status_code r =? 404).

(** The clients after the messages were broadcast, first to last. *)
Definition broadcast_all (msgs : list message) (cl : list client) : list client :=
  fold_left (fun cl m => broadcast_to m cl) msgs cl.

(** What a handler may do to the connections: broadcast at most two
    messages. *)
Definition fans_out (srv srv' : server) : Prop :=
  exists msgs, (List.length msgs <= 2)%nat /\
               clients srv' = broadcast_all msgs (clients srv).

(** [needle] occurs in [s]. *)
Definition contains (needle s : string) : Prop :=
  exists pre post, s = pre ++ needle ++ post.

(** ** The flat-file server (the earlier server.js)

    The same service on two JSON files, [agents.json] and [reviews.json],
    read and written whole by every handler.  The clock counts
    milliseconds here; an id is the decimal text of the clock reading. *)
Module Legacy.

(** [Date.now().toString()] *)
Definition toString (n : Z) : string := NilZero.string_of_int (Z.to_int n).

Record activity := mkActivity {
  activity_id : string;
  activity_type : string;
  activity_description : string;
  activity_metadata : metadata;
  activity_timestamp : timestamp
}.

Record agent := mkAgent {
  agent_id : string;
  agent_name : string;
  agent_emoji : string;
  agent_role : string;
  agent_model : string;
  agent_workspace : string;
  agent_status : string;
  agent_summary : string;
  agent_activities : list activity;
  agent_lastActive : timestamp
}.

Record review := mkReview {
  review_id : string;
  review_agentId : string;
  review_agentName : string;
  review_agentEmoji : string;
  review_question : string;
  review_priority : string;
  review_status : string;
  review_timestamp : timestamp;
  review_resolvedAt : option timestamp
}.

Inductive message :=
| MsgInit (ags : list agent) (revs : list review)
| MsgReview (rev : review)
| MsgReviewResolved (reviewId : string)
| MsgActivity (agentId : string) (act : activity)
| MsgSummary (agentId summary : string)
| MsgSystem (at_time : timestamp).

Record client := mkClient {
  socket : nat;
  readyState : ready_state;
  sent : list message
}.

(** The two files and the set of connections. *)
Record server := mkServer {
  agents : list agent;
  tokensUsed : Z;
  lastReset : timestamp;
  reviews : list review;
  clients : list client
}.

Definition with_agents (srv : server) (ags : list agent) : server :=
  mkServer ags (tokensUsed srv) (lastReset srv) (reviews srv) (clients srv).

Definition with_reviews (srv : server) (revs : list review) : server :=
  mkServer (agents srv) (tokensUsed srv) (lastReset srv) revs (clients srv).

Definition send (m : message) (c : client) : client :=
  mkClient (socket c) (readyState c) (sent c ++ [m]).

(** [broadcast(data)] *)
Definition broadcast (data : message) (srv : server) : server :=
  mkServer (agents srv) (tokensUsed srv) (lastReset srv) (reviews srv)
    (map (fun c => if ready_state_eqb (readyState c) OPEN then send data c else c)
       (clients srv)).

Definition is_agent (id : string) (a : agent) : bool := String.eqb (agent_id a) id.
Definition is_review (id : string) (r : review) : bool := String.eqb (review_id r) id.

(** A change made to the object that [find] returned: the first element
    that satisfies [p]. *)
Fixpoint update_first {A} (p : A -> bool) (f : A -> A) (l : list A) : list A :=
  match l with
  | [] => []
  | x :: rest => if p x then f x :: rest else x :: update_first p f rest
  end.

(** [addReview(agentId, question, priority = 'medium')]; [None] is
    [null]. *)
Definition addReview (now : timestamp) (agentId question priority : string)
    (srv : server) : option review * server :=
  match find (is_agent agentId) (agents srv) with
  | None => (None, srv)
  | Some agent =>
      let review := mkReview (toString now) agentId (agent_name agent)
                      (agent_emoji agent) question priority "pending" now None in
      (Some review,
       broadcast (MsgReview review)
         (with_reviews srv (firstn 20 (review :: reviews srv))))
  end.

Definition resolve (now : timestamp) (r : review) : review :=
  mkReview (review_id r) (review_agentId r) (review_agentName r) (review_agentEmoji r)
    (review_question r) (review_priority r) "resolved" (review_timestamp r) (Some now).

(** [resolveReview(reviewId)]; [None] is [undefined]. *)
Definition resolveReview (now : timestamp) (reviewId : string) (srv : server)
    : option review * server :=
  match find (is_review reviewId) (reviews srv) with
  | Some review =>
      (Some (resolve now review),
       broadcast (MsgReviewResolved reviewId)
         (with_reviews srv (update_first (is_review reviewId) (resolve now) (reviews srv))))
  | None => (None, srv)
  end.

Definition add_to (act : activity) (now : timestamp) (a : agent) : agent :=
  mkAgent (agent_id a) (agent_name a) (agent_emoji a) (agent_role a) (agent_model a)
    (agent_workspace a) (agent_status a) (agent_summary a)
    (firstn 50 (act :: agent_activities a)) now.

(** [addActivity(agentId, type, description, metadata = {})] *)
Definition addActivity (now : timestamp) (agentId type description : string)
    (md : metadata) (srv : server) : server :=
  match find (is_agent agentId) (agents srv) with
  | Some agent =>
      let act := mkActivity (toString now) type description md now in
      broadcast
        (MsgActivity agentId
           (match agent_activities (add_to act now agent) with
            | first :: _ => first
            | [] => act
            end))
        (with_agents srv (update_first (is_agent agentId) (add_to act now) (agents srv)))
  | None => srv
  end.

Definition set_summary (summary : string) (now : timestamp) (a : agent) : agent :=
  mkAgent (agent_id a) (agent_name a) (agent_emoji a) (agent_role a) (agent_model a)
    (agent_workspace a) (agent_status a) summary (agent_activities a) now.

(** [updateSummary(agentId, summary)] *)
Definition updateSummary (now : timestamp) (agentId summary : string) (srv : server)
    : server :=
  match find (is_agent agentId) (agents srv) with
  | Some _ =>
      broadcast (MsgSummary agentId summary)
        (with_agents srv
           (update_first (is_agent agentId) (set_summary summary now) (agents srv)))
  | None => srv
  end.

Definition is_pending (r : review) : bool := String.eqb (review_status r) "pending".

(** [app.get('/api/agents/:id/activity')]; [None] is the 404. *)
Definition get_agent_activity (id : string) (srv : server) : option (list activity) :=
  match find (is_agent id) (agents srv) with
  | Some agent => Some (firstn 20 (agent_activities agent))
  | None => None
  end.

(** [app.get('/api/reviews')] *)
Definition get_reviews (srv : server) : list review :=
  filter is_pending (reviews srv).

Inductive reply :=
| Created (rev : review)
| Resolved (rev : review)
| Refused (status : Z) (error : string).

(** [app.post('/api/reviews')] *)
Definition post_review (now : timestamp) (agentId question priority : option string)
    (srv : server) : reply * server :=
  if falsy agentId || falsy question
  then (Refused 400 "agentId and question are required", srv)
  else
    match addReview now (field agentId) (field question)
            (if falsy priority then "medium" else field priority) srv with
    | (None, srv1) => (Refused 404 "Agent not found", srv1)
    | (Some review, srv1) => (Created review, srv1)
    end.

(** [app.patch('/api/reviews/:id/resolve')] *)
Definition patch_resolve (now : timestamp) (id : string) (srv : server)
    : reply * server :=
  match resolveReview now id srv with
  | (None, srv1) => (Refused 404 "Review not found", srv1)
  | (Some review, srv1) => (Resolved review, srv1)
  end.

(** One [addActivity] for the agent at each clock reading, with the type,
    description and metadata given for it. *)
Fixpoint add_each (items : list (timestamp * string * string * metadata))
    (agentId : string) (srv : server) : server :=
  match items with
  | [] => srv
  | (now, type, description, md) :: rest =>
      add_each rest agentId (addActivity now agentId type description md srv)
  end.

Definition record_of (item : timestamp * string * string * metadata) : activity :=
  let '(now, type, description, md) := item in
  mkActivity (toString now) type description md now.

End Legacy.

(** A flat-file server: [buppy] holds 49 records, two reviews are stored,
    one viewer is open and one is closing. *)
Definition legacy_sample : Legacy.server :=
  Legacy.mkServer
    [ Legacy.mkAgent "buppy" "Buppy" "🐕" "Primary Coordinator" "moonshot/kimi-k2.5"
        "~/.openclaw/workspace/" "active"
        "Coordinating agent fleet and managing Admin requests"
        (repeat (Legacy.mkActivity "0" "command" "Checked system status" [] 0) 49) 0 ]
    0 0
    [ Legacy.mkReview "1" "zoomie" "Zoomie" "⚡"
        "Should we use SwiftUI or UIKit for the AIGIS iOS enforcement module?"
        "high" "pending" 3600000 None;
      Legacy.mkReview "2" "mechly" "Mechly" "🔧"
        "What database should we use for the agent session storage - SQLite or PostgreSQL?"
        "medium" "pending" 0 None ]
    [ Legacy.mkClient 1 OPEN []; Legacy.mkClient 2 CLOSING [] ].

Definition legacy_two_items : list (timestamp * string * string * metadata) :=
  [(1, "command", "Checked system status", []);
   (2, "file_update", "Updated SOUL.md", [("file", JStr "SOUL.md")])].

(** * Properties *)

(** ** ORDER BY, LIMIT and UPDATE on lists of rows *)

Section OrderByFacts.
Context {A : Type} (precedes : A -> A -> bool).

Lemma insert_row_perm (x : A) (l : list A) :
  Permutation (x :: l) (insert_row precedes x l).
Proof.
  induction l as [|y l IH]; simpl; [reflexivity|].
  destruct (precedes x y); [reflexivity|].
  rewrite perm_swap. now constructor.
Qed.

Lemma order_by_perm (l : list A) : Permutation l (order_by precedes l).
Proof.
  induction l as [|x l IH]; simpl; [constructor|].
  rewrite <- insert_row_perm. now constructor.
Qed.

Lemma order_by_length (l : list A) :
  List.length (order_by precedes l) = List.length l.
Proof. symmetry. apply Permutation_length, order_by_perm. Qed.

Lemma order_by_In (x : A) (l : list A) : In x (order_by precedes l) <-> In x l.
Proof.
  split; apply Permutation_in; [symmetry|]; apply order_by_perm.
Qed.

Hypothesis precedes_total : forall x y, precedes x y = false -> precedes y x = true.
Hypothesis precedes_trans :
  forall x y z, precedes x y = true -> precedes y z = true -> precedes x z = true.

Lemma insert_row_sorted (x : A) (l : list A) :
  StronglySorted (fun a b => precedes a b = true) l ->
  StronglySorted (fun a b => precedes a b = true) (insert_row precedes x l).
Proof.
  induction 1 as [|y l Hl IH Hy]; simpl.
  - repeat constructor.
  - destruct (precedes x y) eqn:E.
    + constructor; [now constructor|].
      constructor; [exact E|].
      rewrite Forall_forall in *. intros z Hz.
      apply precedes_trans with y; [exact E | now apply Hy].
    + constructor; [exact IH|].
      rewrite Forall_forall in *. intros z Hz.
      apply (Permutation_in _ (Permutation_sym (insert_row_perm x l))) in Hz.
      destruct Hz as [<-|Hz]; [now apply precedes_total | now apply Hy].
Qed.

Lemma order_by_sorted (l : list A) :
  StronglySorted (fun a b => precedes a b = true) (order_by precedes l).
Proof.
  induction l as [|x l IH]; simpl; [constructor | now apply insert_row_sorted].
Qed.
End OrderByFacts.

Lemma StronglySorted_firstn {A} (R : A -> A -> Prop) (n : nat) (l : list A) :
  StronglySorted R l -> StronglySorted R (firstn n l).
Proof.
  intros H. revert n. induction H as [|x l Hl IH Hx]; intros [|n]; simpl;
    try constructor; auto.
  rewrite Forall_forall in *. intros y Hy. apply Hx.
  rewrite <- (firstn_skipn n l). apply in_or_app. now left.
Qed.

Lemma StronglySorted_app_cross {A} (R : A -> A -> Prop) (l1 l2 : list A) :
  StronglySorted R (l1 ++ l2)%list -> forall x y, In x l1 -> In y l2 -> R x y.
Proof.
  induction l1 as [|a l1 IH]; simpl; intros H x y Hx Hy; [contradiction|].
  inversion H as [|? ? Hs Hall]; subst.
  destruct Hx as [<-|Hx]; [|now apply IH].
  rewrite Forall_forall in Hall. apply Hall, in_or_app. now right.
Qed.

Lemma sql_limit_length {A} (n : Z) (l : list A) :
  0 <= n -> List.length (sql_limit n l) = Nat.min (Z.to_nat n) (List.length l).
Proof.
  intros Hn. unfold sql_limit.
  destruct (n <? 0) eqn:E; [apply Z.ltb_lt in E; lia|].
  apply length_firstn.
Qed.

Lemma sql_limit_split {A} (n : Z) (l : list A) :
  exists rest, l = (sql_limit n l ++ rest)%list.
Proof.
  unfold sql_limit. destruct (n <? 0).
  - exists []. now rewrite app_nil_r.
  - exists (skipn (Z.to_nat n) l). now rewrite firstn_skipn.
Qed.

Lemma sql_limit_sorted {A} (R : A -> A -> Prop) (n : Z) (l : list A) :
  StronglySorted R l -> StronglySorted R (sql_limit n l).
Proof.
  intros H. unfold sql_limit. destruct (n <? 0); [exact H|].
  now apply StronglySorted_firstn.
Qed.

Lemma changes_pos {A} (p : A -> bool) (l : list A) :
  (0 <? changes p l) = existsb p l.
Proof.
  unfold changes. induction l as [|x l IH]; simpl; [reflexivity|].
  destruct (p x); simpl; [|exact IH].
  apply Z.ltb_lt. lia.
Qed.

Lemma update_where_none {A} (p : A -> bool) (f : A -> A) (l : list A) :
  existsb p l = false -> update_where p f l = l.
Proof.
  unfold update_where. induction l as [|x l IH]; simpl; [reflexivity|].
  destruct (p x); simpl; [discriminate|]. intros H. now rewrite IH.
Qed.

Lemma update_where_twice {A} (p : A -> bool) (f g : A -> A) (l : list A) :
  (forall x, p (f x) = p x) ->
  update_where p g (update_where p f l) = update_where p (fun x => g (f x)) l.
Proof.
  intros Hp. unfold update_where. rewrite map_map. apply map_ext.
  intros x. destruct (p x) eqn:E; [now rewrite Hp, E | now rewrite E].
Qed.

Lemma existsb_update_where {A} (p q : A -> bool) (f : A -> A) (l : list A) :
  (forall x, q (f x) = q x) ->
  existsb q (update_where p f l) = existsb q l.
Proof.
  intros Hq. unfold update_where. induction l as [|x l IH]; simpl; [reflexivity|].
  rewrite IH. destruct (p x); [now rewrite Hq | reflexivity].
Qed.

Lemma find_update_where {A} (p : A -> bool) (f : A -> A) (l : list A) :
  (forall x, p (f x) = p x) ->
  find p (update_where p f l) = option_map f (find p l).
Proof.
  intros Hp. unfold update_where. induction l as [|x l IH]; simpl; [reflexivity|].
  destruct (p x) eqn:E; [now rewrite Hp, E | now rewrite E].
Qed.

Lemma find_existsb {A} (p : A -> bool) (l : list A) :
  existsb p l = match find p l with Some _ => true | None => false end.
Proof.
  induction l as [|x l IH]; simpl; [reflexivity|]. now destruct (p x).
Qed.

(** ** The store operations on an open connection *)

Lemma is_agent_touch (id : string) (now : timestamp) (a : agent) :
  is_agent id (touch now a) = is_agent id a.
Proof. reflexivity. Qed.

Lemma is_agent_set_task (id task : string) (now : timestamp) (a : agent) :
  is_agent id (set_task task now a) = is_agent id a.
Proof. reflexivity. Qed.

Lemma is_agent_set_status (id status : string) (now : timestamp) (a : agent) :
  is_agent id (set_status status now a) = is_agent id a.
Proof. reflexivity. Qed.

Lemma is_review_set_resolved (id : Z) (now : timestamp) (r : review) :
  is_review id (set_resolved now r) = is_review id r.
Proof. reflexivity. Qed.

Lemma logActivity_open (now : timestamp) (agentId type description : string)
    (md : metadata) (fk : bool) (d : database) :
  logActivity now agentId type description md (mkStore true fk d) =
  if fk && negb (agent_exists agentId d)
  then (Throw fk_failed, mkStore true fk d)
  else (Ok (activities_seq d + 1),
        mkStore true fk (logged now agentId type description md d)).
Proof.
  unfold logActivity, insert_activity, check_agent_fk, update_agents. run.
  destruct (fk && negb (agent_exists agentId d)); reflexivity.
Qed.

Lemma logActivity_closed (now : timestamp) (agentId type description : string)
    (md : metadata) (fk : bool) (d : database) :
  logActivity now agentId type description md (mkStore false fk d) =
  (Throw (Error "Database not initialized. Call initDb() first."), mkStore false fk d).
Proof. reflexivity. Qed.

Lemma agent_exists_logged (id : string) (now : timestamp)
    (agentId type description : string) (md : metadata) (d : database) :
  agent_exists id (logged now agentId type description md d) = agent_exists id d.
Proof.
  unfold agent_exists, logged; cbn [agents].
  apply existsb_update_where. intros a. apply is_agent_touch.
Qed.

Lemma updateAgentTask_open (now : timestamp) (agentId task : string)
    (fk : bool) (d : database) :
  updateAgentTask now agentId task (mkStore true fk d) =
  if agent_exists agentId d
  then (Ok true,
        mkStore true fk
          (mkDb (update_where (is_agent agentId) (set_task task now) (agents d))
             (activities d ++
                [mkActivity (activities_seq d + 1) agentId "task_update"
                   ("Updated task: " ++ task) [("task", JStr task)] now])
             (activities_seq d + 1) (reviews d) (reviews_seq d)))
  else (Ok false, mkStore true fk d).
Proof.
  unfold updateAgentTask, update_agents. run.
  rewrite changes_pos. fold (agent_exists agentId d).
  destruct (agent_exists agentId d) eqn:E.
  - rewrite logActivity_open.
    assert (E' : agent_exists agentId
                   (mkDb (update_where (is_agent agentId) (set_task task now) (agents d))
                      (activities d) (activities_seq d) (reviews d) (reviews_seq d)) = true).
    { unfold agent_exists in *; cbn [agents].
      rewrite existsb_update_where; [exact E|]. intros a. apply is_agent_set_task. }
    rewrite E', andb_false_r. unfold logged. norm_db.
    rewrite update_where_twice by (intros a; apply is_agent_set_task).
    reflexivity.
  - rewrite update_where_none by exact E. now destruct d.
Qed.

Lemma updateAgentStatus_open (now : timestamp) (agentId status : string)
    (fk : bool) (d : database) :
  updateAgentStatus now agentId status (mkStore true fk d) =
  (Ok (agent_exists agentId d),
   mkStore true fk
     (mkDb (update_where (is_agent agentId) (set_status status now) (agents d))
        (activities d) (activities_seq d) (reviews d) (reviews_seq d))).
Proof.
  unfold updateAgentStatus, update_agents. run. now rewrite changes_pos.
Qed.

Lemma getAgent_open (agentId : string) (fk : bool) (d : database) :
  getAgent agentId (mkStore true fk d) =
  (Ok (find (is_agent agentId) (agents d)), mkStore true fk d).
Proof. reflexivity. Qed.

(** ** logActivity *)

(** C4, as stated, fails: for an agent id that is not in the table,
    [logActivity] never fails with a [NotFoundError].  With foreign keys
    enforced the INSERT throws the engine's [SqliteError]; without, the record
    is inserted and the call returns its id. *)
Lemma logActivity_unknown_agent_no_NotFoundError :
  agent_exists "ghost" seeded_db = false /\
  (exists e, fst (logActivity 100 "ghost" "command" "ls" [] (seeded true)) = Throw e /\
             exn_name e = "SqliteError" /\ exn_name e <> "NotFoundError") /\
  fst (logActivity 100 "ghost" "command" "ls" [] (seeded false)) = Ok 4 /\
  activities (file (snd (logActivity 100 "ghost" "command" "ls" [] (seeded false)))) =
    (activities seeded_db ++ [mkActivity 4 "ghost" "command" "ls" [] 100])%list.
Proof.
  split; [vm_compute; reflexivity|]. split.
  - exists fk_failed. split; [vm_compute; reflexivity|].
    split; [reflexivity|discriminate].
  - split; vm_compute; reflexivity.
Qed.

(** C4 (amended): on an open connection, for an agent id that is not in
    the table and with foreign keys enforced, [logActivity] throws the
    engine's foreign-key [SqliteError] and leaves the store as it was (no
    record inserted); for an agent id in the table it returns the id of
    the one record it appends to the log, sets [updated_at] of that agent
    to the current time, and touches nothing else. *)
Theorem logActivity_agent_reference (now : timestamp)
    (agentId type description : string) (md : metadata) (fk : bool) (d : database) :
  (agent_exists agentId d = false -> fk = true ->
   logActivity now agentId type description md (mkStore true fk d) =
     (Throw fk_failed, mkStore true fk d) /\
   exn_name fk_failed = "SqliteError") /\
  (agent_exists agentId d = true ->
   exists d',
     logActivity now agentId type description md (mkStore true fk d) =
       (Ok (activities_seq d + 1), mkStore true fk d') /\
     activities d' =
       (activities d ++
          [mkActivity (activities_seq d + 1) agentId type description md now])%list /\
     agents d' = update_where (is_agent agentId) (touch now) (agents d) /\
     (forall a, In a (agents d') -> agent_id a = agentId -> agent_updated_at a = now) /\
     (forall a, In a (agents d) -> agent_id a <> agentId -> In a (agents d')) /\
     reviews d' = reviews d).
Proof.
  split.
  - intros Hno ->. rewrite logActivity_open, Hno. split; reflexivity.
  - intros Hyes. rewrite logActivity_open, Hyes, andb_false_r.
    eexists; split; [reflexivity|]. cbn [logged activities agents reviews].
    repeat split.
    + intros a Ha Hid. unfold update_where in Ha. apply in_map_iff in Ha.
      destruct Ha as [b [Hb _]]. unfold is_agent in Hb.
      destruct (String.eqb (agent_id b) agentId) eqn:E.
      * now subst a.
      * subst a. apply String.eqb_neq in E. contradiction.
    + intros a Ha Hid. unfold update_where. apply in_map_iff. exists a.
      split; [|exact Ha]. unfold is_agent.
      apply String.eqb_neq in Hid. now rewrite Hid.
Qed.

Lemma logActivity_agent_reference_witness :
  (agent_exists "ghost" seeded_db = false /\
   logActivity 7 "ghost" "command" "ls" [] (seeded true) =
     (Throw fk_failed, seeded true)) /\
  (agent_exists "buppy" seeded_db = true /\
   fst (logActivity 7 "buppy" "command" "ls" [] (seeded true)) = Ok 4).
Proof.
  assert (Hg : agent_exists "ghost" seeded_db = false) by (vm_compute; reflexivity).
  assert (Hb : agent_exists "buppy" seeded_db = true) by (vm_compute; reflexivity).
  pose proof (logActivity_agent_reference 7 "ghost" "command" "ls" [] true seeded_db)
    as [Hunknown _].
  pose proof (logActivity_agent_reference 7 "buppy" "command" "ls" [] true seeded_db)
    as [_ Hknown].
  split; split.
  - exact Hg.
  - apply Hunknown; [exact Hg | reflexivity].
  - exact Hb.
  - destruct (Hknown Hb) as [d' [H _]]. unfold seeded. now rewrite H.
Defined.

(** ** updateAgentTask *)

(** C7, as stated, fails: for an agent id that is not in the table
    [updateAgentTask] does not fail with a [NotFoundError].  It throws
    nothing and returns [false], with foreign keys enforced or not, and the
    store stays as it was.  The 404 of the task route comes from the
    [getAgent] lookup of the route, which answers before [updateAgentTask]
    is called. *)
Lemma updateAgentTask_unknown_agent_returns_false :
  agent_exists "ghost" seeded_db = false /\
  updateAgentTask 100 "ghost" "Ship it" (seeded true) = (Ok false, seeded true) /\
  updateAgentTask 100 "ghost" "Ship it" (seeded false) = (Ok false, seeded false) /\
  ~ (exists e, fst (updateAgentTask 100 "ghost" "Ship it" (seeded true)) = Throw e) /\
  fst (call (getAgent "ghost") (mkServer (seeded true) [])) = Ok None /\
  fst (post_task 100 "ghost" (Some "Ship it") (mkServer (seeded true) [])) =
    mkResponse 404 (BodyError "Agent not found").
Proof.
  split; [vm_compute; reflexivity|].
  split; [vm_compute; reflexivity|].
  split; [vm_compute; reflexivity|].
  split; [|split; vm_compute; reflexivity].
  intros [e H]. vm_compute in H. discriminate.
Qed.

(** C7 (amended): on an open connection, for an agent id in the table
    [updateAgentTask] returns [true], gives the rows of that id the new
    [current_task], the status [active] and the current time as
    [updated_at], and appends one [task_update] record that describes the
    task; for an agent id that is not in the table it throws nothing: it
    returns [false] and leaves the store as it was (no record is logged),
    and the task route answers 404 without a write or a broadcast. *)
Theorem updateAgentTask_known_and_unknown (now : timestamp) (agentId task : string)
    (fk : bool) (d : database) :
  (agent_exists agentId d = true ->
   exists d',
     updateAgentTask now agentId task (mkStore true fk d) = (Ok true, mkStore true fk d') /\
     agents d' = update_where (is_agent agentId) (set_task task now) (agents d) /\
     (forall a, In a (agents d') -> agent_id a = agentId ->
        agent_current_task a = Some task /\ agent_status a = "active" /\
        agent_updated_at a = now) /\
     activities d' =
       (activities d ++
          [mkActivity (activities_seq d + 1) agentId "task_update"
             ("Updated task: " ++ task) [("task", JStr task)] now])%list /\
     reviews d' = reviews d) /\
  (agent_exists agentId d = false ->
   updateAgentTask now agentId task (mkStore true fk d) = (Ok false, mkStore true fk d) /\
   forall cl, task <> "" ->
     post_task now agentId (Some task) (mkServer (mkStore true fk d) cl) =
       (mkResponse 404 (BodyError "Agent not found"), mkServer (mkStore true fk d) cl)).
Proof.
  split; intros H; rewrite updateAgentTask_open, H.
  - eexists; split; [reflexivity|]. cbn [agents activities reviews].
    repeat split; unfold update_where in H0; apply in_map_iff in H0;
      destruct H0 as [b [Hb _]]; unfold is_agent in Hb;
      destruct (String.eqb (agent_id b) agentId) eqn:E; subst a; try reflexivity;
      apply String.eqb_neq in E; contradiction.
  - split; [reflexivity|]. intros cl Ht.
    unfold post_task, falsy. apply String.eqb_neq in Ht. rewrite Ht.
    unfold call; cbn [srv_store clients]. rewrite getAgent_open.
    unfold agent_exists in H. rewrite find_existsb in H.
    destruct (find (is_agent agentId) (agents d)); [discriminate | reflexivity].
Qed.

Lemma updateAgentTask_known_and_unknown_witness :
  (agent_exists "zoomie" seeded_db = true /\
   fst (updateAgentTask 7 "zoomie" "Ship it" (seeded true)) = Ok true) /\
  (agent_exists "ghost" seeded_db = false /\
   updateAgentTask 7 "ghost" "Ship it" (seeded true) = (Ok false, seeded true)).
Proof.
  assert (Hz : agent_exists "zoomie" seeded_db = true) by (vm_compute; reflexivity).
  assert (Hg : agent_exists "ghost" seeded_db = false) by (vm_compute; reflexivity).
  pose proof (updateAgentTask_known_and_unknown 7 "zoomie" "Ship it" true seeded_db)
    as [Hknown _].
  pose proof (updateAgentTask_known_and_unknown 7 "ghost" "Ship it" true seeded_db)
    as [_ Hunknown].
  split; split.
  - exact Hz.
  - destruct (Hknown Hz) as [d' [H _]]. unfold seeded. now rewrite H.
  - exact Hg.
  - apply Hunknown; exact Hg.
Defined.

(** ** updateAgentStatus and the status route *)

Lemma In_update_where {A} (p : A -> bool) (f : A -> A) (l : list A) (x : A) :
  In x (update_where p f l) ->
  exists y, In y l /\ ((p y = true /\ x = f y) \/ (p y = false /\ x = y)).
Proof.
  unfold update_where. rewrite in_map_iff. intros [y [Hy Hin]].
  exists y. split; [exact Hin|]. destruct (p y); [left | right]; auto.
Qed.

Lemma is_agent_true (id : string) (a : agent) : is_agent id a = true <-> agent_id a = id.
Proof. apply String.eqb_eq. Qed.

Lemma is_agent_false (id : string) (a : agent) : is_agent id a = false <-> agent_id a <> id.
Proof. apply String.eqb_neq. Qed.

Lemma falsy_Some (s : string) : s <> "" -> falsy (Some s) = false.
Proof. intros H. now apply String.eqb_neq. Qed.

Lemma post_status_open (now : timestamp) (agentId status : string)
    (fk : bool) (d : database) (cl : list client) :
  status <> "" -> agent_exists agentId d = true ->
  post_status now agentId (Some status) (mkServer (mkStore true fk d) cl) =
  let d1 := mkDb (update_where (is_agent agentId) (set_status status now) (agents d))
              (activities d) (activities_seq d) (reviews d) (reviews_seq d) in
  let d2 := logged now agentId "status_change" ("Status changed to " ++ status)
              [("status", JStr status)] d1 in
  (mkResponse 200 (BodyStatus status),
   mkServer (mkStore true fk d2)
     (broadcast_to (MsgStatusUpdate agentId status now)
        (broadcast_to
           (MsgActivity agentId
              (mkActivity (activities_seq d + 1) agentId "status_change"
                 ("Status changed to " ++ status) [("status", JStr status)] now))
           cl))).
Proof.
  intros Hs He. unfold post_status. rewrite (falsy_Some _ Hs).
  unfold call at 1; cbn [srv_store clients]. rewrite getAgent_open.
  pose proof He as Hf. unfold agent_exists in Hf. rewrite find_existsb in Hf.
  destruct (find (is_agent agentId) (agents d)) as [ag|]; [|discriminate].
  unfold call; cbn [srv_store clients field]. rewrite updateAgentStatus_open, He.
  unfold logAgentActivity, call; cbn [srv_store clients].
  rewrite logActivity_open.
  assert (E : agent_exists agentId
                (mkDb (update_where (is_agent agentId) (set_status status now) (agents d))
                   (activities d) (activities_seq d) (reviews d) (reviews_seq d)) = true).
  { unfold agent_exists in *; cbn [agents].
    rewrite existsb_update_where; [exact He|]. intros x. apply is_agent_set_status. }
  rewrite E, andb_false_r. reflexivity.
Qed.

(** C5, as stated, fails: a status outside [active], [idle], [busy] is
    accepted.  [updateAgentStatus] returns [true] for the status
    [sleeping], the row of the agent carries it afterwards, and the route
    answers 200. *)
Lemma updateAgentStatus_accepts_any_status :
  fst (updateAgentStatus 7 "buppy" "sleeping" (seeded true)) = Ok true /\
  option_map agent_status
    (find (is_agent "buppy")
       (agents (file (snd (updateAgentStatus 7 "buppy" "sleeping" (seeded true))))))
    = Some "sleeping" /\
  fst (post_status 7 "buppy" (Some "sleeping") (mkServer (seeded true) [])) =
    mkResponse 200 (BodyStatus "sleeping").
Proof. repeat split; vm_compute; reflexivity. Qed.

(** C5 (amended): [updateAgentStatus] checks no enum.  On an open
    connection, for an agent id in the table and any status text, it returns
    [true], stores that text as the status of the agent with the current
    time as [updated_at], and logs nothing itself.  The route refuses only a
    missing or empty status, with 400 and nothing changed; for an agent in
    the table and a non-empty status it answers 200, having appended one
    [status_change] record to the log. *)
Theorem updateAgentStatus_any_status (now : timestamp) (agentId status : string)
    (fk : bool) (d : database) (cl : list client) :
  (agent_exists agentId d = true ->
   exists d',
     updateAgentStatus now agentId status (mkStore true fk d) =
       (Ok true, mkStore true fk d') /\
     (forall a, In a (agents d') -> agent_id a = agentId ->
        agent_status a = status /\ agent_updated_at a = now) /\
     (forall a, In a (agents d) -> agent_id a <> agentId -> In a (agents d')) /\
     activities d' = activities d) /\
  (forall body_status srv, falsy body_status = true ->
     post_status now agentId body_status srv =
       (mkResponse 400 (BodyError "Status is required"), srv)) /\
  (agent_exists agentId d = true -> status <> "" ->
   exists d',
     post_status now agentId (Some status) (mkServer (mkStore true fk d) cl) =
       (mkResponse 200 (BodyStatus status),
        mkServer (mkStore true fk d')
          (broadcast_to (MsgStatusUpdate agentId status now)
             (broadcast_to
                (MsgActivity agentId
                   (mkActivity (activities_seq d + 1) agentId "status_change"
                      ("Status changed to " ++ status) [("status", JStr status)] now))
                cl))) /\
     (forall a, In a (agents d') -> agent_id a = agentId -> agent_status a = status) /\
     activities d' =
       (activities d ++
          [mkActivity (activities_seq d + 1) agentId "status_change"
             ("Status changed to " ++ status) [("status", JStr status)] now])%list).
Proof.
  split; [|split].
  - intros He. rewrite updateAgentStatus_open, He.
    eexists; split; [reflexivity|]. cbn [agents activities].
    split; [|split; [|reflexivity]].
    + intros a Ha Hid. apply In_update_where in Ha.
      destruct Ha as [b [_ [[_ ->]|[Hb ->]]]];
        [split; reflexivity | apply is_agent_false in Hb; contradiction].
    + intros a Ha Hid. unfold update_where. apply in_map_iff. exists a.
      split; [|exact Ha]. apply is_agent_false in Hid. now rewrite Hid.
  - intros body_status srv Hf. unfold post_status. now rewrite Hf.
  - intros He Hs. rewrite (post_status_open now agentId status fk d cl Hs He).
    cbv zeta. eexists; split; [reflexivity|]. cbn [logged agents activities activities_seq].
    split; [|reflexivity].
    intros a Ha Hid. rewrite update_where_twice in Ha
      by (intros x; apply is_agent_set_status).
    apply In_update_where in Ha. destruct Ha as [b [_ [[_ ->]|[Hb ->]]]];
      [reflexivity | apply is_agent_false in Hb; contradiction].
Qed.

Lemma updateAgentStatus_any_status_witness :
  agent_exists "mechly" seeded_db = true /\ "napping" <> "" /\ falsy (Some "") = true /\
  fst (updateAgentStatus 7 "mechly" "napping" (seeded true)) = Ok true /\
  fst (post_status 7 "mechly" (Some "") (mkServer (seeded true) [])) =
    mkResponse 400 (BodyError "Status is required") /\
  fst (post_status 7 "mechly" (Some "napping") (mkServer (seeded true) [])) =
    mkResponse 200 (BodyStatus "napping").
Proof.
  assert (Hm : agent_exists "mechly" seeded_db = true) by (vm_compute; reflexivity).
  assert (Hn : "napping" <> "") by discriminate.
  assert (Hf : falsy (Some "") = true) by reflexivity.
  pose proof (updateAgentStatus_any_status 7 "mechly" "napping" true seeded_db [])
    as [Hdb [Hbad Hroute]].
  split; [exact Hm|]. split; [exact Hn|]. split; [exact Hf|]. split; [|split].
  - destruct (Hdb Hm) as [d' [H _]]. unfold seeded. now rewrite H.
  - now rewrite (Hbad (Some "") (mkServer (seeded true) []) Hf).
  - destruct (Hroute Hm Hn) as [d' [H _]]. unfold seeded. now rewrite H.
Defined.

(** ** resolveReview and the resolve route *)

Lemma has_id_set_resolved (v : id_value) (now : timestamp) (r : review) :
  has_id v (set_resolved now r) = has_id v r.
Proof.
  unfold has_id. destruct (id_reading v); [apply is_review_set_resolved | reflexivity].
Qed.

Lemma resolveReview_open (now : timestamp) (reviewId : id_value) (fk : bool)
    (d : database) :
  resolveReview now reviewId (mkStore true fk d) =
  match find (has_id reviewId) (reviews d) with
  | None => (Ok false, mkStore true fk d)
  | Some r =>
      let d1 := mkDb (agents d) (activities d) (activities_seq d)
                  (update_where (has_id reviewId) (set_resolved now) (reviews d))
                  (reviews_seq d) in
      if fk && negb (agent_exists (review_agent_id r) d)
      then (Throw fk_failed, mkStore true fk d1)
      else (Ok true,
            mkStore true fk
              (logged now (review_agent_id r) "review_resolved"
                 ("Resolved review: " ++ substring_0 50 (review_question r) ++ "...")
                 [("review_id", id_json reviewId)] d1))
  end.
Proof.
  unfold resolveReview, update_reviews. run.
  rewrite changes_pos.
  destruct (existsb (has_id reviewId) (reviews d)) eqn:E.
  - cbn [db file reviews].
    rewrite find_update_where by (intros x; apply has_id_set_resolved).
    rewrite find_existsb in E.
    destruct (find (has_id reviewId) (reviews d)) as [r|]; [|discriminate].
    cbn [option_map]. rewrite logActivity_open.
    cbn [set_resolved review_agent_id review_question].
    unfold agent_exists; cbn [agents]. fold (agent_exists (review_agent_id r) d).
    destruct (fk && negb (agent_exists (review_agent_id r) d)); reflexivity.
  - rewrite update_where_none by exact E.
    rewrite find_existsb in E.
    destruct (find (has_id reviewId) (reviews d)); [discriminate|].
    now destruct d.
Qed.

(** Where the first [k] bytes are one-byte characters, the first [k] units
    are these bytes. *)
Lemma substring_0_single_bytes (k : nat) (s : string) :
  single_bytes (substring 0 k s) = true -> substring_0 k s = substring 0 k s.
Proof.
  unfold substring_0. revert k. induction s as [|c s IH]; intros k H.
  - now destruct k.
  - destruct k as [|k].
    + cbn [take_units substring]. unfold code_units.
      now destruct (N_of_ascii c <? 240)%N.
    + cbn [substring single_bytes] in H. apply andb_true_iff in H.
      destruct H as [Hc Hs]. apply N.ltb_lt in Hc.
      assert (Hu : code_units c = 1%nat).
      { unfold code_units.
        destruct (N.ltb_spec (N_of_ascii c) 240); [reflexivity | lia]. }
      assert (Hb : continuation_bytes c = 0%nat).
      { unfold continuation_bytes.
        destruct (N.ltb_spec (N_of_ascii c) 192); [reflexivity | lia]. }
      cbn [take_units]. rewrite Hu, Hb.
      cbn [Nat.leb Nat.sub substring]. rewrite Nat.sub_0_r. f_equal. now apply IH.
Qed.

(** C1, as stated, fails: the second [resolveReview] of a resolved review
    succeeds.  It returns [true], the route answers 200, the viewer is sent
    a second [review-resolved] message, the log holds a second
    [review_resolved] record, and [resolved_at] moves to the later time. *)
Lemma resolveReview_twice_succeeds :
  option_map review_status
    (find (is_review 1) (reviews (file (srv_store resolved_once)))) = Some "resolved" /\
  fst (resolveReview 102 (IdText "1" (Some 1)) (srv_store resolved_once)) = Ok true /\
  fst (patch_resolve 102 "1" (Some 1) resolved_once) = mkResponse 200 (BodyResolved "1") /\
  map sent (clients resolved_twice) = [[MsgReviewResolved "1"; MsgReviewResolved "1"]] /\
  map activity_id
    (filter is_review_resolved_record (activities (file (srv_store resolved_twice))))
    = [4; 5] /\
  option_map review_resolved_at
    (find (is_review 1) (reviews (file (srv_store resolved_twice)))) = Some (Some 102).
Proof. repeat split; vm_compute; reflexivity. Qed.

(** C1 (amended): [resolveReview] looks at the id only, not at the status.
    On an open connection, when no review has the id it returns [false] and
    changes nothing, and the route answers 404 and broadcasts nothing.  When
    a review has the id (pending or resolved alike) and its agent is in the
    table, it returns [true], sets the status [resolved] and [resolved_at] to
    the current time in the rows of that id and leaves the other rows, and
    appends one [review_resolved] record for the agent of the review, whose
    metadata carry the id as it was given and whose description quotes the
    question (its first 50 characters, when these are one-byte characters);
    the route answers 200 and broadcasts [review-resolved] with the id of
    the path to the open connections. *)
Theorem resolveReview_by_id (now : timestamp) (reviewId : id_value)
    (fk : bool) (d : database) (cl : list client) :
  (find (has_id reviewId) (reviews d) = None ->
   resolveReview now reviewId (mkStore true fk d) = (Ok false, mkStore true fk d) /\
   (forall id reading, reviewId = IdText id reading ->
      patch_resolve now id reading (mkServer (mkStore true fk d) cl) =
        (mkResponse 404 (BodyError "Review not found"),
         mkServer (mkStore true fk d) cl))) /\
  (forall r, find (has_id reviewId) (reviews d) = Some r ->
   agent_exists (review_agent_id r) d = true ->
   exists d' record,
     resolveReview now reviewId (mkStore true fk d) = (Ok true, mkStore true fk d') /\
     reviews d' = update_where (has_id reviewId) (set_resolved now) (reviews d) /\
     (forall x, In x (reviews d') -> has_id reviewId x = true ->
        review_status x = "resolved" /\ review_resolved_at x = Some now) /\
     (forall x, In x (reviews d) -> has_id reviewId x = false -> In x (reviews d')) /\
     activities d' = (activities d ++ [record])%list /\
     activity_id record = activities_seq d + 1 /\
     activity_agent_id record = review_agent_id r /\
     activity_type record = "review_resolved" /\
     activity_metadata_json record = [("review_id", id_json reviewId)] /\
     activity_timestamp record = now /\
     (exists quoted,
        activity_description record = "Resolved review: " ++ quoted ++ "...") /\
     (single_bytes (substring 0 50 (review_question r)) = true ->
      activity_description record =
        "Resolved review: " ++ substring 0 50 (review_question r) ++ "...") /\
     (forall id reading, reviewId = IdText id reading ->
        patch_resolve now id reading (mkServer (mkStore true fk d) cl) =
          (mkResponse 200 (BodyResolved id),
           mkServer (mkStore true fk d') (broadcast_to (MsgReviewResolved id) cl)))).
Proof.
  split.
  - intros Hnone. split.
    + now rewrite resolveReview_open, Hnone.
    + intros id reading ->. unfold patch_resolve, call; cbn [srv_store clients].
      now rewrite resolveReview_open, Hnone.
  - intros r Hr He.
    assert (Hopen := resolveReview_open now reviewId fk d).
    rewrite Hr in Hopen. cbv zeta in Hopen. rewrite He, andb_false_r in Hopen.
    eexists; eexists. split; [exact Hopen|].
    cbn [logged reviews activities activities_seq].
    split; [reflexivity|]. split; [|split].
    + intros x Hx Hid. apply In_update_where in Hx.
      destruct Hx as [y [_ [[_ ->]|[Hy ->]]]]; [split; reflexivity | congruence].
    + intros x Hx Hid. unfold update_where. apply in_map_iff. exists x.
      split; [now rewrite Hid | exact Hx].
    + split; [reflexivity|].
      cbn [activity_id activity_agent_id activity_type activity_metadata_json
             activity_timestamp activity_description].
      repeat (split; [reflexivity|]).
      split; [eexists; reflexivity|]. split.
      * intros Hq. now rewrite substring_0_single_bytes.
      * intros id reading ->. unfold patch_resolve, call; cbn [srv_store clients].
        now rewrite Hopen.
Qed.

Lemma resolveReview_by_id_witness :
  (find (has_id (IdText "9" (Some 9))) (reviews seeded_db) = None /\
   resolveReview 7 (IdText "9" (Some 9)) (seeded true) = (Ok false, seeded true)) /\
  (option_map review_agent_id (find (has_id (IdText "1" (Some 1))) (reviews seeded_db))
     = Some "zoomie" /\
   agent_exists "zoomie" seeded_db = true /\
   fst (patch_resolve 7 "1" (Some 1) one_viewer) = mkResponse 200 (BodyResolved "1") /\
   exists d' record,
     resolveReview 7 (IdText "1" (Some 1)) (seeded true) = (Ok true, mkStore true true d') /\
     activities d' = (activities seeded_db ++ [record])%list /\
     activity_metadata_json record = [("review_id", JStr "1")] /\
     activity_description record =
       "Resolved review: Should we use SwiftUI or UIKit for the AIGIS iOS e...").
Proof.
  assert (H9 : find (has_id (IdText "9" (Some 9))) (reviews seeded_db) = None)
    by (vm_compute; reflexivity).
  assert (Hz : agent_exists "zoomie" seeded_db = true) by (vm_compute; reflexivity).
  pose proof (resolveReview_by_id 7 (IdText "9" (Some 9)) true seeded_db [])
    as [Hmissing _].
  pose proof (resolveReview_by_id 7 (IdText "1" (Some 1)) true seeded_db
                [mkClient 1 OPEN []]) as [_ Hfound].
  split; [split; [exact H9 | exact (proj1 (Hmissing H9))]|].
  split; [vm_compute; reflexivity|]. split; [exact Hz|].
  destruct (Hfound _ eq_refl Hz)
    as [d' [record [Hres [_ [_ [_ [Hact [_ [_ [_ [Hmd [_ [_ [Hdesc H]]]]]]]]]]]]]].
  split.
  - unfold one_viewer, seeded. now rewrite (H "1" (Some 1) eq_refl).
  - exists d', record. split; [exact Hres|]. split; [exact Hact|].
    split; [exact Hmd|]. rewrite Hdesc; reflexivity.
Defined.

(** ** Reading the activity log *)

Lemma timestamp_desc_total (x y : activity) :
  timestamp_desc x y = false -> timestamp_desc y x = true.
Proof. unfold timestamp_desc. rewrite Z.leb_gt, Z.leb_le. lia. Qed.

Lemma timestamp_desc_trans (x y z : activity) :
  timestamp_desc x y = true -> timestamp_desc y z = true -> timestamp_desc x z = true.
Proof. unfold timestamp_desc. rewrite !Z.leb_le. lia. Qed.

Lemma StronglySorted_weaken {A} (R S : A -> A -> Prop) (l : list A) :
  (forall x y, R x y -> S x y) -> StronglySorted R l -> StronglySorted S l.
Proof.
  intros HRS. induction 1 as [|x l Hl IH Hx]; constructor; auto.
  eapply Forall_impl; [|exact Hx]. auto.
Qed.

Lemma order_by_timestamp_sorted (l : list activity) :
  StronglySorted newer_first (order_by timestamp_desc l).
Proof.
  apply StronglySorted_weaken with (R := fun x y => timestamp_desc x y = true).
  - intros x y. unfold timestamp_desc, newer_first. now rewrite Z.leb_le.
  - apply order_by_sorted; [exact timestamp_desc_total | exact timestamp_desc_trans].
Qed.

Lemma order_by_joined_timestamp_sorted (l : list (joined activity)) :
  StronglySorted (fun x y => newer_first (row x) (row y))
    (order_by (fun x y => timestamp_desc (row x) (row y)) l).
Proof.
  apply StronglySorted_weaken
    with (R := fun x y => timestamp_desc (row x) (row y) = true).
  - intros x y. unfold timestamp_desc, newer_first. now rewrite Z.leb_le.
  - apply order_by_sorted.
    + intros x y. apply timestamp_desc_total.
    + intros x y z. apply timestamp_desc_trans.
Qed.

(** What a sorted, limited read is: a sorted prefix of a sorted
    arrangement of the selected rows. *)
Lemma limit_order_by {A} (precedes : A -> A -> bool) (R : A -> A -> Prop)
    (limit : Z) (rows : list A) :
  StronglySorted R (order_by precedes rows) ->
  exists rest,
    StronglySorted R (sql_limit limit (order_by precedes rows)) /\
    Permutation (sql_limit limit (order_by precedes rows) ++ rest) rows /\
    (forall x y, In x (sql_limit limit (order_by precedes rows)) -> In y rest -> R x y).
Proof.
  intros Hs. destruct (sql_limit_split limit (order_by precedes rows)) as [rest Hrest].
  exists rest. split; [now apply sql_limit_sorted|]. split.
  - rewrite <- Hrest. symmetry. apply order_by_perm.
  - rewrite Hrest in Hs. now apply StronglySorted_app_cross.
Qed.

Lemma accepted_limit_spec (n : Z) : accepted_limit n = true <-> - 2 ^ 63 < n < 2 ^ 63.
Proof. unfold accepted_limit. rewrite andb_true_iff, !Z.ltb_lt. reflexivity. Qed.

Lemma accepted_limit_false (n : Z) : accepted_limit n = false <-> n <= - 2 ^ 63 \/ 2 ^ 63 <= n.
Proof. unfold accepted_limit. rewrite andb_false_iff, !Z.ltb_ge. reflexivity. Qed.

Lemma getAgentActivities_open (agentId : string) (limit : Z) (fk : bool) (d : database) :
  accepted_limit limit = true ->
  getAgentActivities agentId limit (mkStore true fk d) =
  (Ok (sql_limit limit (order_by timestamp_desc (filter (of_agent agentId) (activities d)))),
   mkStore true fk d).
Proof. intros H. unfold getAgentActivities, limited. run. now rewrite H. Qed.

Lemma getRecentActivities_open (limit : Z) (fk : bool) (d : database) :
  accepted_limit limit = true ->
  getRecentActivities limit (mkStore true fk d) =
  (Ok (sql_limit limit
         (order_by (fun x y => timestamp_desc (row x) (row y))
            (join_agents activity_agent_id (agents d) (activities d)))),
   mkStore true fk d).
Proof. intros H. unfold getRecentActivities, limited. run. now rewrite H. Qed.

Lemma getAgentActivities_mismatch (agentId : string) (limit : Z) (fk : bool)
    (d : database) :
  accepted_limit limit = false ->
  getAgentActivities agentId limit (mkStore true fk d) =
  (Throw datatype_mismatch, mkStore true fk d).
Proof. intros H. unfold getAgentActivities, limited. run. now rewrite H. Qed.

Lemma getRecentActivities_mismatch (limit : Z) (fk : bool) (d : database) :
  accepted_limit limit = false ->
  getRecentActivities limit (mkStore true fk d) =
  (Throw datatype_mismatch, mkStore true fk d).
Proof. intros H. unfold getRecentActivities, limited. run. now rewrite H. Qed.

(** C3, as stated, fails: records of one clock tick are not returned with
    the later id first.  The two records of [buppy] of second 100 come back
    with id 1 before id 4, from the read of one agent and from the global
    read. *)
Lemma same_tick_ids_not_descending :
  option_map (map (fun a => (activity_id a, activity_timestamp a)))
    (match fst (getAgentActivities "buppy" 20 started) with
     | Ok l => Some l | Throw _ => None end)
    = Some [(1, 100); (4, 100)] /\
  option_map (map (fun x => (activity_id (row x), activity_timestamp (row x))))
    (match fst (getRecentActivities 20 started) with
     | Ok l => Some l | Throw _ => None end)
    = Some [(1, 100); (2, 100); (3, 100); (4, 100)].
Proof. split; vm_compute; reflexivity. Qed.

(** C3 (amended): both reads return their records by timestamp
    descending, and that is the whole order.  For a limit strictly between
    [-2^63] and [2^63] the result is sorted with the newer record first, it
    is a part of the selected rows, and no row left out is newer than a row
    returned; no order by id is stated among the records of one clock tick.
    For any other limit both reads throw the engine's [datatype mismatch]
    and return no record. *)
Theorem recent_reads_timestamp_desc (agentId : string) (limit : Z)
    (fk : bool) (d : database) :
  (- 2 ^ 63 < limit < 2 ^ 63 ->
   (exists l rest,
      getAgentActivities agentId limit (mkStore true fk d) = (Ok l, mkStore true fk d) /\
      StronglySorted newer_first l /\
      Permutation (l ++ rest) (filter (of_agent agentId) (activities d)) /\
      (forall x y, In x l -> In y rest -> newer_first x y)) /\
   (exists l rest,
      getRecentActivities limit (mkStore true fk d) = (Ok l, mkStore true fk d) /\
      StronglySorted (fun x y => newer_first (row x) (row y)) l /\
      Permutation (l ++ rest)
        (join_agents activity_agent_id (agents d) (activities d)) /\
      (forall x y, In x l -> In y rest -> newer_first (row x) (row y)))) /\
  (limit <= - 2 ^ 63 \/ 2 ^ 63 <= limit ->
   getAgentActivities agentId limit (mkStore true fk d) =
     (Throw datatype_mismatch, mkStore true fk d) /\
   getRecentActivities limit (mkStore true fk d) =
     (Throw datatype_mismatch, mkStore true fk d)).
Proof.
  split.
  - intros Hrange. apply accepted_limit_spec in Hrange. split.
    + rewrite getAgentActivities_open by exact Hrange.
      destruct (limit_order_by timestamp_desc newer_first limit
                  (filter (of_agent agentId) (activities d))
                  (order_by_timestamp_sorted _)) as [rest H].
      eexists; exists rest. split; [reflexivity | exact H].
    + rewrite getRecentActivities_open by exact Hrange.
      destruct (limit_order_by (fun x y => timestamp_desc (row x) (row y))
                  (fun x y => newer_first (row x) (row y)) limit
                  (join_agents activity_agent_id (agents d) (activities d))
                  (order_by_joined_timestamp_sorted _)) as [rest H].
      eexists; exists rest. split; [reflexivity | exact H].
  - intros Hout. apply accepted_limit_false in Hout. split.
    + now apply getAgentActivities_mismatch.
    + now apply getRecentActivities_mismatch.
Qed.

Lemma recent_reads_timestamp_desc_witness :
  - 2 ^ 63 < 2 < 2 ^ 63 /\ (2 ^ 63 <= - 2 ^ 63 \/ 2 ^ 63 <= 2 ^ 63) /\
  (exists l rest,
     fst (getRecentActivities 2 (seeded true)) = Ok l /\
     StronglySorted (fun x y => newer_first (row x) (row y)) l /\
     Permutation (l ++ rest)
       (join_agents activity_agent_id (agents seeded_db) (activities seeded_db))) /\
  fst (getAgentActivities "buppy" (2 ^ 63) (seeded true)) = Throw datatype_mismatch.
Proof.
  assert (Hin : - 2 ^ 63 < 2 < 2 ^ 63) by (split; reflexivity).
  assert (Hout : 2 ^ 63 <= - 2 ^ 63 \/ 2 ^ 63 <= 2 ^ 63)
    by (right; discriminate).
  split; [exact Hin|]. split; [exact Hout|].
  pose proof (recent_reads_timestamp_desc "buppy" 2 true seeded_db) as [Hread _].
  pose proof (recent_reads_timestamp_desc "buppy" (2 ^ 63) true seeded_db)
    as [_ Hthrow].
  split.
  - destruct (Hread Hin) as [_ [l [rest [H [Hs [Hp _]]]]]].
    exists l, rest. split; [|split; [exact Hs | exact Hp]].
    unfold seeded. now rewrite H.
  - destruct (Hthrow Hout) as [H _]. unfold seeded. now rewrite H.
Defined.

(** ** logActivity followed by a read *)

Lemma order_by_newest_last (x : activity) (l : list activity) :
  (forall a, In a l -> activity_timestamp a < activity_timestamp x) ->
  order_by timestamp_desc (l ++ [x]) = x :: order_by timestamp_desc l.
Proof.
  induction l as [|y l IH]; intros H; [reflexivity|].
  cbn [app order_by]. rewrite IH by (intros a Ha; apply H; now right).
  cbn [insert_row]. unfold timestamp_desc at 1.
  assert (Hy : activity_timestamp y < activity_timestamp x) by (apply H; now left).
  apply Z.leb_gt in Hy. now rewrite Hy.
Qed.

(** C8, as stated, fails: the start-up record that [server.listen] logs for
    [buppy] in the second of the seeding gets id 4, and the read of one
    record returns the seed record, id 1, instead. *)
Lemma logActivity_then_read_returns_older :
  agent_exists "buppy" seeded_db = true /\
  fst (logActivity 100 "buppy" "system" "Puppy Station dashboard started" []
         (seeded true)) = Ok 4 /\
  fst (getAgentActivities "buppy" 1 started) =
    Ok [mkActivity 1 "buppy" "system" "Buppy initialized and ready"
          [("source", JStr "database_seed")] 100].
Proof. repeat split; vm_compute; reflexivity. Qed.

(** C8 (amended): on an open connection, for an agent in the table whose
    stored records are all older than the current clock reading,
    [logActivity] followed by the read of one record of that agent returns
    exactly the record just inserted, with the id that [logActivity]
    returned. *)
Theorem logActivity_then_latest (now : timestamp)
    (agentId type description : string) (md : metadata) (fk : bool) (d : database) :
  agent_exists agentId d = true ->
  (forall a, In a (activities d) -> activity_agent_id a = agentId ->
     activity_timestamp a < now) ->
  exists rowid s',
    logActivity now agentId type description md (mkStore true fk d) = (Ok rowid, s') /\
    getAgentActivities agentId 1 s' =
      (Ok [mkActivity rowid agentId type description md now], s').
Proof.
  intros He Hold. rewrite logActivity_open, He, andb_false_r.
  eexists; eexists; split; [reflexivity|].
  rewrite getAgentActivities_open by reflexivity. cbn [logged activities].
  rewrite filter_app. cbn [filter]. unfold of_agent at 2. cbn [activity_agent_id].
  rewrite String.eqb_refl. rewrite order_by_newest_last.
  - reflexivity.
  - intros a Ha. apply filter_In in Ha. destruct Ha as [Ha Hid].
    apply String.eqb_eq in Hid. cbn [activity_timestamp]. now apply Hold.
Qed.

Lemma logActivity_then_latest_witness :
  agent_exists "buppy" seeded_db = true /\
  (forall a, In a (activities seeded_db) -> activity_agent_id a = "buppy" ->
     activity_timestamp a < 101) /\
  exists rowid s',
    logActivity 101 "buppy" "command" "ls" [] (seeded true) = (Ok rowid, s') /\
    getAgentActivities "buppy" 1 s' = (Ok [mkActivity rowid "buppy" "command" "ls" [] 101], s').
Proof.
  assert (Hb : agent_exists "buppy" seeded_db = true) by (vm_compute; reflexivity).
  assert (Hold : forall a, In a (activities seeded_db) -> activity_agent_id a = "buppy" ->
                   activity_timestamp a < 101).
  { intros a Ha _. cbn in Ha.
    destruct Ha as [<-|[<-|[<-|[]]]]; cbn; lia. }
  split; [exact Hb|]. split; [exact Hold|].
  exact (logActivity_then_latest 101 "buppy" "command" "ls" [] true seeded_db Hb Hold).
Defined.

(** ** Retention and limits *)

Lemma log_each_open (nows : list timestamp) (agentId type description : string)
    (md : metadata) (fk : bool) (d : database) :
  agent_exists agentId d = true ->
  exists d' added,
    log_each nows agentId type description md (mkStore true fk d) =
      (Ok tt, mkStore true fk d') /\
    activities d' = (activities d ++ added)%list /\
    List.length added = List.length nows /\
    Forall (fun a => activity_agent_id a = agentId) added /\
    agent_exists agentId d' = true.
Proof.
  revert d. induction nows as [|now rest IH]; intros d He.
  - exists d, []. cbn. rewrite app_nil_r. repeat split; auto.
  - cbn [log_each]. unfold bind. rewrite logActivity_open, He, andb_false_r.
    destruct (IH (logged now agentId type description md d)) as [d' [added H]].
    { now rewrite agent_exists_logged. }
    destruct H as [Hrun [Hact [Hlen [Hall He']]]].
    exists d', (mkActivity (activities_seq d + 1) agentId type description md now :: added).
    rewrite Hrun. split; [reflexivity|]. split.
    { rewrite Hact. cbn [logged activities]. now rewrite <- app_assoc. }
    split; [cbn; now rewrite Hlen|]. split; [|exact He'].
    constructor; [reflexivity | exact Hall].
Qed.

Lemma filter_all {A} (p : A -> bool) (l : list A) :
  Forall (fun x => p x = true) l -> filter p l = l.
Proof.
  induction 1 as [|x l Hx _ IH]; simpl; [reflexivity|]. now rewrite Hx, IH.
Qed.

(** C2, as stated, fails: nothing trims the log.  After 55 inserts for one
    agent, the read with limit 55 returns 55 records, more than a bound of
    50, and all 56 records of the agent are stored; and a read with a
    negative limit returns every record. *)
Lemma retention_bound_not_enforced :
  List.length fifty_five = 55%nat /\
  (exists l, fst (getAgentActivities "buppy" 55 flooded) = Ok l /\
             List.length l = 55%nat) /\
  List.length (filter (of_agent "buppy") (activities (file flooded))) = 56%nat /\
  (exists l, fst (getRecentActivities (-1) flooded) = Ok l /\
             List.length l = 58%nat).
Proof.
  split; [reflexivity|]. split; [|split].
  - eexists. split; [vm_compute; reflexivity | reflexivity].
  - vm_compute. reflexivity.
  - eexists. split; [vm_compute; reflexivity | reflexivity].
Qed.

(** C2 (amended): [logActivity] only appends; no insert removes a record.
    On an open connection, after any number of inserts for an agent in the
    table, all earlier records and all new ones are stored; a read of the
    agent with a limit from 0 and below [2^63] returns, newest first by
    timestamp, as many records as the limit allows and the store holds for
    the agent (so after N+5 inserts the read with limit N+5 returns N+5
    records), and the global read returns at most its limit. *)
Theorem log_keeps_all_reads_bounded (nows : list timestamp)
    (agentId type description : string) (md : metadata) (limit : Z)
    (fk : bool) (d : database) :
  agent_exists agentId d = true -> 0 <= limit < 2 ^ 63 ->
  exists d' added l j,
    log_each nows agentId type description md (mkStore true fk d) =
      (Ok tt, mkStore true fk d') /\
    activities d' = (activities d ++ added)%list /\
    List.length added = List.length nows /\
    getAgentActivities agentId limit (mkStore true fk d') = (Ok l, mkStore true fk d') /\
    List.length l =
      Nat.min (Z.to_nat limit)
        (List.length (filter (of_agent agentId) (activities d)) + List.length nows) /\
    StronglySorted newer_first l /\
    getRecentActivities limit (mkStore true fk d') = (Ok j, mkStore true fk d') /\
    (List.length j <= Z.to_nat limit)%nat.
Proof.
  intros He [Hlimit Hmax].
  assert (Hrange : accepted_limit limit = true) by (apply accepted_limit_spec; lia).
  destruct (log_each_open nows agentId type description md fk d He)
    as [d' [added [Hrun [Hact [Hlen [Hall _]]]]]].
  exists d', added. eexists; eexists.
  split; [exact Hrun|]. split; [exact Hact|]. split; [exact Hlen|].
  rewrite getAgentActivities_open, getRecentActivities_open by exact Hrange.
  split; [reflexivity|]. split; [|split; [|split; [reflexivity|]]].
  - rewrite sql_limit_length by exact Hlimit.
    rewrite order_by_length, Hact, filter_app, length_app.
    rewrite (filter_all (of_agent agentId) added), Hlen; [reflexivity|].
    eapply Forall_impl; [|exact Hall].
    intros a Ha. now apply String.eqb_eq.
  - apply sql_limit_sorted, order_by_timestamp_sorted.
  - rewrite sql_limit_length by exact Hlimit. apply Nat.le_min_l.
Qed.

Lemma log_keeps_all_reads_bounded_witness :
  agent_exists "buppy" seeded_db = true /\ 0 <= 55 < 2 ^ 63 /\
  exists l, fst (getAgentActivities "buppy" 55 flooded) = Ok l /\
            List.length l = Nat.min 55 (1 + 55).
Proof.
  assert (Hb : agent_exists "buppy" seeded_db = true) by (vm_compute; reflexivity).
  assert (H55 : 0 <= 55 < 2 ^ 63) by (split; [discriminate | reflexivity]).
  split; [exact Hb|]. split; [exact H55|].
  destruct (log_keeps_all_reads_bounded fifty_five "buppy" "command" "ping" [] 55
              true seeded_db Hb H55)
    as [d' [added [l [j [Hrun [_ [_ [Hread [Hlen _]]]]]]]]].
  exists l. unfold flooded, seeded. rewrite Hrun. cbn [snd].
  rewrite Hread. split; [reflexivity | exact Hlen].
Defined.

(** ** The pending-review queue *)

Lemma review_order_spec (r s : review) : review_order r s = true <-> queue_order r s.
Proof.
  unfold review_order, queue_order, rank.
  rewrite orb_true_iff, andb_true_iff, Z.ltb_lt, Z.eqb_eq, Z.leb_le. reflexivity.
Qed.

Lemma review_order_total (r s : review) :
  review_order r s = false -> review_order s r = true.
Proof.
  intros H. apply review_order_spec.
  destruct (review_order r s) eqn:E; [discriminate|].
  assert (N : ~ queue_order r s) by (rewrite <- review_order_spec, E; discriminate).
  unfold queue_order in *. lia.
Qed.

Lemma review_order_trans (r s t : review) :
  review_order r s = true -> review_order s t = true -> review_order r t = true.
Proof. rewrite !review_order_spec. unfold queue_order. lia. Qed.

Lemma priority_rank_values :
  priority_rank "high" = 1 /\ priority_rank "medium" = 2 /\ priority_rank "low" = 3 /\
  forall p, p <> "high" -> p <> "medium" -> p <> "low" -> priority_rank p = 4.
Proof.
  repeat split. intros p H1 H2 H3. unfold priority_rank.
  apply String.eqb_neq in H1, H2, H3. now rewrite H1, H2, H3.
Qed.

Lemma getPendingReviews_open (fk : bool) (d : database) :
  getPendingReviews (mkStore true fk d) =
  (Ok (order_by (fun x y => review_order (row x) (row y))
         (filter (fun x => is_pending (row x))
            (join_agents review_agent_id (agents d) (reviews d)))),
   mkStore true fk d).
Proof. reflexivity. Qed.

Lemma join_agents_app {A} (agent_of : A -> string) (ags : list agent) (l1 l2 : list A) :
  join_agents agent_of ags (l1 ++ l2) =
  (join_agents agent_of ags l1 ++ join_agents agent_of ags l2)%list.
Proof. unfold join_agents. apply flat_map_app. Qed.

Lemma join_agents_row {A} (agent_of : A -> string) (ags : list agent) (l : list A)
    (x : joined A) :
  In x (join_agents agent_of ags l) -> In (row x) l.
Proof.
  unfold join_agents. rewrite in_flat_map. intros [r [Hr Hx]].
  apply in_map_iff in Hx. destruct Hx as [ag [<- _]]. exact Hr.
Qed.

Lemma filter_none {A} (p : A -> bool) (l : list A) :
  (forall x, In x l -> p x = false) -> filter p l = [].
Proof.
  induction l as [|x l IH]; intros H; simpl; [reflexivity|].
  rewrite (H x) by now left. apply IH. intros y Hy. apply H. now right.
Qed.

Lemma unique_agent (id : string) (ags : list agent) :
  NoDup (map agent_id ags) -> existsb (is_agent id) ags = true ->
  exists ag, filter (is_agent id) ags = [ag].
Proof.
  induction ags as [|a ags IH]; intros Hnd He; [discriminate|].
  cbn [map] in Hnd. inversion Hnd as [|? ? Hnotin Hnd']; subst.
  cbn [filter existsb] in *. destruct (is_agent id a) eqn:E.
  - exists a. f_equal. apply filter_none. intros b Hb.
    apply is_agent_false. intros Hid. apply is_agent_true in E.
    apply Hnotin. rewrite E, <- Hid. now apply in_map.
  - apply IH; assumption.
Qed.

Lemma join_one_review (ags : list agent) (r : review) :
  NoDup (map agent_id ags) -> existsb (is_agent (review_agent_id r)) ags = true ->
  exists x, join_agents review_agent_id ags [r] = [x] /\ row x = r.
Proof.
  intros Hnd He. destruct (unique_agent _ _ Hnd He) as [ag Hag].
  exists (mkJoined r (agent_name ag) (agent_emoji ag)).
  unfold join_agents. cbn [flat_map]. rewrite Hag. split; reflexivity.
Qed.

Lemma update_where_ids (p : agent -> bool) (now : timestamp) (ags : list agent) :
  map agent_id (update_where p (touch now) ags) = map agent_id ags.
Proof.
  unfold update_where. rewrite map_map. apply map_ext.
  intros a. now destruct (p a).
Qed.

Lemma addReview_ok (now : timestamp) (agentId question priority : string)
    (fk : bool) (d : database) :
  agent_exists agentId d = true ->
  exists d',
    addReview now agentId (QText question) priority (mkStore true fk d) =
      (Ok (reviews_seq d + 1), mkStore true fk d') /\
    reviews d' =
      (reviews d ++
         [mkReview (reviews_seq d + 1) agentId question priority "pending" now None])%list /\
    map agent_id (agents d') = map agent_id (agents d) /\
    (forall id, agent_exists id d' = agent_exists id d) /\
    activities d' =
      (activities d ++
         [mkActivity (activities_seq d + 1) agentId "review_created"
            ("Created review: " ++ substring_0 50 question ++ "...")
            [("review_id", JNum (reviews_seq d + 1)); ("priority", JStr priority)]
            now])%list.
Proof.
  intros He. unfold addReview, insert_review, check_agent_fk. run.
  rewrite He, andb_false_r. cbn [db foreign_keys file stored_question].
  rewrite logActivity_open.
  unfold agent_exists at 1; cbn [agents]. fold (agent_exists agentId d).
  rewrite He, andb_false_r.
  eexists; split; [reflexivity|]. cbn [logged reviews agents activities activities_seq].
  split; [reflexivity|]. split; [apply update_where_ids|]. split; [|reflexivity].
  intros id. unfold agent_exists; cbn [agents].
  apply existsb_update_where. intros a. apply is_agent_touch.
Qed.

Lemma low_high_medium_open (t1 t2 t3 : timestamp) (a1 a2 a3 q1 q2 q3 : string)
    (fk : bool) (d : database) :
  NoDup (map agent_id (agents d)) ->
  Forall (fun r => is_pending r = false) (reviews d) ->
  agent_exists a1 d = true -> agent_exists a2 d = true -> agent_exists a3 d = true ->
  exists l s',
    low_high_medium t1 t2 t3 a1 a2 a3 q1 q2 q3 (mkStore true fk d) = (Ok l, s') /\
    map (fun x => review_priority (row x)) l = ["high"; "medium"; "low"] /\
    map (fun x => review_question (row x)) l = [q2; q3; q1].
Proof.
  intros Hnd Hold H1 H2 H3. unfold low_high_medium, bind.
  destruct (addReview_ok t1 a1 q1 "low" fk d H1) as [d1 [R1 [V1 [I1 [E1 _]]]]].
  rewrite R1.
  destruct (addReview_ok t2 a2 q2 "high" fk d1) as [d2 [R2 [V2 [I2 [E2 _]]]]];
    [now rewrite E1|]. rewrite R2.
  destruct (addReview_ok t3 a3 q3 "medium" fk d2) as [d3 [R3 [V3 [I3 [E3 _]]]]];
    [now rewrite E2, E1|]. rewrite R3.
  rewrite getPendingReviews_open. eexists; eexists; split; [reflexivity|].
  assert (Hnd3 : NoDup (map agent_id (agents d3))) by now rewrite I3, I2, I1.
  assert (X1 : agent_exists a1 d3 = true) by now rewrite E3, E2, E1.
  assert (X2 : agent_exists a2 d3 = true) by now rewrite E3, E2, E1.
  assert (X3 : agent_exists a3 d3 = true) by now rewrite E3, E2, E1.
  rewrite V3, V2, V1. rewrite !join_agents_app, !filter_app.
  rewrite (filter_none _ (join_agents review_agent_id (agents d3) (reviews d))).
  2:{ intros x Hx. apply join_agents_row in Hx.
      rewrite Forall_forall in Hold. now apply Hold. }
  destruct (join_one_review (agents d3)
              (mkReview (reviews_seq d + 1) a1 q1 "low" "pending" t1 None) Hnd3 X1)
    as [x1 [J1 W1]].
  destruct (join_one_review (agents d3)
              (mkReview (reviews_seq d1 + 1) a2 q2 "high" "pending" t2 None) Hnd3 X2)
    as [x2 [J2 W2]].
  destruct (join_one_review (agents d3)
              (mkReview (reviews_seq d2 + 1) a3 q3 "medium" "pending" t3 None) Hnd3 X3)
    as [x3 [J3 W3]].
  rewrite J1, J2, J3.
  destruct x1 as [r1 n1 e1], x2 as [r2 n2 e2], x3 as [r3 n3 e3].
  cbn [row] in W1, W2, W3. subst r1 r2 r3.
  split; reflexivity.
Qed.

(** C6: on an open connection [getPendingReviews] returns exactly the
    pending reviews (joined with their agents), sorted by priority rank
    ascending (high 1, medium 2, low 3, anything else 4) and, within a
    rank, by [created_at] descending; and in a store without pending
    reviews, after reviews of priority low, high, medium are created in
    that order, it returns them in the order high, medium, low. *)
Theorem getPendingReviews_queue (fk : bool) (d : database)
    (t1 t2 t3 : timestamp) (a1 a2 a3 q1 q2 q3 : string) :
  (exists l,
     getPendingReviews (mkStore true fk d) = (Ok l, mkStore true fk d) /\
     Forall (fun x => review_status (row x) = "pending") l /\
     Permutation l
       (filter (fun x => is_pending (row x))
          (join_agents review_agent_id (agents d) (reviews d))) /\
     StronglySorted (fun x y => queue_order (row x) (row y)) l) /\
  (priority_rank "high" = 1 /\ priority_rank "medium" = 2 /\ priority_rank "low" = 3 /\
   forall p, p <> "high" -> p <> "medium" -> p <> "low" -> priority_rank p = 4) /\
  (NoDup (map agent_id (agents d)) ->
   Forall (fun r => is_pending r = false) (reviews d) ->
   agent_exists a1 d = true -> agent_exists a2 d = true -> agent_exists a3 d = true ->
   exists l s',
     low_high_medium t1 t2 t3 a1 a2 a3 q1 q2 q3 (mkStore true fk d) = (Ok l, s') /\
     map (fun x => review_priority (row x)) l = ["high"; "medium"; "low"] /\
     map (fun x => review_question (row x)) l = [q2; q3; q1]).
Proof.
  split; [|split; [exact priority_rank_values | apply low_high_medium_open]].
  rewrite getPendingReviews_open. eexists; split; [reflexivity|].
  split; [|split].
  - apply Forall_forall. intros x Hx. apply order_by_In, filter_In in Hx.
    destruct Hx as [_ Hx]. now apply String.eqb_eq in Hx.
  - symmetry. apply order_by_perm.
  - apply StronglySorted_weaken
      with (R := fun x y => review_order (row x) (row y) = true).
    + intros x y. apply review_order_spec.
    + apply order_by_sorted.
      * intros x y. apply review_order_total.
      * intros x y z. apply review_order_trans.
Qed.

Lemma getPendingReviews_queue_witness :
  NoDup (map agent_id (agents agents_only)) /\
  Forall (fun r => is_pending r = false) (reviews agents_only) /\
  agent_exists "buppy" agents_only = true /\
  agent_exists "zoomie" agents_only = true /\
  agent_exists "mechly" agents_only = true /\
  exists l s',
    low_high_medium 7 7 8 "buppy" "zoomie" "mechly" "A?" "B?" "C?"
      (mkStore true true agents_only) = (Ok l, s') /\
    map (fun x => review_priority (row x)) l = ["high"; "medium"; "low"] /\
    map (fun x => review_question (row x)) l = ["B?"; "C?"; "A?"].
Proof.
  assert (Hnd : NoDup (map agent_id (agents agents_only))).
  { cbn. repeat constructor; cbn; intuition discriminate. }
  assert (Hno : Forall (fun r => is_pending r = false) (reviews agents_only))
    by constructor.
  assert (Hb : agent_exists "buppy" agents_only = true) by (vm_compute; reflexivity).
  assert (Hz : agent_exists "zoomie" agents_only = true) by (vm_compute; reflexivity).
  assert (Hm : agent_exists "mechly" agents_only = true) by (vm_compute; reflexivity).
  repeat (split; [assumption|]).
  exact (proj2 (proj2 (getPendingReviews_queue true agents_only 7 7 8
                         "buppy" "zoomie" "mechly" "A?" "B?" "C?"))
           Hnd Hno Hb Hz Hm).
Defined.

(** ** The broadcast fan-out *)

Lemma socket_delivered (data : message) (c : client) :
  socket (delivered data c) = socket c.
Proof. unfold delivered. now destruct (ready_state_eqb (readyState c) OPEN). Qed.

Lemma broadcast_sockets (data : message) (cl : list client) :
  map socket (broadcast_to data cl) = map socket cl.
Proof.
  unfold broadcast_to. rewrite map_map. apply map_ext.
  intros c. apply (socket_delivered data c).
Qed.

Lemma broadcast_nth (data : message) (cl : list client) (i : nat) :
  nth_error (broadcast_to data cl) i = option_map (delivered data) (nth_error cl i).
Proof. unfold broadcast_to. apply nth_error_map. Qed.

Lemma clients_add_NoDup (ws : client) (cl : list client) :
  NoDup (map socket cl) -> NoDup (map socket (clients_add ws cl)).
Proof.
  intros H. unfold clients_add.
  destruct (existsb (same_socket (socket ws)) cl) eqn:E; [exact H|].
  rewrite map_app. cbn [map]. apply NoDup_app; [exact H | repeat constructor; auto |].
  intros n Hn [<-|[]]. apply in_map_iff in Hn. destruct Hn as [c [Hc Hin]].
  assert (X : existsb (same_socket (socket ws)) cl = true).
  { apply existsb_exists. exists c. split; [exact Hin|].
    unfold same_socket. rewrite Hc. apply Nat.eqb_refl. }
  congruence.
Qed.

Lemma clients_delete_spec (n : nat) (cl : list client) (c : client) :
  In c (clients_delete n cl) <-> In c cl /\ socket c <> n.
Proof.
  unfold clients_delete. rewrite filter_In. unfold same_socket.
  rewrite negb_true_iff, Nat.eqb_neq. reflexivity.
Qed.

(** C9, as stated, fails: a connection to which nothing can be delivered
    is not removed by the broadcast.  Socket 2, which is closing, gets no
    message and is still in the set after a broadcast and after a route
    that broadcasts. *)
Lemma broadcast_keeps_dead_connection :
  map (fun c => (socket c, sent c))
    (clients (broadcast (MsgReviewResolved "1") two_viewers))
    = [(1%nat, [MsgReviewResolved "1"]); (2%nat, [])] /\
  map (fun c => (socket c, sent c))
    (clients (snd (patch_resolve 101 "1" (Some 1) two_viewers)))
    = [(1%nat, [MsgReviewResolved "1"]); (2%nat, [])].
Proof. split; vm_compute; reflexivity. Qed.

Lemma patch_resolve_store (now : timestamp) (id : string) (reading : option Z)
    (s : store) (cl : list client) :
  srv_store (snd (patch_resolve now id reading (mkServer s cl))) =
  snd (resolveReview now (IdText id reading) s).
Proof.
  unfold patch_resolve, call; cbn [srv_store clients].
  destruct (resolveReview now (IdText id reading) s) as [[[|]|e] s']; reflexivity.
Qed.

Lemma logAgentActivity_store (now : timestamp) (agentId type description : string)
    (md : metadata) (s : store) (cl : list client) :
  srv_store (snd (logAgentActivity now agentId type description md (mkServer s cl))) =
  snd (logActivity now agentId type description md s).
Proof.
  unfold logAgentActivity, call; cbn [srv_store clients].
  destruct (logActivity now agentId type description md s) as [[rowid|e] s']; reflexivity.
Qed.

(** C9 (amended): a broadcast hands the one message to every connection
    of the set that is open, once, and skips the others; it removes no
    connection, touches no other field of a connection and never fails, so
    what one connection is sent does not depend on the others and the store
    is the one the triggering operation left, whatever the connections.  A
    connection leaves the set when its own [close] event fires, and a socket
    is in the set at most once. *)
Theorem broadcast_fan_out (data : message) (srv : server) :
  srv_store (broadcast data srv) = srv_store srv /\
  map socket (clients (broadcast data srv)) = map socket (clients srv) /\
  (forall i c, nth_error (clients srv) i = Some c ->
     exists c',
       nth_error (clients (broadcast data srv)) i = Some c' /\
       socket c' = socket c /\ readyState c' = readyState c /\
       sent c' = if ready_state_eqb (readyState c) OPEN
                 then (sent c ++ [data])%list else sent c) /\
  (forall now id reading cl,
     srv_store (snd (patch_resolve now id reading (mkServer (srv_store srv) cl))) =
       snd (resolveReview now (IdText id reading) (srv_store srv))) /\
  (forall now agentId type description md cl,
     srv_store (snd (logAgentActivity now agentId type description md
                       (mkServer (srv_store srv) cl))) =
       snd (logActivity now agentId type description md (srv_store srv))) /\
  (forall n,
     srv_store (on_close n srv) = srv_store srv /\
     ~ In n (map socket (clients (on_close n srv))) /\
     forall c, In c (clients srv) -> socket c <> n -> In c (clients (on_close n srv))) /\
  (forall ws, NoDup (map socket (clients srv)) ->
     NoDup (map socket (clients_add ws (clients srv)))).
Proof.
  split; [reflexivity|]. split; [apply broadcast_sockets|].
  split; [|split; [|split; [|split]]].
  - intros i c Hc. cbn [broadcast clients]. rewrite broadcast_nth, Hc. cbn [option_map].
    eexists; split; [reflexivity|]. unfold delivered.
    destruct (ready_state_eqb (readyState c) OPEN); repeat split; reflexivity.
  - intros now id reading cl. apply patch_resolve_store.
  - intros now agentId type description md cl. apply logAgentActivity_store.
  - intros n. split; [reflexivity|]. cbn [on_close clients]. split.
    + intros Hin. apply in_map_iff in Hin. destruct Hin as [c [Hc Hin]].
      apply clients_delete_spec in Hin. destruct Hin as [_ Hne]. contradiction.
    + intros c Hc Hne. apply clients_delete_spec. split; assumption.
  - intros ws. apply clients_add_NoDup.
Qed.

Lemma broadcast_fan_out_witness :
  nth_error (clients two_viewers) 1 = Some (mkClient 2 CLOSING []) /\
  In (mkClient 1 OPEN []) (clients two_viewers) /\ 1%nat <> 2%nat /\
  NoDup (map socket (clients two_viewers)) /\
  (exists c',
     nth_error (clients (broadcast (MsgSystem 7) two_viewers)) 1 = Some c' /\
     socket c' = 2%nat /\ readyState c' = CLOSING /\ sent c' = []) /\
  In (mkClient 1 OPEN []) (clients (on_close 2 two_viewers)) /\
  NoDup (map socket (clients_add (mkClient 3 OPEN []) (clients two_viewers))).
Proof.
  assert (H1 : nth_error (clients two_viewers) 1 = Some (mkClient 2 CLOSING []))
    by reflexivity.
  assert (H2 : In (mkClient 1 OPEN []) (clients two_viewers)) by (left; reflexivity).
  assert (H3 : 1%nat <> 2%nat) by discriminate.
  assert (H4 : NoDup (map socket (clients two_viewers))).
  { cbn. repeat constructor; cbn; intuition discriminate. }
  pose proof (broadcast_fan_out (MsgSystem 7) two_viewers)
    as [_ [_ [Hnth [_ [_ [Hclose Hadd]]]]]].
  repeat (split; [assumption|]).
  split; [exact (Hnth 1%nat _ H1)|].
  split; [exact (proj2 (proj2 (Hclose 2%nat)) _ H2 H3) | exact (Hadd _ H4)].
Defined.

(** ** initDb and the seeding *)

Lemma initDb_seeded (now : timestamp) (s : store) :
  agents (file s) <> [] ->
  initDb now s = (Ok (file s), mkStore true (foreign_keys s) (file s)).
Proof.
  intros H. unfold initDb, seedInitialAgents. run.
  destruct (agents (file s)) as [|a l] eqn:E; [contradiction|].
  cbn [List.length]. rewrite Nat2Z.inj_succ.
  destruct (Z.succ (Z.of_nat (List.length l)) =? 0) eqn:Z0; [|reflexivity].
  apply Z.eqb_eq in Z0. lia.
Qed.

Lemma seed_step {B} (now : timestamp) (a : seed_agent) (k : M B)
    (fk : bool) (d : database) :
  agent_exists (seed_id a) d = false ->
  (insert_agent now (seed_id a) (seed_name a) (seed_emoji a) (seed_role a)
     (seed_model a) (seed_status a) (seed_task a) ;;;
   logActivity now (seed_id a) "system" (seed_name a ++ " initialized and ready")
     [("source", JStr "database_seed")] ;;;
   k) (mkStore true fk d) =
  k (mkStore true fk
       (mkDb (agents d ++
                [mkAgent (seed_id a) (seed_name a) (seed_emoji a) (seed_role a)
                   (seed_model a) (seed_status a) (Some (seed_task a)) now])
          (activities d ++
             [mkActivity (activities_seq d + 1) (seed_id a) "system"
                (seed_name a ++ " initialized and ready")
                [("source", JStr "database_seed")] now])
          (activities_seq d + 1) (reviews d) (reviews_seq d))).
Proof.
  intros Hnew. unfold insert_agent. run. rewrite Hnew. cbn [db file].
  rewrite logActivity_open.
  assert (E : agent_exists (seed_id a)
                (mkDb (agents d ++
                         [mkAgent (seed_id a) (seed_name a) (seed_emoji a) (seed_role a)
                            (seed_model a) (seed_status a) (Some (seed_task a)) now])
                   (activities d) (activities_seq d) (reviews d) (reviews_seq d)) = true).
  { unfold agent_exists; cbn [agents]. rewrite existsb_app. cbn [existsb].
    unfold is_agent at 2; cbn [agent_id]. rewrite String.eqb_refl.
    now rewrite orb_true_r. }
  rewrite E, andb_false_r. unfold logged. norm_db.
  do 3 f_equal. unfold update_where. rewrite map_app. cbn [map].
  unfold is_agent at 2; cbn [agent_id]. rewrite String.eqb_refl. cbn [touch agent_id
    agent_name agent_emoji agent_role agent_model agent_status agent_current_task].
  f_equal. fold (update_where (is_agent (seed_id a)) (touch now) (agents d)).
  now apply update_where_none.
Qed.

Lemma insert_review_step {B} (now : timestamp) (agentId question priority status : string)
    (k : M B) (fk : bool) (d : database) :
  agent_exists agentId d = true ->
  (insert_review now agentId question priority status ;;; k) (mkStore true fk d) =
  k (mkStore true fk
       (mkDb (agents d) (activities d) (activities_seq d)
          (reviews d ++
             [mkReview (reviews_seq d + 1) agentId question priority status now None])
          (reviews_seq d + 1))).
Proof.
  intros He. unfold insert_review, check_agent_fk. run.
  now rewrite He, andb_false_r.
Qed.

Lemma initDb_empty (now : timestamp) (s : store) :
  agents (file s) = [] ->
  let d' := mkDb (seed_agent_rows now)
              (activities (file s) ++ seed_activity_rows now (activities_seq (file s)))
              (activities_seq (file s) + 1 + 1 + 1)
              (reviews (file s) ++ seed_review_rows now (reviews_seq (file s)))
              (reviews_seq (file s) + 1 + 1 + 1) in
  initDb now s = (Ok d', mkStore true (foreign_keys s) d').
Proof.
  destruct s as [b fk [ags acts aseq revs rseq]]. cbn [file agents]. intros ->.
  cbv zeta. cbn [file foreign_keys activities activities_seq reviews reviews_seq].
  unfold initDb, seedInitialAgents.
  unfold bind at 1 2. cbn [foreign_keys file].
  unfold bind at 1. unfold conn at 1. cbn [db file agents List.length Z.of_nat Z.eqb].
  unfold seed_agents, seed_loop, seedSampleReviews.
  unfold bind at 1.
  rewrite seed_step by reflexivity. norm_db.
  rewrite seed_step by reflexivity. norm_db.
  rewrite seed_step by reflexivity. norm_db.
  unfold ret at 1. cbv beta iota.
  rewrite insert_review_step by reflexivity. norm_db.
  rewrite insert_review_step by reflexivity. norm_db.
  rewrite insert_review_step by reflexivity. norm_db.
  unfold ret, conn.
  cbn [db file seed_id seed_name seed_emoji seed_role seed_model seed_status seed_task].
  rewrite <- !app_assoc. reflexivity.
Qed.

Lemma initDb_each_seeded (nows : list timestamp) (s : store) :
  db s = true -> agents (file s) <> [] -> initDb_each nows s = (Ok tt, s).
Proof.
  intros Hdb Hags. induction nows as [|now rest IH]; [reflexivity|].
  cbn [initDb_each]. unfold bind. rewrite (initDb_seeded now s Hags).
  replace (mkStore true (foreign_keys s) (file s)) with s; [exact IH|].
  destruct s as [b fk d]. cbn in Hdb. now subst b.
Qed.

Lemma initDb_result (now : timestamp) (s : store) :
  db (snd (initDb now s)) = true /\ agents (file (snd (initDb now s))) <> [].
Proof.
  destruct (agents (file s)) as [|a l] eqn:E.
  - rewrite (initDb_empty now s E). cbn. split; [reflexivity | discriminate].
  - rewrite (initDb_seeded now s) by (rewrite E; discriminate).
    cbn [snd db file]. split; [reflexivity | rewrite E; discriminate].
Qed.

(** C10: [initDb] seeds only an empty [agents] table.  On a file whose
    [agents] table is empty it inserts the three seed agents, their three
    [system] records and the three sample reviews; on a file with an agent
    it changes nothing; so after one [initDb] any number of further calls
    leaves the store as it is, and any number of calls, one or more, on a
    new file leaves exactly one row for each seed agent and one for each
    sample review. *)
Theorem initDb_seeds_once (now : timestamp) (nows : list timestamp) (s : store)
    (fk : bool) :
  (agents (file s) = [] ->
   exists d',
     initDb now s = (Ok d', mkStore true (foreign_keys s) d') /\
     agents d' = seed_agent_rows now /\
     map agent_id (agents d') = ["buppy"; "zoomie"; "mechly"] /\
     reviews d' = (reviews (file s) ++ seed_review_rows now (reviews_seq (file s)))%list) /\
  (agents (file s) <> [] ->
   initDb now s = (Ok (file s), mkStore true (foreign_keys s) (file s))) /\
  initDb_each nows (snd (initDb now s)) = (Ok tt, snd (initDb now s)) /\
  initDb_each (now :: nows) (fresh_store fk) =
    (Ok tt,
     mkStore true fk
       (mkDb (seed_agent_rows now) (seed_activity_rows now 0) 3
          (seed_review_rows now 0) 3)).
Proof.
  split; [|split; [|split]].
  - intros E. rewrite (initDb_empty now s E). cbv zeta.
    eexists; split; [reflexivity|]. repeat split.
  - apply initDb_seeded.
  - destruct (initDb_result now s) as [Hdb Hags].
    now apply initDb_each_seeded.
  - cbn [initDb_each]. unfold bind.
    rewrite (initDb_empty now (fresh_store fk) eq_refl). cbv zeta.
    rewrite initDb_each_seeded; [reflexivity | reflexivity | discriminate].
Qed.

Lemma initDb_seeds_once_witness :
  agents (file (fresh_store true)) = [] /\ agents (file (seeded true)) <> [] /\
  (exists d', initDb 100 (fresh_store true) = (Ok d', mkStore true true d') /\
              map agent_id (agents d') = ["buppy"; "zoomie"; "mechly"]) /\
  initDb 200 (seeded true) = (Ok seeded_db, seeded true).
Proof.
  assert (He : agents (file (fresh_store true)) = []) by reflexivity.
  assert (Hs : agents (file (seeded true)) <> []) by discriminate.
  pose proof (initDb_seeds_once 100 [] (fresh_store true) true) as [Hempty _].
  pose proof (initDb_seeds_once 200 [] (seeded true) true) as [_ [Hseeded _]].
  split; [exact He|]. split; [exact Hs|]. split.
  - destruct (Hempty He) as [d' [H [_ [Hids _]]]]. exists d'. split; assumption.
  - exact (Hseeded Hs).
Defined.


(** * More of the store and of the server *)

(** ** Every request changes the file by the statements of db.js *)

Lemma addReview_open (now : timestamp) (agentId question priority : string)
    (fk : bool) (d : database) :
  addReview now agentId (QText question) priority (mkStore true fk d) =
  if fk && negb (agent_exists agentId d)
  then (Throw fk_failed, mkStore true fk d)
  else (Ok (reviews_seq d + 1),
        mkStore true fk
          (logged now agentId "review_created"
             ("Created review: " ++ substring_0 50 question ++ "...")
             [("review_id", JNum (reviews_seq d + 1)); ("priority", JStr priority)]
             (mkDb (agents d) (activities d) (activities_seq d)
                (reviews d ++
                   [mkReview (reviews_seq d + 1) agentId question priority "pending"
                      now None])
                (reviews_seq d + 1)))).
Proof.
  unfold addReview, insert_review, check_agent_fk. run.
  destruct (fk && negb (agent_exists agentId d)) eqn:E; [reflexivity|].
  cbn [db foreign_keys file stored_question]. rewrite logActivity_open.
  unfold agent_exists at 1; cbn [agents]. fold (agent_exists agentId d).
  now rewrite E.
Qed.

Lemma addReview_number_open (now : timestamp) (agentId stored priority : string)
    (fk : bool) (d : database) :
  addReview now agentId (QNumber stored) priority (mkStore true fk d) =
  if fk && negb (agent_exists agentId d)
  then (Throw fk_failed, mkStore true fk d)
  else (Throw (TypeError "question.substring is not a function"),
        mkStore true fk
          (mkDb (agents d) (activities d) (activities_seq d)
             (reviews d ++
                [mkReview (reviews_seq d + 1) agentId stored priority "pending"
                   now None])
             (reviews_seq d + 1))).
Proof.
  unfold addReview, insert_review, check_agent_fk. run.
  destruct (fk && negb (agent_exists agentId d)) eqn:E; reflexivity.
Qed.

Lemma fk_condition (fk : bool) (agentId : string) (d : database) :
  fk && negb (agent_exists agentId d) = false ->
  fk = true -> agent_exists agentId d = true.
Proof. intros H ->. cbn in H. now apply negb_false_iff in H. Qed.

Lemma closed_store_unchanged (now : timestamp) (o : op) (fk : bool) (d : database) :
  o <> OpInitDb -> file (step (now, o) (mkStore false fk d)) = d /\
                   foreign_keys (step (now, o) (mkStore false fk d)) = fk.
Proof. destruct o; intros H; try contradiction; split; reflexivity. Qed.

Lemma step_change (c : timestamp * op) (s : store) :
  change (foreign_keys s) (file s) (file (step c s)) /\
  foreign_keys (step c s) = foreign_keys s.
Proof.
  destruct c as [now o]. unfold step; cbn [fst snd].
  destruct o.
  - (* initDb *)
    cbn [apply_op]. unfold bind, ret.
    destruct (agents (file s)) as [|a l] eqn:E.
    + rewrite (initDb_empty now s E). cbn. split; [|reflexivity].
      now apply change_seed.
    + rewrite (initDb_seeded now s) by (rewrite E; discriminate).
      cbn. split; [apply change_none | reflexivity].
  - (* closeDb *)
    cbn. split; [apply change_none | reflexivity].
  - destruct s as [[|] fk d]; [|split; [apply change_none | reflexivity]].
    cbn [apply_op foreign_keys file]. unfold bind, ret. rewrite logActivity_open.
    destruct (fk && negb (agent_exists agentId d)) eqn:E; cbn [fst snd file foreign_keys];
      (split; [|reflexivity]); [apply change_none|].
    apply change_log. now apply fk_condition.
  - destruct s as [[|] fk d]; [|split; [apply change_none | reflexivity]].
    cbn [apply_op foreign_keys file]. unfold bind, ret. rewrite updateAgentTask_open.
    destruct (agent_exists agentId d) eqn:E; cbn [fst snd file foreign_keys];
      (split; [|reflexivity]); [|apply change_none].
    eapply change_trans.
    + apply (change_agents fk (is_agent agentId) (set_task task now)). reflexivity.
    + replace (mkDb (update_where (is_agent agentId) (set_task task now) (agents d))
                 (activities d ++
                    [mkActivity (activities_seq d + 1) agentId "task_update"
                       ("Updated task: " ++ task) [("task", JStr task)] now])
                 (activities_seq d + 1) (reviews d) (reviews_seq d))
        with (logged now agentId "task_update" ("Updated task: " ++ task)
                [("task", JStr task)]
                (mkDb (update_where (is_agent agentId) (set_task task now) (agents d))
                   (activities d) (activities_seq d) (reviews d) (reviews_seq d))).
      * apply change_log. intros _. unfold agent_exists in *; cbn [agents].
        rewrite existsb_update_where; [exact E|]. intros a. apply is_agent_set_task.
      * unfold logged. norm_db.
        rewrite update_where_twice by (intros a; apply is_agent_set_task).
        reflexivity.
  - destruct s as [[|] fk d]; [|split; [apply change_none | reflexivity]].
    cbn [apply_op foreign_keys file]. unfold bind, ret. rewrite updateAgentStatus_open.
    cbn [fst snd file foreign_keys]. split; [|reflexivity].
    apply (change_agents fk (is_agent agentId) (set_status status now)). reflexivity.
  - destruct s as [[|] fk d]; [|split; [apply change_none | reflexivity]].
    cbn [apply_op foreign_keys file]. unfold bind, ret.
    destruct question as [question|stored].
    + rewrite addReview_open.
      destruct (fk && negb (agent_exists agentId d)) eqn:E;
        cbn [fst snd file foreign_keys];
        (split; [|reflexivity]); [apply change_none|].
      eapply change_trans.
      * apply (change_review fk now agentId question priority). now apply fk_condition.
      * apply change_log. intros Hfk. unfold agent_exists; cbn [agents].
        now apply (fk_condition fk agentId d).
    + rewrite addReview_number_open.
      destruct (fk && negb (agent_exists agentId d)) eqn:E;
        cbn [fst snd file foreign_keys];
        (split; [|reflexivity]); [apply change_none|].
      apply (change_review fk now agentId stored priority). now apply fk_condition.
  - destruct s as [[|] fk d]; [|split; [apply change_none | reflexivity]].
    cbn [apply_op foreign_keys file]. unfold bind, ret. rewrite resolveReview_open.
    destruct (find (has_id reviewId) (reviews d)) as [r|];
      [|cbn [fst snd file foreign_keys]; split; [apply change_none | reflexivity]].
    cbv zeta. destruct (fk && negb (agent_exists (review_agent_id r) d)) eqn:E; cbn [fst snd file foreign_keys];
      (split; [|reflexivity]); [apply change_resolve|].
    eapply change_trans; [apply (change_resolve fk now reviewId)|].
    apply change_log. intros Hfk. unfold agent_exists; cbn [agents].
    now apply (fk_condition fk (review_agent_id r) d).
Qed.

Lemma run_ops_foreign_keys (l : list (timestamp * op)) (s : store) :
  foreign_keys (run_ops l s) = foreign_keys s.
Proof.
  revert s. induction l as [|c l IH]; intros s; [reflexivity|].
  cbn [run_ops fold_left]. fold (run_ops l (step c s)).
  rewrite IH. apply step_change.
Qed.

Lemma run_ops_change (l : list (timestamp * op)) (s : store) :
  change (foreign_keys s) (file s) (file (run_ops l s)).
Proof.
  revert s. induction l as [|c l IH]; intros s; [apply change_none|].
  cbn [run_ops fold_left]. fold (run_ops l (step c s)).
  destruct (step_change c s) as [Hc Hfk].
  eapply change_trans; [exact Hc|]. rewrite <- Hfk. apply IH.
Qed.


(** ** Invariants of the file *)

Lemma map_identity_update_where (p : agent -> bool) (f : agent -> agent)
    (ags : list agent) :
  (forall a, identity_of (f a) = identity_of a) ->
  map identity_of (update_where p f ags) = map identity_of ags.
Proof.
  intros Hf. unfold update_where. rewrite map_map. apply map_ext.
  intros a. destruct (p a); [apply Hf | reflexivity].
Qed.

Lemma change_identities (fk : bool) (d d' : database) :
  change fk d d' ->
  map identity_of (agents d') = map identity_of (agents d) \/
  (agents d = [] /\ map identity_of (agents d') = seed_identities).
Proof.
  induction 1 as [d | now a t ds md d _ | p f d Hf | now a q pr d _ | now id d
                 | now d Hempty | d1 d2 d3 _ IH1 _ IH2].
  - now left.
  - left. cbn [logged agents]. now apply map_identity_update_where.
  - left. cbn [agents]. now apply map_identity_update_where.
  - now left.
  - now left.
  - right. split; [exact Hempty | reflexivity].
  - destruct IH1 as [E1|[E1 S1]], IH2 as [E2|[E2 S2]].
    + left. now rewrite E2.
    + right. split; [|exact S2]. rewrite E2 in E1. cbn in E1.
      symmetry in E1. now apply map_eq_nil in E1.
    + right. split; [exact E1 | now rewrite E2].
    + rewrite E2 in S1. discriminate.
Qed.

Lemma agent_ids_of_identities (ags : list agent) :
  map agent_id ags = map (fun i => fst (fst (fst (fst i)))) (map identity_of ags).
Proof. rewrite map_map. reflexivity. Qed.

Lemma agent_exists_identities (id : string) (d d' : database) :
  map identity_of (agents d') = map identity_of (agents d) ->
  agent_exists id d' = agent_exists id d.
Proof.
  intros H. unfold agent_exists.
  assert (E : forall ags, existsb (is_agent id) ags =
               existsb (fun i => String.eqb (fst (fst (fst (fst i)))) id)
                 (map identity_of ags)).
  { induction ags as [|a ags IH]; [reflexivity|]. cbn [map existsb]. now rewrite IH. }
  now rewrite !E, H.
Qed.

(** X1: whatever requests the module has served since the file was new,
    the [agents] table is empty or holds exactly the three seed agents, in
    seed order, with the name, emoji, role and model of the seeding; so the
    agent ids are unique. *)
Theorem agents_are_the_seed_agents (fk : bool) (l : list (timestamp * op)) :
  (agents (file (run_ops l (fresh_store fk))) = [] \/
   map identity_of (agents (file (run_ops l (fresh_store fk)))) = seed_identities) /\
  agent_ids_unique (file (run_ops l (fresh_store fk))).
Proof.
  pose proof (run_ops_change l (fresh_store fk)) as H.
  apply change_identities in H. cbn [fresh_store file foreign_keys agents
    empty_database map] in H.
  assert (X : agents (file (run_ops l (fresh_store fk))) = [] \/
              map identity_of (agents (file (run_ops l (fresh_store fk)))) =
                seed_identities).
  { destruct H as [H|[_ H]]; [left; now apply map_eq_nil in H | now right]. }
  split; [exact X|]. unfold agent_ids_unique. rewrite agent_ids_of_identities.
  destruct X as [-> | ->]; cbn; repeat constructor; cbn; intuition discriminate.
Qed.

(** X2: once the [agents] table has a row, no request adds, removes or
    reorders agents or changes the id, name, emoji, role or model of one. *)
Theorem agent_identities_fixed (l : list (timestamp * op)) (s : store) :
  agents (file s) <> [] ->
  map identity_of (agents (file (run_ops l s))) = map identity_of (agents (file s)).
Proof.
  intros Hne. destruct (change_identities _ _ _ (run_ops_change l s)) as [H|[H _]];
    [exact H | contradiction].
Qed.

Lemma agent_identities_fixed_witness :
  agents (file (seeded true)) <> [] /\
  map identity_of
    (agents (file (run_ops [(7, OpUpdateAgentTask "buppy" "Fetch");
                            (8, OpUpdateAgentStatus "zoomie" "busy");
                            (9, OpInitDb)] (seeded true)))) =
  map identity_of (agents (file (seeded true))).
Proof.
  assert (H : agents (file (seeded true)) <> []) by discriminate.
  split; [exact H|].
  exact (agent_identities_fixed _ (seeded true) H).
Defined.

Lemma StronglySorted_snoc (l : list Z) (x : Z) :
  StronglySorted Z.lt l -> Forall (fun y => y < x) l -> StronglySorted Z.lt (l ++ [x]).
Proof.
  induction 1 as [|y l Hl IH Hy]; intros Hx; cbn [app].
  - repeat constructor.
  - inversion Hx as [|? ? Hyx Hlx]; subst. constructor; [now apply IH|].
    apply Forall_app. split; [exact Hy | now constructor].
Qed.

Lemma ids_increasing_snoc {A} (key : A -> Z) (rows : list A) (seq0 : Z) (x : A) :
  StronglySorted Z.lt (map key rows) /\ Forall (fun r => key r <= seq0) rows ->
  key x = seq0 + 1 ->
  StronglySorted Z.lt (map key (rows ++ [x])) /\
  Forall (fun r => key r <= seq0 + 1) (rows ++ [x]).
Proof.
  intros [Hs Hb] Hx. split.
  - rewrite map_app. cbn [map]. apply StronglySorted_snoc; [exact Hs|].
    apply Forall_map. eapply Forall_impl; [|exact Hb]. cbn. intros r Hr. lia.
  - apply Forall_app. split.
    + eapply Forall_impl; [|exact Hb]. cbn. intros r Hr. lia.
    + constructor; [lia | constructor].
Qed.

Lemma ids_increasing_weaken {A} (key : A -> Z) (rows : list A) (seq0 seq1 : Z) :
  StronglySorted Z.lt (map key rows) /\ Forall (fun r => key r <= seq0) rows ->
  seq0 <= seq1 ->
  StronglySorted Z.lt (map key rows) /\ Forall (fun r => key r <= seq1) rows.
Proof.
  intros [Hs Hb] Hle. split; [exact Hs|].
  eapply Forall_impl; [|exact Hb]. cbn. intros r Hr. lia.
Qed.

Lemma change_ids_increasing (fk : bool) (d d' : database) :
  change fk d d' ->
  activity_ids_increasing d /\ review_ids_increasing d ->
  activity_ids_increasing d' /\ review_ids_increasing d'.
Proof.
  unfold activity_ids_increasing, review_ids_increasing.
  induction 1 as [d | now a t ds md d _ | p f d Hf | now a q pr d _ | now id d
                 | now d Hempty | d1 d2 d3 _ IH1 _ IH2]; intros [Ha Hr].
  - split; assumption.
  - split; [|exact Hr]. cbn [logged activities activities_seq].
    now apply ids_increasing_snoc.
  - split; assumption.
  - split; [exact Ha|]. cbn [reviews reviews_seq]. now apply ids_increasing_snoc.
  - split; [exact Ha|]. cbn [reviews reviews_seq]. destruct Hr as [Hs Hb]. split.
    + replace (map review_id (update_where (has_id id) (set_resolved now) (reviews d)))
        with (map review_id (reviews d)); [exact Hs|].
      unfold update_where. rewrite map_map. apply map_ext.
      intros r. now destruct (has_id id r).
    + unfold update_where. apply Forall_map. eapply Forall_impl; [|exact Hb].
      cbn. intros r Hle. now destruct (has_id id r).
  - cbn [activities activities_seq reviews reviews_seq]. split.
    + unfold seed_activity_rows.
      change (activities d ++ [?x; ?y; ?z])%list
        with (activities d ++ [x] ++ [y] ++ [z])%list.
      rewrite !app_assoc.
      repeat (apply ids_increasing_snoc; [|reflexivity]). exact Ha.
    + unfold seed_review_rows.
      change (reviews d ++ [?x; ?y; ?z])%list
        with (reviews d ++ [x] ++ [y] ++ [z])%list.
      rewrite !app_assoc.
      repeat (apply ids_increasing_snoc; [|reflexivity]). exact Hr.
  - auto.
Qed.

(** X3: whatever requests the module has served since the file was new,
    the ids of the activity log and of the reviews increase strictly in
    table order and none exceeds its AUTOINCREMENT counter; so no id is used
    twice and the next insert gets an id above all stored ones. *)
Theorem row_ids_increase (fk : bool) (l : list (timestamp * op)) :
  activity_ids_increasing (file (run_ops l (fresh_store fk))) /\
  review_ids_increasing (file (run_ops l (fresh_store fk))) /\
  NoDup (map activity_id (activities (file (run_ops l (fresh_store fk))))) /\
  NoDup (map review_id (reviews (file (run_ops l (fresh_store fk))))).
Proof.
  destruct (change_ids_increasing _ _ _ (run_ops_change l (fresh_store fk)))
    as [Ha Hr].
  { split; split; constructor. }
  split; [exact Ha|]. split; [exact Hr|].
  assert (N : forall ks, StronglySorted Z.lt ks -> NoDup ks).
  { induction 1 as [|k ks Hs IH Hk]; constructor; [|exact IH].
    intros Hin. rewrite Forall_forall in Hk. specialize (Hk k Hin). lia. }
  split; apply N; [apply Ha | apply Hr].
Qed.

Lemma Forall_agent_exists_transfer {A} (agent_of : A -> string) (rows : list A)
    (d d' : database) :
  map identity_of (agents d') = map identity_of (agents d) ->
  Forall (fun r => agent_exists (agent_of r) d = true) rows ->
  Forall (fun r => agent_exists (agent_of r) d' = true) rows.
Proof.
  intros H. apply Forall_impl. intros r Hr.
  now rewrite (agent_exists_identities _ d d' H).
Qed.

Lemma change_references (d d' : database) :
  change true d d' -> references_hold d -> references_hold d'.
Proof.
  unfold references_hold.
  induction 1 as [d | now a t ds md d Ha | p f d Hf | now a q pr d Ha | now id d
                 | now d Hempty | d1 d2 d3 _ IH1 _ IH2]; intros [HA HR].
  - split; assumption.
  - assert (I : map identity_of (agents (logged now a t ds md d)) =
                map identity_of (agents d)).
    { cbn [logged agents]. now apply map_identity_update_where. }
    split.
    + cbn [logged activities]. apply Forall_app. split.
      * now apply (Forall_agent_exists_transfer activity_agent_id _ d).
      * constructor; [|constructor]. cbn [activity_agent_id].
        rewrite agent_exists_logged. now apply Ha.
    + now apply (Forall_agent_exists_transfer review_agent_id _ d).
  - assert (I : map identity_of
                  (agents (mkDb (update_where p f (agents d)) (activities d)
                             (activities_seq d) (reviews d) (reviews_seq d))) =
                map identity_of (agents d)).
    { cbn [agents]. now apply map_identity_update_where. }
    split; cbn [activities reviews].
    + now apply (Forall_agent_exists_transfer activity_agent_id _ d).
    + now apply (Forall_agent_exists_transfer review_agent_id _ d).
  - split; cbn [activities reviews]; [exact HA|].
    apply Forall_app. split; [exact HR|].
    constructor; [|constructor]. cbn [review_agent_id]. now apply Ha.
  - split; cbn [activities reviews]; [exact HA|].
    unfold update_where. apply Forall_map. eapply Forall_impl; [|exact HR].
    cbn. intros r Hr. now destruct (has_id id r).
  - assert (Hnone : forall x, agent_exists x d = false).
    { intros x. unfold agent_exists. now rewrite Hempty. }
    assert (EA : activities d = []).
    { destruct (activities d) as [|a l]; [reflexivity|].
      inversion HA as [|? ? Hx _]; subst. rewrite Hnone in Hx. discriminate. }
    assert (ER : reviews d = []).
    { destruct (reviews d) as [|r l]; [reflexivity|].
      inversion HR as [|? ? Hx _]; subst. rewrite Hnone in Hx. discriminate. }
    rewrite EA, ER. cbn [activities reviews app].
    split; repeat constructor.
  - auto.
Qed.

(** X4: with foreign keys enforced, whatever requests the module has
    served since the file was new, every record of the activity log and
    every review names an agent of the [agents] table. *)
Theorem references_always_hold (l : list (timestamp * op)) :
  references_hold (file (run_ops l (fresh_store true))).
Proof.
  apply (change_references _ _ (run_ops_change l (fresh_store true))).
  split; constructor.
Qed.

Lemma change_coherent (fk : bool) (d d' : database) :
  change fk d d' -> Forall review_coherent (reviews d) ->
  Forall review_coherent (reviews d').
Proof.
  induction 1 as [d | now a t ds md d _ | p f d Hf | now a q pr d _ | now id d
                 | now d Hempty | d1 d2 d3 _ IH1 _ IH2]; intros H; auto.
  - cbn [reviews]. apply Forall_app. split; [exact H|].
    constructor; [|constructor]. left. split; reflexivity.
  - cbn [reviews]. unfold update_where. apply Forall_map.
    eapply Forall_impl; [|exact H]. cbn. intros r Hr.
    destruct (has_id id r); [|exact Hr].
    right. split; [reflexivity | exists now; reflexivity].
  - cbn [reviews]. apply Forall_app. split; [exact H|].
    repeat constructor; left; split; reflexivity.
Qed.

(** X5: whatever requests the module has served since the file was new,
    every review is either pending with no [resolved_at] or resolved with a
    [resolved_at]. *)
Theorem reviews_always_coherent (fk : bool) (l : list (timestamp * op)) :
  Forall review_coherent (reviews (file (run_ops l (fresh_store fk)))).
Proof.
  apply (change_coherent _ _ _ (run_ops_change l (fresh_store fk))). constructor.
Qed.

Lemma review_kept_refl (r : review) : review_kept r r.
Proof. unfold review_kept. tauto. Qed.

Lemma review_kept_trans (r1 r2 r3 : review) :
  review_kept r1 r2 -> review_kept r2 r3 -> review_kept r1 r3.
Proof.
  unfold review_kept. intros [A1 [B1 [C1 [D1 [E1 F1]]]]] [A2 [B2 [C2 [D2 [E2 F2]]]]].
  repeat split; try congruence. auto.
Qed.

Lemma Forall2_same {A} (R : A -> A -> Prop) (l : list A) :
  (forall x, R x x) -> Forall2 R l l.
Proof. intros H. induction l; constructor; auto. Qed.

Lemma Forall2_compose {A} (R : A -> A -> Prop) (l1 l2 l3 : list A) :
  (forall x y z, R x y -> R y z -> R x z) ->
  Forall2 R l1 l2 -> Forall2 R l2 l3 -> Forall2 R l1 l3.
Proof.
  intros HR H. revert l3. induction H as [|x y l1 l2 Hxy _ IH]; intros l3 H3.
  - inversion H3. constructor.
  - inversion H3 as [|? z ? l3' Hyz Hl]; subst. constructor; eauto.
Qed.

Lemma change_append_only (fk : bool) (d d' : database) :
  change fk d d' ->
  (exists added, activities d' = (activities d ++ added)%list) /\
  (exists kept added,
     reviews d' = (kept ++ added)%list /\ Forall2 review_kept (reviews d) kept).
Proof.
  induction 1 as [d | now a t ds md d _ | p f d Hf | now a q pr d _ | now id d
                 | now d Hempty | d1 d2 d3 _ IH1 _ IH2].
  - split; [exists []; now rewrite app_nil_r|].
    exists (reviews d), []. rewrite app_nil_r. split; [reflexivity|].
    apply Forall2_same, review_kept_refl.
  - split; [eexists; reflexivity|].
    exists (reviews d), []. cbn [logged reviews]. rewrite app_nil_r.
    split; [reflexivity|]. apply Forall2_same, review_kept_refl.
  - split; [exists []; cbn [activities]; now rewrite app_nil_r|].
    exists (reviews d), []. cbn [reviews]. rewrite app_nil_r.
    split; [reflexivity|]. apply Forall2_same, review_kept_refl.
  - split; [exists []; cbn [activities]; now rewrite app_nil_r|].
    eexists; eexists. cbn [reviews]. split; [reflexivity|].
    apply Forall2_same, review_kept_refl.
  - split; [exists []; cbn [activities]; now rewrite app_nil_r|].
    eexists; exists []. cbn [reviews]. rewrite app_nil_r. split; [reflexivity|].
    unfold update_where. generalize (reviews d). intros rs.
    induction rs as [|r rs IH]; cbn [map]; constructor; [|exact IH].
    destruct (has_id id r); [|apply review_kept_refl].
    unfold review_kept. cbn. tauto.
  - split; [eexists; reflexivity|].
    eexists; eexists. cbn [reviews]. split; [reflexivity|].
    apply Forall2_same, review_kept_refl.
  - destruct IH1 as [[a1 A1] [k1 [r1 [R1 K1]]]], IH2 as [[a2 A2] [k2 [r2 [R2 K2]]]].
    split; [exists (a1 ++ a2)%list; now rewrite A2, A1, app_assoc|].
    rewrite R1 in K2. apply Forall2_app_inv_l in K2.
    destruct K2 as [k2a [k2b [Ka [Kb ->]]]].
    exists k2a, (k2b ++ r2)%list. split; [now rewrite R2, app_assoc|].
    eapply Forall2_compose; [exact review_kept_trans | exact K1 | exact Ka].
Qed.

(** X6: the log is append-only and reviews are never deleted or reopened:
    after any requests, from any store, the activity table is the earlier
    table followed by new records, and the review table starts with one row
    for each earlier review, in order, with the same id, agent, question,
    priority and creation time, resolved if it was resolved before. *)
Theorem log_append_only_reviews_kept (l : list (timestamp * op)) (s : store) :
  (exists added,
     activities (file (run_ops l s)) = (activities (file s) ++ added)%list) /\
  (exists kept added,
     reviews (file (run_ops l s)) = (kept ++ added)%list /\
     Forall2 review_kept (reviews (file s)) kept).
Proof. exact (change_append_only _ _ _ (run_ops_change l s)). Qed.

(** ** Round trips between writes and reads *)

Lemma join_agents_unique {A} (agent_of : A -> string) (d : database) (rows : list A) :
  agent_ids_unique d ->
  Forall (fun r => agent_exists (agent_of r) d = true) rows ->
  map row (join_agents agent_of (agents d) rows) = rows.
Proof.
  intros Hu. induction 1 as [|r rows Hr _ IH]; [reflexivity|].
  change (r :: rows) with ([r] ++ rows)%list.
  rewrite join_agents_app, map_app, IH.
  destruct (unique_agent _ _ Hu Hr) as [ag Hag].
  unfold join_agents at 1. cbn [flat_map]. rewrite Hag. reflexivity.
Qed.

Lemma map_row_filter {A} (p : A -> bool) (l : list (joined A)) :
  map row (filter (fun x => p (row x)) l) = filter p (map row l).
Proof.
  induction l as [|x l IH]; [reflexivity|]. cbn [filter map].
  destruct (p (row x)); cbn [map]; now rewrite IH.
Qed.

(** X7: a review created for an agent of the table is in the queue right
    away: after [addReview] returns an id, [getPendingReviews] has a row
    for that id with the agent, question and priority given, pending and
    created at the time of the call. *)
Theorem addReview_then_pending (now : timestamp) (agentId question priority : string)
    (fk : bool) (d : database) :
  agent_exists agentId d = true ->
  exists rid s' l,
    addReview now agentId (QText question) priority (mkStore true fk d) = (Ok rid, s') /\
    getPendingReviews s' = (Ok l, s') /\
    In (mkReview rid agentId question priority "pending" now None) (map row l).
Proof.
  intros He. rewrite addReview_open, He, andb_false_r.
  eexists; eexists; eexists. split; [reflexivity|].
  rewrite getPendingReviews_open. split; [reflexivity|].
  apply in_map_iff.
  assert (Hx : existsb (is_agent agentId)
                 (update_where (is_agent agentId) (touch now) (agents d)) = true).
  { rewrite existsb_update_where; [exact He|]. intros a. apply is_agent_touch. }
  apply existsb_exists in Hx. destruct Hx as [ag [Hin Hag]].
  exists (mkJoined (mkReview (reviews_seq d + 1) agentId question priority "pending"
                      now None) (agent_name ag) (agent_emoji ag)).
  split; [reflexivity|]. apply order_by_In. apply filter_In. split; [|reflexivity].
  cbn [logged agents reviews]. rewrite join_agents_app. apply in_or_app. right.
  unfold join_agents. cbn [flat_map review_agent_id]. rewrite app_nil_r.
  apply in_map_iff. exists ag. split; [reflexivity|].
  apply filter_In. split; assumption.
Qed.

Lemma addReview_then_pending_witness :
  agent_exists "mechly" seeded_db = true /\
  exists rid s' l,
    addReview 7 "mechly" (QText "Ship?") "high" (seeded false) = (Ok rid, s') /\
    getPendingReviews s' = (Ok l, s') /\
    In (mkReview rid "mechly" "Ship?" "high" "pending" 7 None) (map row l).
Proof.
  assert (Hm : agent_exists "mechly" seeded_db = true) by (vm_compute; reflexivity).
  split; [exact Hm|].
  exact (addReview_then_pending 7 "mechly" "Ship?" "high" false seeded_db Hm).
Defined.

(** X8: after [resolveReview] of an id, whatever it returned, no row of
    the queue has that id. *)
Theorem resolveReview_then_not_pending (now : timestamp) (reviewId : id_value)
    (fk : bool) (d : database) :
  exists l,
    getPendingReviews (snd (resolveReview now reviewId (mkStore true fk d))) =
      (Ok l, snd (resolveReview now reviewId (mkStore true fk d))) /\
    forall x n, In x l -> id_reading reviewId = Some n -> review_id (row x) <> n.
Proof.
  assert (G : forall ags rs x n,
            In x (filter (fun x => is_pending (row x))
                    (join_agents review_agent_id ags
                       (update_where (has_id reviewId) (set_resolved now) rs))) ->
            id_reading reviewId = Some n ->
            review_id (row x) <> n).
  { intros ags rs x n Hx Hn. apply filter_In in Hx. destruct Hx as [Hx Hp].
    apply join_agents_row in Hx. apply In_update_where in Hx.
    destruct Hx as [r [_ [[_ E]|[Hno E]]]]; rewrite E in *.
    - discriminate.
    - unfold has_id in Hno. rewrite Hn in Hno.
      unfold is_review in Hno. now apply Z.eqb_neq in Hno. }
  rewrite resolveReview_open.
  destruct (find (has_id reviewId) (reviews d)) as [r|] eqn:F.
  - cbv zeta. destruct (fk && negb (agent_exists (review_agent_id r) d));
      cbn [snd]; rewrite getPendingReviews_open; eexists; (split; [reflexivity|]);
      intros x n Hx Hn; apply order_by_In in Hx; cbn [logged agents reviews] in Hx;
      now apply (G _ _ _ n) in Hx.
  - cbn [snd]. rewrite getPendingReviews_open. eexists; split; [reflexivity|].
    intros x n Hx Hn Hid. apply order_by_In, filter_In in Hx. destruct Hx as [Hx _].
    apply join_agents_row in Hx.
    assert (Hf : find (has_id reviewId) (reviews d) <> None).
    { clear F. induction (reviews d) as [|y ys IH]; [contradiction|]. cbn [find].
      destruct (has_id reviewId y) eqn:E; [discriminate|].
      destruct Hx as [-> | Hx]; [|now apply IH].
      unfold has_id in E. rewrite Hn in E.
      unfold is_review in E. apply Z.eqb_neq in E. contradiction. }
    contradiction.
Qed.

(** X9: the rows that [addReview] writes.  With foreign keys enforced and
    an agent that is not in the table it throws the engine's foreign-key
    error and leaves the store as it was, whatever the question.  For an
    agent of the table and a string as question it returns the new review
    id and appends one pending review and one [review_created] record of
    that agent, whose metadata carry the review id and the priority and
    whose description quotes the question (its first 50 characters, when
    these are one-byte characters).  For an agent of the table and a number
    (not NaN) as question it appends the pending review and then throws a
    [TypeError]: no record is logged and no agent row is touched. *)
Theorem addReview_rows (now : timestamp) (agentId : string) (question : question_value)
    (priority : string) (fk : bool) (d : database) :
  (agent_exists agentId d = false -> fk = true ->
   addReview now agentId question priority (mkStore true fk d) =
     (Throw fk_failed, mkStore true fk d)) /\
  (agent_exists agentId d = true ->
   forall q, question = QText q ->
   exists d' record,
     addReview now agentId question priority (mkStore true fk d) =
       (Ok (reviews_seq d + 1), mkStore true fk d') /\
     reviews d' =
       (reviews d ++
          [mkReview (reviews_seq d + 1) agentId q priority "pending" now None])%list /\
     activities d' = (activities d ++ [record])%list /\
     activity_id record = activities_seq d + 1 /\
     activity_agent_id record = agentId /\
     activity_type record = "review_created" /\
     activity_metadata_json record =
       [("review_id", JNum (reviews_seq d + 1)); ("priority", JStr priority)] /\
     activity_timestamp record = now /\
     (exists quoted,
        activity_description record = "Created review: " ++ quoted ++ "...") /\
     (single_bytes (substring 0 50 q) = true ->
      activity_description record = "Created review: " ++ substring 0 50 q ++ "...")) /\
  (agent_exists agentId d = true ->
   forall stored, question = QNumber stored ->
   exists d',
     addReview now agentId question priority (mkStore true fk d) =
       (Throw (TypeError "question.substring is not a function"), mkStore true fk d') /\
     reviews d' =
       (reviews d ++
          [mkReview (reviews_seq d + 1) agentId stored priority "pending" now None])%list /\
     activities d' = activities d /\
     agents d' = agents d).
Proof.
  split; [|split].
  - intros He ->. destruct question as [q|stored].
    + now rewrite addReview_open, He.
    + now rewrite addReview_number_open, He.
  - intros He q ->. rewrite addReview_open, He, andb_false_r.
    eexists; eexists. split; [reflexivity|].
    cbn [logged reviews activities activities_seq].
    split; [reflexivity|]. split; [reflexivity|].
    cbn [activity_id activity_agent_id activity_type activity_metadata_json
           activity_timestamp activity_description].
    repeat (split; [reflexivity|]).
    split; [eexists; reflexivity|].
    intros Hq. now rewrite substring_0_single_bytes.
  - intros He stored ->. rewrite addReview_number_open, He, andb_false_r.
    eexists. split; [reflexivity|]. cbn [reviews activities agents].
    repeat split; reflexivity.
Qed.

Lemma addReview_rows_witness :
  (agent_exists "ghost" seeded_db = false /\
   addReview 7 "ghost" (QText "Why?") "low" (seeded true) =
     (Throw fk_failed, seeded true)) /\
  (agent_exists "buppy" seeded_db = true /\
   single_bytes (substring 0 50 "Why?") = true /\
   (exists d' record,
      addReview 7 "buppy" (QText "Why?") "low" (seeded true) =
        (Ok 4, mkStore true true d') /\
      activities d' = (activities seeded_db ++ [record])%list /\
      activity_description record = "Created review: Why?...") /\
   fst (addReview 7 "buppy" (QNumber "42.0") "low" (seeded true)) =
     Throw (TypeError "question.substring is not a function")).
Proof.
  assert (Hg : agent_exists "ghost" seeded_db = false) by (vm_compute; reflexivity).
  assert (Hb : agent_exists "buppy" seeded_db = true) by (vm_compute; reflexivity).
  assert (Hq : single_bytes (substring 0 50 "Why?") = true) by reflexivity.
  pose proof (addReview_rows 7 "ghost" (QText "Why?") "low" true seeded_db)
    as [Hno _].
  pose proof (addReview_rows 7 "buppy" (QText "Why?") "low" true seeded_db)
    as [_ [Hyes _]].
  pose proof (addReview_rows 7 "buppy" (QNumber "42.0") "low" true seeded_db)
    as [_ [_ Hnum]].
  split; split.
  - exact Hg.
  - exact (Hno Hg eq_refl).
  - exact Hb.
  - split; [exact Hq|]. split.
    + destruct (Hyes Hb _ eq_refl)
        as [d' [record [H [_ [Hact [_ [_ [_ [_ [_ [_ Hdesc]]]]]]]]]]].
      exists d', record. split; [exact H|]. split; [exact Hact | exact (Hdesc Hq)].
    + destruct (Hnum Hb _ eq_refl) as [d' [H _]]. unfold seeded. now rewrite H.
Defined.

(** X10: the counts of [getStats] agree with the reads.  On an open
    connection the agent count is the length of [getAllAgents]; and when
    agent ids are unique and every review and record names an agent of the
    table, the pending count is the length of [getPendingReviews] and the
    activity count is the length of the unlimited [getRecentActivities]. *)
Theorem getStats_agrees_with_reads (fk : bool) (d : database) :
  agent_ids_unique d -> references_hold d ->
  exists st ags revs acts,
    getStats (mkStore true fk d) = (Ok st, mkStore true fk d) /\
    getAllAgents (mkStore true fk d) = (Ok ags, mkStore true fk d) /\
    getPendingReviews (mkStore true fk d) = (Ok revs, mkStore true fk d) /\
    getRecentActivities (-1) (mkStore true fk d) = (Ok acts, mkStore true fk d) /\
    stats_agents st = Z.of_nat (List.length ags) /\
    stats_pendingReviews st = Z.of_nat (List.length revs) /\
    stats_activities st = Z.of_nat (List.length acts) /\
    stats_pendingReviews st <= stats_reviews st.
Proof.
  intros Hu [HA HR].
  eexists; eexists; eexists; eexists.
  split; [reflexivity|]. split; [reflexivity|].
  rewrite getPendingReviews_open, getRecentActivities_open by reflexivity.
  split; [reflexivity|]. split; [reflexivity|].
  cbn [stats_agents stats_pendingReviews stats_activities stats_reviews].
  split; [now rewrite order_by_length|]. split; [|split].
  - rewrite order_by_length. f_equal.
    rewrite <- (length_map row), map_row_filter.
    now rewrite (join_agents_unique review_agent_id d (reviews d) Hu HR).
  - unfold sql_limit. cbn [Z.ltb Z.compare]. rewrite order_by_length. f_equal.
    rewrite <- (length_map row).
    now rewrite (join_agents_unique activity_agent_id d (activities d) Hu HA).
  - apply inj_le. apply filter_length_le.
Qed.

Lemma getStats_agrees_with_reads_witness :
  agent_ids_unique seeded_db /\ references_hold seeded_db /\
  exists st ags revs acts,
    getStats (seeded true) = (Ok st, seeded true) /\
    getAllAgents (seeded true) = (Ok ags, seeded true) /\
    getPendingReviews (seeded true) = (Ok revs, seeded true) /\
    getRecentActivities (-1) (seeded true) = (Ok acts, seeded true) /\
    stats_agents st = Z.of_nat (List.length ags) /\
    stats_pendingReviews st = Z.of_nat (List.length revs) /\
    stats_activities st = Z.of_nat (List.length acts) /\
    stats_pendingReviews st <= stats_reviews st.
Proof.
  assert (Hu : agent_ids_unique seeded_db).
  { unfold agent_ids_unique. cbn. repeat constructor; cbn; intuition discriminate. }
  assert (Hr : references_hold seeded_db).
  { split; repeat constructor. }
  split; [exact Hu|]. split; [exact Hr|].
  exact (getStats_agrees_with_reads true seeded_db Hu Hr).
Defined.

(** ** Reads of the agents *)

Lemma ascii_compare_trans (a b c : ascii) (o : comparison) :
  Ascii.compare a b = o -> Ascii.compare b c = o -> Ascii.compare a c = o.
Proof.
  unfold Ascii.compare. destruct o; intros H1 H2.
  - apply N.compare_eq_iff in H1, H2. apply N.compare_eq_iff. congruence.
  - rewrite N.compare_lt_iff in *. lia.
  - rewrite N.compare_gt_iff in *. lia.
Qed.

Lemma string_leb_trans (s1 s2 s3 : string) :
  String.leb s1 s2 = true -> String.leb s2 s3 = true -> String.leb s1 s3 = true.
Proof.
  unfold String.leb. revert s2 s3.
  induction s1 as [|a s1 IH]; intros [|b s2] [|c s3]; cbn [String.compare];
    try reflexivity; try discriminate.
  destruct (Ascii.compare a b) eqn:Eab; try discriminate;
    destruct (Ascii.compare b c) eqn:Ebc; try discriminate; intros H1 H2.
  - rewrite (ascii_compare_trans a b c Eq Eab Ebc). now apply IH with s2.
  - apply Ascii.compare_eq_iff in Eab. subst b. now rewrite Ebc.
  - apply Ascii.compare_eq_iff in Ebc. subst c. now rewrite Eab.
  - now rewrite (ascii_compare_trans a b c Lt Eab Ebc).
Qed.

Lemma string_leb_total (s1 s2 : string) :
  String.leb s1 s2 = false -> String.leb s2 s1 = true.
Proof.
  intros H. destruct (String.leb_total s1 s2) as [E|E]; [congruence | exact E].
Qed.

(** X11: on an open connection [getAllAgents] returns every agent of the
    table once, ordered by name ascending (byte order), and leaves the store
    as it is. *)
Theorem getAllAgents_by_name (fk : bool) (d : database) :
  exists ags,
    getAllAgents (mkStore true fk d) = (Ok ags, mkStore true fk d) /\
    Permutation ags (agents d) /\
    StronglySorted (fun a b => String.leb (agent_name a) (agent_name b) = true) ags.
Proof.
  eexists. split; [reflexivity|]. split.
  - symmetry. apply order_by_perm.
  - apply (order_by_sorted name_asc).
    + intros x y. apply string_leb_total.
    + intros x y z. apply string_leb_trans.
Qed.

Lemma find_is_agent_id (id : string) (ags : list agent) (ag : agent) :
  find (is_agent id) ags = Some ag -> agent_id ag = id /\ In ag ags.
Proof.
  intros H. apply find_some in H. destruct H as [Hin Hid].
  split; [now apply is_agent_true | exact Hin].
Qed.

(** X12: an update is what the next read of the agent shows.  For an
    agent of the table, after [updateAgentTask] the row that [getAgent]
    returns has the new task, the status [active] and the time of the call;
    after [updateAgentStatus] it has the new status and the time of the
    call, and the task it had. *)
Theorem update_then_getAgent (now : timestamp) (agentId task status : string)
    (fk : bool) (d : database) (ag : agent) :
  find (is_agent agentId) (agents d) = Some ag ->
  (exists s',
     updateAgentTask now agentId task (mkStore true fk d) = (Ok true, s') /\
     getAgent agentId s' = (Ok (Some (set_task task now ag)), s')) /\
  (exists s',
     updateAgentStatus now agentId status (mkStore true fk d) = (Ok true, s') /\
     getAgent agentId s' = (Ok (Some (set_status status now ag)), s')) /\
  agent_id ag = agentId /\
  agent_current_task (set_status status now ag) = agent_current_task ag.
Proof.
  intros Hf.
  assert (He : agent_exists agentId d = true).
  { unfold agent_exists. now rewrite find_existsb, Hf. }
  split; [|split; [|split; [apply (find_is_agent_id _ _ _ Hf) | reflexivity]]].
  - rewrite updateAgentTask_open, He. eexists; split; [reflexivity|].
    rewrite getAgent_open. cbn [agents].
    rewrite find_update_where by (intros a; apply is_agent_set_task).
    now rewrite Hf.
  - rewrite updateAgentStatus_open, He. eexists; split; [reflexivity|].
    rewrite getAgent_open. cbn [agents].
    rewrite find_update_where by (intros a; apply is_agent_set_status).
    now rewrite Hf.
Qed.

Lemma update_then_getAgent_witness :
  option_map agent_name (find (is_agent "zoomie") (agents seeded_db)) = Some "Zoomie" /\
  exists s' ag,
    updateAgentTask 7 "zoomie" "Ship it" (seeded true) = (Ok true, s') /\
    getAgent "zoomie" s' = (Ok (Some ag), s') /\
    agent_current_task ag = Some "Ship it" /\ agent_status ag = "active".
Proof.
  split; [vm_compute; reflexivity|].
  destruct (find (is_agent "zoomie") (agents seeded_db)) as [ag0|] eqn:F;
    [|vm_compute in F; discriminate].
  destruct (update_then_getAgent 7 "zoomie" "Ship it" "busy" true seeded_db ag0 F)
    as [[s' [H1 H2]] _].
  exists s', (set_task "Ship it" 7 ag0). repeat split; assumption.
Defined.


(** ** The write routes *)

Lemma find_agent_exists (id : string) (d : database) (ag : agent) :
  find (is_agent id) (agents d) = Some ag -> agent_exists id d = true.
Proof. intros H. unfold agent_exists. now rewrite find_existsb, H. Qed.

Lemma post_task_open (now : timestamp) (id task : string) (fk : bool) (d : database)
    (cl : list client) (ag : agent) :
  task <> "" -> find (is_agent id) (agents d) = Some ag ->
  post_task now id (Some task) (mkServer (mkStore true fk d) cl) =
  (mkResponse 200 (BodyTask task),
   mkServer (snd (updateAgentTask now id task (mkStore true fk d)))
     (broadcast_to (MsgTaskUpdate id task now) cl)).
Proof.
  intros Ht Hf. unfold post_task. rewrite (falsy_Some _ Ht).
  unfold call; cbn [srv_store clients field]. rewrite getAgent_open, Hf.
  cbn [srv_store clients].
  rewrite updateAgentTask_open, (find_agent_exists _ _ _ Hf). reflexivity.
Qed.

Lemma post_review_open (now : timestamp) (agentId question : string)
    (priority : option string) (fk : bool) (d : database) (cl : list client) (ag : agent) :
  agentId <> "" -> question <> "" -> find (is_agent agentId) (agents d) = Some ag ->
  let prio := if falsy priority then "medium" else field priority in
  let rev := mkJoined (mkReview (reviews_seq d + 1) agentId question prio "pending"
                         now None) (agent_name ag) (agent_emoji ag) in
  post_review now (Some agentId) (Some question) priority
    (mkServer (mkStore true fk d) cl) =
  (mkResponse 201 (BodyReview rev),
   mkServer (snd (addReview now agentId (QText question) prio (mkStore true fk d)))
     (broadcast_to (MsgReview rev) cl)).
Proof.
  intros Ha Hq Hf. cbv zeta. unfold post_review.
  rewrite (falsy_Some _ Ha), (falsy_Some _ Hq). cbn [orb].
  unfold call; cbn [srv_store clients field]. rewrite getAgent_open, Hf.
  cbn [srv_store clients].
  rewrite addReview_open, (find_agent_exists _ _ _ Hf), andb_false_r. reflexivity.
Qed.

Lemma post_activity_open (now : timestamp) (id type description : string)
    (md : option metadata) (fk : bool) (d : database) (cl : list client) (ag : agent) :
  type <> "" -> description <> "" -> find (is_agent id) (agents d) = Some ag ->
  let m := match md with Some m => m | None => [] end in
  post_activity now id (Some type) (Some description) md
    (mkServer (mkStore true fk d) cl) =
  (mkResponse 201 (BodyActivity (Some (activities_seq d + 1))),
   mkServer (mkStore true fk (logged now id type description m d))
     (broadcast_to
        (MsgActivity id (mkActivity (activities_seq d + 1) id type description m now))
        cl)).
Proof.
  intros Ht Hd Hf. cbv zeta. unfold post_activity.
  rewrite (falsy_Some _ Ht), (falsy_Some _ Hd). cbn [orb].
  unfold call at 1; cbn [srv_store clients field]. rewrite getAgent_open, Hf.
  unfold logAgentActivity, call; cbn [srv_store clients field].
  rewrite logActivity_open, (find_agent_exists _ _ _ Hf), andb_false_r. reflexivity.
Qed.

Lemma falsy_cases (x : option string) :
  falsy x = true \/ exists s, x = Some s /\ s <> "".
Proof.
  destruct x as [s|]; [|now left]. cbn [falsy].
  destruct (String.eqb s "") eqn:E; [now left|].
  right. exists s. split; [reflexivity | now apply String.eqb_neq].
Qed.

Lemma closed_getAgent (id : string) (fk : bool) (d : database) (cl : list client) :
  call (getAgent id) (mkServer (mkStore false fk d) cl) =
  (Throw (Error "Database not initialized. Call initDb() first."),
   mkServer (mkStore false fk d) cl).
Proof. reflexivity. Qed.

Lemma post_task_rejected (now : timestamp) (id : string) (task : option string)
    (srv : server) :
  rejected (fst (post_task now id task srv)) = true ->
  snd (post_task now id task srv) = srv.
Proof.
  destruct (falsy_cases task) as [F|[t [-> Ht]]].
  - unfold post_task. now rewrite F.
  - destruct srv as [[[|] fk d] cl].
    + destruct (find (is_agent id) (agents d)) as [ag|] eqn:Hf.
      * rewrite (post_task_open now id t fk d cl ag Ht Hf). discriminate.
      * intros _. unfold post_task. rewrite (falsy_Some _ Ht).
        unfold call; cbn [srv_store clients]. now rewrite getAgent_open, Hf.
    + unfold post_task. rewrite (falsy_Some _ Ht), closed_getAgent. discriminate.
Qed.

Lemma post_status_rejected (now : timestamp) (id : string) (status : option string)
    (srv : server) :
  rejected (fst (post_status now id status srv)) = true ->
  snd (post_status now id status srv) = srv.
Proof.
  destruct (falsy_cases status) as [F|[t [-> Ht]]].
  - unfold post_status. now rewrite F.
  - destruct srv as [[[|] fk d] cl].
    + destruct (find (is_agent id) (agents d)) as [ag|] eqn:Hf.
      * rewrite (post_status_open now id t fk d cl Ht (find_agent_exists _ _ _ Hf)).
        discriminate.
      * intros _. unfold post_status. rewrite (falsy_Some _ Ht).
        unfold call; cbn [srv_store clients]. now rewrite getAgent_open, Hf.
    + unfold post_status. rewrite (falsy_Some _ Ht), closed_getAgent. discriminate.
Qed.

Lemma post_activity_rejected (now : timestamp) (id : string)
    (type description : option string) (md : option metadata) (srv : server) :
  rejected (fst (post_activity now id type description md srv)) = true ->
  snd (post_activity now id type description md srv) = srv.
Proof.
  destruct (falsy_cases type) as [F|[t [-> Ht]]];
    [unfold post_activity; now rewrite F|].
  destruct (falsy_cases description) as [F|[ds [-> Hd]]];
    [unfold post_activity; now rewrite F, orb_true_r|].
  destruct srv as [[[|] fk d] cl].
  - destruct (find (is_agent id) (agents d)) as [ag|] eqn:Hf.
    + rewrite (post_activity_open now id t ds md fk d cl ag Ht Hd Hf). discriminate.
    + intros _. unfold post_activity. rewrite (falsy_Some _ Ht), (falsy_Some _ Hd).
      cbn [orb]. unfold call; cbn [srv_store clients]. now rewrite getAgent_open, Hf.
  - unfold post_activity. rewrite (falsy_Some _ Ht), (falsy_Some _ Hd).
    cbn [orb]. rewrite closed_getAgent. discriminate.
Qed.

Lemma post_review_rejected (now : timestamp) (agentId question priority : option string)
    (srv : server) :
  rejected (fst (post_review now agentId question priority srv)) = true ->
  snd (post_review now agentId question priority srv) = srv.
Proof.
  destruct (falsy_cases agentId) as [F|[a [-> Ha]]];
    [unfold post_review; now rewrite F|].
  destruct (falsy_cases question) as [F|[q [-> Hq]]];
    [unfold post_review; now rewrite F, orb_true_r|].
  destruct srv as [[[|] fk d] cl].
  - destruct (find (is_agent a) (agents d)) as [ag|] eqn:Hf.
    + rewrite (post_review_open now a q priority fk d cl ag Ha Hq Hf). discriminate.
    + intros _. unfold post_review. rewrite (falsy_Some _ Ha), (falsy_Some _ Hq).
      cbn [orb]. unfold call; cbn [srv_store clients field].
      now rewrite getAgent_open, Hf.
  - unfold post_review. rewrite (falsy_Some _ Ha), (falsy_Some _ Hq).
    cbn [orb field]. rewrite closed_getAgent. discriminate.
Qed.

Lemma patch_resolve_rejected (now : timestamp) (id : string) (reading : option Z)
    (srv : server) :
  rejected (fst (patch_resolve now id reading srv)) = true ->
  snd (patch_resolve now id reading srv) = srv.
Proof.
  destruct srv as [[[|] fk d] cl]; [|discriminate].
  unfold patch_resolve, call; cbn [srv_store clients]. rewrite resolveReview_open.
  destruct (find (has_id (IdText id reading)) (reviews d)) as [r|]; [|reflexivity].
  cbv zeta. destruct (fk && negb (agent_exists (review_agent_id r) d)); discriminate.
Qed.

(** X13: a write route that answers 400 or 404 has changed nothing:
    neither the store nor what any connection was sent. *)
Theorem rejected_requests_change_nothing (now : timestamp) (id : string)
    (rid : string) (reading : option Z)
    (a b c : option string) (md : option metadata) (srv : server) :
  (rejected (fst (post_task now id a srv)) = true ->
   snd (post_task now id a srv) = srv) /\
  (rejected (fst (post_status now id a srv)) = true ->
   snd (post_status now id a srv) = srv) /\
  (rejected (fst (post_activity now id a b md srv)) = true ->
   snd (post_activity now id a b md srv) = srv) /\
  (rejected (fst (post_review now a b c srv)) = true ->
   snd (post_review now a b c srv) = srv) /\
  (rejected (fst (patch_resolve now rid reading srv)) = true ->
   snd (patch_resolve now rid reading srv) = srv).
Proof.
  split; [apply post_task_rejected|]. split; [apply post_status_rejected|].
  split; [apply post_activity_rejected|]. split; [apply post_review_rejected|].
  apply patch_resolve_rejected.
Qed.

Lemma rejected_requests_change_nothing_witness :
  rejected (fst (post_task 7 "ghost" (Some "Sit") one_viewer)) = true /\
  snd (post_task 7 "ghost" (Some "Sit") one_viewer) = one_viewer /\
  rejected (fst (patch_resolve 7 "9" (Some 9) one_viewer)) = true /\
  snd (patch_resolve 7 "9" (Some 9) one_viewer) = one_viewer /\
  rejected (fst (post_review 7 (Some "buppy") None None one_viewer)) = true /\
  snd (post_review 7 (Some "buppy") None None one_viewer) = one_viewer.
Proof.
  assert (H1 : rejected (fst (post_task 7 "ghost" (Some "Sit") one_viewer)) = true)
    by (vm_compute; reflexivity).
  assert (H2 : rejected (fst (patch_resolve 7 "9" (Some 9) one_viewer)) = true)
    by (vm_compute; reflexivity).
  assert (H3 : rejected (fst (post_review 7 (Some "buppy") None None one_viewer)) = true)
    by (vm_compute; reflexivity).
  pose proof (rejected_requests_change_nothing 7 "ghost" "9" (Some 9) (Some "Sit")
                None None None one_viewer) as [Ht [_ [_ [_ Hr]]]].
  pose proof (rejected_requests_change_nothing 7 "ghost" "9" (Some 9) (Some "buppy")
                None None None one_viewer) as [_ [_ [_ [Hv _]]]].
  repeat split; auto.
Defined.


(** X14: the task route, for an agent of the table and a task that is not
    empty, answers 200 with the task, stores the task with status [active]
    and one [task_update] record, and hands the open connections one
    [task_update] message; the record that was logged is not pushed. *)
Theorem post_task_pushes_task_update_only (now : timestamp) (id task : string)
    (fk : bool) (d : database) (cl : list client) (ag : agent) :
  task <> "" -> find (is_agent id) (agents d) = Some ag ->
  exists d',
    post_task now id (Some task) (mkServer (mkStore true fk d) cl) =
      (mkResponse 200 (BodyTask task),
       mkServer (mkStore true fk d') (broadcast_to (MsgTaskUpdate id task now) cl)) /\
    find (is_agent id) (agents d') = Some (set_task task now ag) /\
    activities d' =
      (activities d ++
         [mkActivity (activities_seq d + 1) id "task_update" ("Updated task: " ++ task)
            [("task", JStr task)] now])%list.
Proof.
  intros Ht Hf. rewrite (post_task_open now id task fk d cl ag Ht Hf).
  rewrite updateAgentTask_open, (find_agent_exists _ _ _ Hf). cbn [snd].
  eexists; split; [reflexivity|]. cbn [agents activities]. split; [|reflexivity].
  rewrite find_update_where by (intros a; apply is_agent_set_task). now rewrite Hf.
Qed.

Lemma post_task_pushes_task_update_only_witness :
  "Fetch" <> "" /\
  option_map agent_name (find (is_agent "buppy") (agents seeded_db)) = Some "Buppy" /\
  map sent (clients (snd (post_task 7 "buppy" (Some "Fetch") two_viewers))) =
    [[MsgTaskUpdate "buppy" "Fetch" 7]; []].
Proof.
  assert (Ht : "Fetch" <> "") by discriminate.
  split; [exact Ht|]. split; [vm_compute; reflexivity|].
  destruct (find (is_agent "buppy") (agents seeded_db)) as [ag0|] eqn:F;
    [|vm_compute in F; discriminate].
  destruct (post_task_pushes_task_update_only 7 "buppy" "Fetch" true seeded_db
              [mkClient 1 OPEN []; mkClient 2 CLOSING []] ag0 Ht F) as [d' [H _]].
  unfold two_viewers, seeded. rewrite H. reflexivity.
Defined.

(** X15: the review route, for an agent of the table and a question that
    is not empty, answers 201; the review it answers and pushes has the id
    of the stored row, the name and emoji of the agent, and the priority
    given, or [medium] when the priority is missing or empty; the open
    connections are handed that one [review] message, and the
    [review_created] record is stored but not pushed. *)
Theorem post_review_creates_and_pushes (now : timestamp) (agentId question : string)
    (priority : option string) (fk : bool) (d : database) (cl : list client) (ag : agent) :
  agentId <> "" -> question <> "" -> find (is_agent agentId) (agents d) = Some ag ->
  exists d' rev,
    post_review now (Some agentId) (Some question) priority
      (mkServer (mkStore true fk d) cl) =
      (mkResponse 201 (BodyReview rev),
       mkServer (mkStore true fk d') (broadcast_to (MsgReview rev) cl)) /\
    row_agent_name rev = agent_name ag /\ row_agent_emoji rev = agent_emoji ag /\
    review_priority (row rev) = (if falsy priority then "medium" else field priority) /\
    review_status (row rev) = "pending" /\
    (exists stored,
       reviews d' = (reviews d ++ [stored])%list /\
       review_id stored = review_id (row rev) /\
       review_agent_id stored = agentId /\ review_question stored = question /\
       review_priority stored = review_priority (row rev) /\
       review_status stored = "pending") /\
    (exists logged_record,
       activities d' = (activities d ++ [logged_record])%list /\
       activity_type logged_record = "review_created" /\
       activity_agent_id logged_record = agentId).
Proof.
  intros Ha Hq Hf.
  rewrite (post_review_open now agentId question priority fk d cl ag Ha Hq Hf).
  cbv zeta. rewrite addReview_open, (find_agent_exists _ _ _ Hf), andb_false_r.
  cbn [snd]. eexists; eexists. split; [reflexivity|].
  cbn [row row_agent_name row_agent_emoji review_priority review_status logged
         reviews activities].
  repeat (split; [reflexivity|]). split.
  - eexists. split; [reflexivity|]. repeat split.
  - eexists. split; [reflexivity|]. split; reflexivity.
Qed.

Lemma post_review_creates_and_pushes_witness :
  "zoomie" <> "" /\ "Walk?" <> "" /\
  option_map agent_name (find (is_agent "zoomie") (agents seeded_db)) = Some "Zoomie" /\
  status_code (fst (post_review 7 (Some "zoomie") (Some "Walk?") (Some "")
                      two_viewers)) = 201 /\
  map (fun c => List.length (sent c))
    (clients (snd (post_review 7 (Some "zoomie") (Some "Walk?") (Some "")
                     two_viewers))) = [1%nat; 0%nat].
Proof.
  assert (Ha : "zoomie" <> "") by discriminate.
  assert (Hq : "Walk?" <> "") by discriminate.
  split; [exact Ha|]. split; [exact Hq|]. split; [vm_compute; reflexivity|].
  destruct (find (is_agent "zoomie") (agents seeded_db)) as [ag0|] eqn:F;
    [|vm_compute in F; discriminate].
  destruct (post_review_creates_and_pushes 7 "zoomie" "Walk?" (Some "") true seeded_db
              [mkClient 1 OPEN []; mkClient 2 CLOSING []] ag0 Ha Hq F)
    as [d' [rev [H _]]].
  unfold two_viewers, seeded. rewrite H. split; reflexivity.
Defined.

(** ** What handlers do to the connections *)

Lemma call_clients {A} (m : M A) (srv : server) :
  clients (snd (call m srv)) = clients srv.
Proof. unfold call. destruct (m (srv_store srv)). reflexivity. Qed.

Lemma fans_out_none (srv srv' : server) : clients srv' = clients srv -> fans_out srv srv'.
Proof. intros H. exists []. split; [cbn; lia | exact H]. Qed.

Lemma fans_out_one (m : message) (srv srv' : server) :
  clients srv' = clients srv -> fans_out srv (broadcast m srv').
Proof. intros H. exists [m]. split; [cbn; lia|]. cbn. now rewrite H. Qed.

Lemma logAgentActivity_clients (now : timestamp) (agentId type description : string)
    (md : metadata) (srv : server) :
  match fst (logAgentActivity now agentId type description md srv) with
  | Some rowid =>
      clients (snd (logAgentActivity now agentId type description md srv)) =
        broadcast_to
          (MsgActivity agentId (mkActivity rowid agentId type description md now))
          (clients srv)
  | None =>
      clients (snd (logAgentActivity now agentId type description md srv)) = clients srv
  end.
Proof.
  unfold logAgentActivity.
  pose proof (call_clients (logActivity now agentId type description md) srv) as C.
  destruct (call (logActivity now agentId type description md) srv) as [[rowid|e] srv1];
    cbn [fst snd] in *; [|exact C]. cbn [broadcast clients]. now rewrite C.
Qed.

Lemma logAgentActivity_fans_out (now : timestamp) (agentId type description : string)
    (md : metadata) (srv : server) :
  exists msgs, (List.length msgs <= 1)%nat /\
    clients (snd (logAgentActivity now agentId type description md srv)) =
      broadcast_all msgs (clients srv).
Proof.
  pose proof (logAgentActivity_clients now agentId type description md srv) as H.
  destruct (fst (logAgentActivity now agentId type description md srv)) as [rowid|].
  - eexists [_]. split; [cbn; lia | exact H].
  - exists []. split; [cbn; lia | exact H].
Qed.

Ltac after_call C :=
  match goal with
  | |- context [call ?m ?srv] =>
      pose proof (call_clients m srv) as C;
      destruct (call m srv) as [[?|?] ?]; cbn [snd] in C
  end.

Lemma post_task_fans_out (now : timestamp) (id : string) (task : option string)
    (srv : server) : fans_out srv (snd (post_task now id task srv)).
Proof.
  unfold post_task. destruct (falsy task); [now apply fans_out_none|].
  after_call C1; [|now apply fans_out_none].
  destruct a; [|now apply fans_out_none].
  after_call C2; [|cbn [snd]; apply fans_out_none; congruence].
  destruct a0; cbn [snd]; [apply fans_out_one | apply fans_out_none]; congruence.
Qed.

Lemma post_status_fans_out (now : timestamp) (id : string) (status : option string)
    (srv : server) : fans_out srv (snd (post_status now id status srv)).
Proof.
  unfold post_status. destruct (falsy status); [now apply fans_out_none|].
  after_call C1; [|now apply fans_out_none].
  destruct a; [|now apply fans_out_none].
  after_call C2; [|cbn [snd]; apply fans_out_none; congruence].
  destruct a0; cbn [snd]; [|cbn [snd]; apply fans_out_none; congruence].
  match goal with
  | |- context [logAgentActivity ?n ?a ?t ?ds ?md ?sv] =>
      destruct (logAgentActivity_fans_out n a t ds md sv) as [msgs [Hlen Hm]];
      destruct (logAgentActivity n a t ds md sv) as [r srv3]
  end.
  cbn [snd] in *. eexists (msgs ++ [_])%list. split.
  - rewrite length_app. cbn. lia.
  - cbn [broadcast clients]. unfold broadcast_all. rewrite fold_left_app. cbn [fold_left].
    fold (broadcast_all msgs (clients srv)). now rewrite Hm, C2, C1.
Qed.

Lemma post_activity_fans_out (now : timestamp) (id : string)
    (type description : option string) (md : option metadata) (srv : server) :
  fans_out srv (snd (post_activity now id type description md srv)).
Proof.
  unfold post_activity. destruct (falsy type || falsy description);
    [now apply fans_out_none|].
  after_call C1; [|now apply fans_out_none].
  destruct a; [|now apply fans_out_none].
  match goal with
  | |- context [logAgentActivity ?n ?a ?t ?ds ?m ?sv] =>
      destruct (logAgentActivity_fans_out n a t ds m sv) as [msgs [Hlen Hm]];
      destruct (logAgentActivity n a t ds m sv) as [r srv3]
  end.
  cbn [snd] in *. exists msgs. split; [lia | now rewrite Hm, C1].
Qed.

Lemma post_review_fans_out (now : timestamp) (agentId question priority : option string)
    (srv : server) : fans_out srv (snd (post_review now agentId question priority srv)).
Proof.
  unfold post_review. destruct (falsy agentId || falsy question);
    [now apply fans_out_none|].
  after_call C1; [|now apply fans_out_none].
  destruct a; [|now apply fans_out_none].
  after_call C2; cbn [snd]; [apply fans_out_one | apply fans_out_none]; congruence.
Qed.

Lemma patch_resolve_fans_out (now : timestamp) (id : string) (reading : option Z)
    (srv : server) :
  fans_out srv (snd (patch_resolve now id reading srv)).
Proof.
  unfold patch_resolve. after_call C1; [|now apply fans_out_none].
  destruct a; cbn [snd]; [now apply fans_out_one | now apply fans_out_none].
Qed.

Lemma broadcast_all_nth (msgs : list message) (cl : list client) (i : nat) :
  nth_error (broadcast_all msgs cl) i =
  option_map (fun c => if ready_state_eqb (readyState c) OPEN
                       then mkClient (socket c) (readyState c) (sent c ++ msgs)
                       else c)
    (nth_error cl i).
Proof.
  revert cl. induction msgs as [|m msgs IH]; intros cl.
  - cbn. destruct (nth_error cl i) as [c|]; [|reflexivity]. cbn.
    destruct (ready_state_eqb (readyState c) OPEN); [|reflexivity].
    rewrite app_nil_r. now destruct c.
  - cbn [broadcast_all fold_left]. fold (broadcast_all msgs (broadcast_to m cl)).
    rewrite IH, broadcast_nth. destruct (nth_error cl i) as [c|]; [|reflexivity].
    cbn [option_map]. unfold delivered.
    destruct (ready_state_eqb (readyState c) OPEN) eqn:E; [|now rewrite E].
    cbn [send readyState socket sent]. rewrite E. now rewrite <- app_assoc.
Qed.

(** X16: every write route and the three producers treat the connections
    alike: there are at most two messages such that each open connection is
    handed exactly these, in order, after what it was sent before, and the
    other connections are handed nothing; no handler adds, removes or
    reorders a connection or changes a [readyState]. *)
Theorem handlers_fan_out_alike (now : timestamp) (id : string)
    (rid : string) (reading : option Z) (port : Z)
    (a b c : option string) (md : option metadata) (i j : nat) (srv : server) :
  let outcomes :=
    [ snd (post_task now id a srv); snd (post_status now id a srv);
      snd (post_activity now id a b md srv); snd (post_review now a b c srv);
      snd (patch_resolve now rid reading srv); snd (on_change now id srv);
      snd (on_tick now i j srv); snd (on_listen now id port srv) ] in
  Forall (fun srv' =>
            exists msgs,
              (List.length msgs <= 2)%nat /\
              map socket (clients srv') = map socket (clients srv) /\
              forall k,
                nth_error (clients srv') k =
                option_map (fun c => if ready_state_eqb (readyState c) OPEN
                                     then mkClient (socket c) (readyState c)
                                            (sent c ++ msgs)
                                     else c)
                  (nth_error (clients srv) k))
    outcomes.
Proof.
  assert (G : forall srv', fans_out srv srv' ->
            exists msgs,
              (List.length msgs <= 2)%nat /\
              map socket (clients srv') = map socket (clients srv) /\
              forall k,
                nth_error (clients srv') k =
                option_map (fun c => if ready_state_eqb (readyState c) OPEN
                                     then mkClient (socket c) (readyState c)
                                            (sent c ++ msgs)
                                     else c)
                  (nth_error (clients srv) k)).
  { intros srv' [msgs [Hlen Hm]]. exists msgs. split; [exact Hlen|]. split.
    - rewrite Hm. clear. revert srv. induction msgs as [|m msgs IH]; intros srv;
        [reflexivity|].
      cbn [broadcast_all fold_left]. fold (broadcast_all msgs (broadcast_to m (clients srv))).
      specialize (IH (broadcast m srv)). cbn [broadcast clients] in IH.
      now rewrite IH, broadcast_sockets.
    - intros k. rewrite Hm. apply broadcast_all_nth. }
  assert (L : forall n ag t ds m, fans_out srv (snd (logAgentActivity n ag t ds m srv))).
  { intros n ag t ds m. destruct (logAgentActivity_fans_out n ag t ds m srv)
      as [msgs [Hlen Hm]]. exists msgs. split; [lia | exact Hm]. }
  cbv zeta. repeat (constructor; [apply G|]).
  - apply post_task_fans_out.
  - apply post_status_fans_out.
  - apply post_activity_fans_out.
  - apply post_review_fans_out.
  - apply patch_resolve_fans_out.
  - apply L.
  - unfold on_tick. destruct (nth_error generator_agents i);
      [|now apply fans_out_none].
    destruct (nth_error generator_commands j); [apply L | now apply fans_out_none].
  - apply L.
  - constructor.
Qed.

(** ** Connecting and disconnecting *)

Lemma fresh_socket_map (n : nat) (f : client -> client) (cl : list client) :
  existsb (same_socket n) cl = false ->
  map (fun c => if same_socket n c then f c else c) cl = cl.
Proof.
  induction cl as [|c cl IH]; [reflexivity|]. cbn [existsb map].
  intros H. apply orb_false_iff in H. destruct H as [Hc Hcl].
  now rewrite Hc, IH.
Qed.

Lemma fresh_socket_delete (n : nat) (cl : list client) :
  existsb (same_socket n) cl = false -> clients_delete n cl = cl.
Proof.
  unfold clients_delete. induction cl as [|c cl IH]; [reflexivity|].
  cbn [existsb filter]. intros H. apply orb_false_iff in H. destruct H as [Hc Hcl].
  now rewrite Hc, IH.
Qed.

(** X17: a new connection joins the set at the end and is the only one
    that is sent anything: with the database open it is sent one [init]
    message with all agents by name and the pending reviews in queue order;
    with the database closed it joins and is sent nothing.  The store is
    not changed, and when the connection closes the set is as it was
    before. *)
Theorem connection_gets_snapshot (n : nat) (b fk : bool) (d : database)
    (cl : list client) :
  existsb (same_socket n) cl = false ->
  let srv := mkServer (mkStore b fk d) cl in
  on_connection n srv =
    mkServer (mkStore b fk d)
      (cl ++ [mkClient n OPEN
                (if b
                 then [MsgInit (order_by name_asc (agents d))
                         (order_by (fun x y => review_order (row x) (row y))
                            (filter (fun x => is_pending (row x))
                               (join_agents review_agent_id (agents d) (reviews d))))]
                 else [])]) /\
  on_close n (on_connection n srv) = srv.
Proof.
  intros Hfresh. cbv zeta.
  assert (E : on_connection n (mkServer (mkStore b fk d) cl) =
              mkServer (mkStore b fk d)
                (cl ++ [mkClient n OPEN
                          (if b
                           then [MsgInit (order_by name_asc (agents d))
                                   (order_by (fun x y => review_order (row x) (row y))
                                      (filter (fun x => is_pending (row x))
                                         (join_agents review_agent_id (agents d)
                                            (reviews d))))]
                           else [])])).
  { unfold on_connection. cbn [srv_store clients]. unfold clients_add.
    cbn [socket]. rewrite Hfresh. destruct b; [|reflexivity].
    unfold call; cbn [srv_store clients].
    change (getAllAgents (mkStore true fk d))
      with (Ok (order_by name_asc (agents d)), mkStore true fk d).
    cbn [srv_store clients]. rewrite getPendingReviews_open. cbn [srv_store clients].
    rewrite map_app, (fresh_socket_map n _ cl Hfresh). cbn [map].
    unfold same_socket at 1; cbn [socket]. now rewrite Nat.eqb_refl. }
  split; [exact E|]. rewrite E. unfold on_close; cbn [srv_store clients].
  f_equal. unfold clients_delete. rewrite filter_app.
  fold (clients_delete n cl). rewrite (fresh_socket_delete n cl Hfresh).
  cbn [filter]. unfold same_socket; cbn [socket]. rewrite Nat.eqb_refl.
  cbn. apply app_nil_r.
Qed.

Lemma connection_gets_snapshot_witness :
  existsb (same_socket 3) (clients two_viewers) = false /\
  map (fun c => (socket c, List.length (sent c))) (clients (on_connection 3 two_viewers))
    = [(1%nat, 0%nat); (2%nat, 0%nat); (3%nat, 1%nat)] /\
  on_close 3 (on_connection 3 two_viewers) = two_viewers.
Proof.
  assert (H : existsb (same_socket 3) [mkClient 1 OPEN []; mkClient 2 CLOSING []] = false)
    by reflexivity.
  destruct (connection_gets_snapshot 3 true true seeded_db
              [mkClient 1 OPEN []; mkClient 2 CLOSING []] H) as [H1 H2].
  split; [exact H|]. split; [|exact H2].
  unfold two_viewers, seeded. rewrite H1. reflexivity.
Defined.


(** ** The producers: file watcher, generator, start-up *)

Lemma substring_prefix (n s : string) :
  substring 0 (String.length n) s = n <-> exists post, s = n ++ post.
Proof.
  revert s. induction n as [|c n IH]; intros s.
  - split; [intros _; now exists s|]. intros _. now destruct s.
  - destruct s as [|b s]; cbn [String.length substring append].
    + split; [discriminate | intros [post H]; discriminate].
    + split.
      * intros H. injection H as -> H. apply IH in H. destruct H as [post ->].
        now exists post.
      * intros [post H]. injection H as -> H. f_equal. apply IH. now exists post.
Qed.

Lemma includes_cons (needle : string) (b : ascii) (s : string) :
  includes needle (String b s) = prefix needle (String b s) || includes needle s.
Proof.
  unfold includes. cbn [index]. destruct (prefix needle (String b s)); [reflexivity|].
  now destruct (index 0 needle s).
Qed.

Lemma includes_spec (needle s : string) :
  includes needle s = true <-> contains needle s.
Proof.
  unfold contains. induction s as [|b s IH].
  - unfold includes. cbn [index]. destruct needle as [|c n].
    + split; [intros _; now exists "", "" | reflexivity].
    + split; [discriminate|]. intros [[|p pre] [post H]]; discriminate.
  - rewrite includes_cons, orb_true_iff, IH, prefix_correct, substring_prefix.
    split.
    + intros [[post H]|[pre [post H]]].
      * now exists "", post.
      * exists (String b pre), post. cbn [append]. now rewrite H.
    + intros [[|p pre] [post H]].
      * left. now exists post.
      * right. cbn [append] in H. injection H as _ H. now exists pre, post.
Qed.

Lemma includes_false (needle s : string) :
  includes needle s = false <-> ~ contains needle s.
Proof.
  rewrite <- includes_spec. destruct (includes needle s); split; congruence.
Qed.

(** X18: the watcher attributes a changed path by what the path
    contains: to [mechly] exactly when it contains [mechly], to [zoomie]
    exactly when it contains [zoomie] and not [mechly], and to [buppy]
    otherwise; and it types the change by the file name, the last test that
    matches winning: [memory_update] exactly when the name contains
    [MEMORY], [config_update] when it contains [config] and not [MEMORY],
    and [file_update] exactly when it contains none of the four words. *)
Theorem watcher_classification (filePath fileName : string) :
  (watched_agent filePath = "mechly" <-> contains "mechly" filePath) /\
  (watched_agent filePath = "zoomie" <->
     contains "zoomie" filePath /\ ~ contains "mechly" filePath) /\
  (watched_agent filePath = "buppy" <->
     ~ contains "zoomie" filePath /\ ~ contains "mechly" filePath) /\
  (watched_type fileName = "memory_update" <-> contains "MEMORY" fileName) /\
  (watched_type fileName = "config_update" <->
     contains "config" fileName /\ ~ contains "MEMORY" fileName) /\
  (watched_type fileName = "file_update" <->
     ~ contains "SOUL" fileName /\ ~ contains "IDENTITY" fileName /\
     ~ contains "config" fileName /\ ~ contains "MEMORY" fileName).
Proof.
  unfold watched_agent, watched_type. cbv zeta.
  rewrite <- !includes_false, <- !includes_spec.
  destruct (includes "mechly" filePath), (includes "zoomie" filePath),
    (includes "MEMORY" fileName), (includes "config" fileName),
    (includes "IDENTITY" fileName), (includes "SOUL" fileName);
    repeat split; intros; try reflexivity; try discriminate;
    repeat match goal with H : _ /\ _ |- _ => destruct H end; try discriminate.
Qed.

Lemma logAgentActivity_open (now : timestamp) (agentId type description : string)
    (md : metadata) (fk : bool) (d : database) (cl : list client) :
  logAgentActivity now agentId type description md (mkServer (mkStore true fk d) cl) =
  if fk && negb (agent_exists agentId d)
  then (None, mkServer (mkStore true fk d) cl)
  else (Some (activities_seq d + 1),
        mkServer (mkStore true fk (logged now agentId type description md d))
          (broadcast_to
             (MsgActivity agentId
                (mkActivity (activities_seq d + 1) agentId type description md now))
             cl)).
Proof.
  unfold logAgentActivity, call; cbn [srv_store clients]. rewrite logActivity_open.
  now destruct (fk && negb (agent_exists agentId d)).
Qed.

Lemma watched_agent_seed (filePath : string) : In (watched_agent filePath) generator_agents.
Proof.
  unfold watched_agent, generator_agents. cbv zeta.
  destruct (includes "mechly" filePath), (includes "zoomie" filePath); cbn; tauto.
Qed.

(** X19: the producers name seed agents only, and never fail for lack of
    one.  On an open store that holds the three seed agents, a file change,
    a generator tick (with indices inside the two arrays) and the start-up
    callback each return the new record id, append exactly one record for
    one of the three agents, and hand it to the open connections.  On an
    open store with an empty [agents] table and foreign keys enforced, each
    returns [null] and changes and sends nothing. *)
Theorem producers_log_for_seed_agents (now : timestamp) (filePath version : string)
    (port : Z) (i j : nat) (fk : bool) (d : database) (cl : list client) :
  let srv := mkServer (mkStore true fk d) cl in
  (Forall (fun a => agent_exists a d = true) generator_agents ->
   (i < 3)%nat -> (j < 7)%nat ->
   Forall (fun out =>
             exists agentId type description md,
               In agentId generator_agents /\
               out = (Some (activities_seq d + 1),
                      mkServer (mkStore true fk
                                  (logged now agentId type description md d))
                        (broadcast_to
                           (MsgActivity agentId
                              (mkActivity (activities_seq d + 1) agentId type
                                 description md now)) cl)))
     [on_change now filePath srv; on_tick now i j srv; on_listen now version port srv]) /\
  (agents d = [] -> fk = true ->
   Forall (fun out => out = (None, srv))
     [on_change now filePath srv; on_tick now i j srv; on_listen now version port srv]).
Proof.
  cbv zeta. split.
  - intros Hall Hi Hj. rewrite Forall_forall in Hall.
    assert (L : forall a t ds md, In a generator_agents ->
              exists agentId type description md',
                In agentId generator_agents /\
                logAgentActivity now a t ds md (mkServer (mkStore true fk d) cl) =
                  (Some (activities_seq d + 1),
                   mkServer (mkStore true fk (logged now agentId type description md' d))
                     (broadcast_to
                        (MsgActivity agentId
                           (mkActivity (activities_seq d + 1) agentId type
                              description md' now)) cl))).
    { intros a t ds md Ha. exists a, t, ds, md. split; [exact Ha|].
      now rewrite logAgentActivity_open, (Hall a Ha), andb_false_r. }
    repeat constructor.
    + apply L, watched_agent_seed.
    + unfold on_tick.
      destruct (nth_error generator_agents i) as [a|] eqn:Ea;
        [|apply nth_error_None in Ea; cbn in Ea; lia].
      destruct (nth_error generator_commands j) as [c|] eqn:Ec;
        [|apply nth_error_None in Ec; cbn in Ec; lia].
      apply L. now apply nth_error_In in Ea.
    + apply L. now left.
  - intros Hempty ->.
    assert (N : forall a t ds md,
              logAgentActivity now a t ds md (mkServer (mkStore true true d) cl) =
                (None, mkServer (mkStore true true d) cl)).
    { intros a t ds md. rewrite logAgentActivity_open. unfold agent_exists.
      now rewrite Hempty. }
    repeat constructor; try apply N.
    unfold on_tick. destruct (nth_error generator_agents i); [|reflexivity].
    destruct (nth_error generator_commands j); [apply N | reflexivity].
Qed.

Lemma producers_log_for_seed_agents_witness :
  Forall (fun a => agent_exists a seeded_db = true) generator_agents /\
  (1 < 3)%nat /\ (6 < 7)%nat /\
  agents empty_database = [] /\
  fst (on_change 7 "/home/pup/zoomie/SOUL.md" (mkServer (seeded true) [])) = Some 4 /\
  fst (on_tick 7 1 6 (mkServer (seeded true) [])) = Some 4 /\
  on_listen 7 "1.0.0" 8080 (mkServer (mkStore true true empty_database) []) =
    (None, mkServer (mkStore true true empty_database) []).
Proof.
  assert (Hall : Forall (fun a => agent_exists a seeded_db = true) generator_agents)
    by (repeat constructor).
  assert (Hi : (1 < 3)%nat) by lia.
  assert (Hj : (6 < 7)%nat) by lia.
  assert (He : agents empty_database = []) by reflexivity.
  pose proof (producers_log_for_seed_agents 7 "/home/pup/zoomie/SOUL.md" "1.0.0" 8080
                1 6 true seeded_db []) as [Hyes _].
  pose proof (producers_log_for_seed_agents 7 "/home/pup/zoomie/SOUL.md" "1.0.0" 8080
                1 6 true empty_database []) as [_ Hno].
  specialize (Hyes Hall Hi Hj). specialize (Hno He eq_refl).
  cbv zeta in Hyes, Hno.
  inversion Hyes as [|? ? [a1 [t1 [d1 [m1 [_ H1]]]]] Hyes']; subst.
  inversion Hyes' as [|? ? [a2 [t2 [d2 [m2 [_ H2]]]]] _]; subst.
  inversion Hno as [|? ? _ Hno']; subst. inversion Hno' as [|? ? _ Hno'']; subst.
  inversion Hno'' as [|? ? H3 _]; subst.
  repeat (split; [assumption|]).
  unfold seeded. rewrite H1, H2. repeat split; try exact H3.
Defined.

(** ** The read routes *)

(** X20: the limit of the activities route.  A limit that is missing,
    not a number or 0 is replaced by 20, any other is passed on.  With the
    database open and the limit strictly between [-2^63] and [2^63], the
    route answers with records by timestamp descending: a positive limit
    bounds the answer by that number, the replaced limit by 20, and a
    negative limit bounds nothing, the answer holds every record that has
    an agent.  For any other limit the route answers 500 with the engine's
    [datatype mismatch]. *)
Theorem get_activities_limit (parsed : option Z) (fk : bool) (d : database)
    (cl : list client) :
  (- 2 ^ 63 < limit_or_20 parsed < 2 ^ 63 ->
   exists acts,
     get_activities parsed (mkServer (mkStore true fk d) cl) =
       (GetJson acts, mkServer (mkStore true fk d) cl) /\
     StronglySorted (fun x y => newer_first (row x) (row y)) acts /\
     (forall n, parsed = Some n -> 0 < n -> (List.length acts <= Z.to_nat n)%nat) /\
     (parsed = None \/ parsed = Some 0 -> (List.length acts <= 20)%nat) /\
     (forall n, parsed = Some n -> n < 0 ->
        List.length acts =
          List.length (join_agents activity_agent_id (agents d) (activities d)))) /\
  (limit_or_20 parsed <= - 2 ^ 63 \/ 2 ^ 63 <= limit_or_20 parsed ->
   get_activities parsed (mkServer (mkStore true fk d) cl) =
     (GetError 500 "datatype mismatch", mkServer (mkStore true fk d) cl)).
Proof.
  unfold get_activities, call; cbn [srv_store clients]. split.
  - intros Hrange. apply accepted_limit_spec in Hrange.
    rewrite getRecentActivities_open by exact Hrange.
    eexists. split; [reflexivity|].
    split; [apply sql_limit_sorted, order_by_joined_timestamp_sorted|].
    split; [|split].
    + intros n -> Hn. cbn [limit_or_20].
      destruct (n =? 0) eqn:E; [apply Z.eqb_eq in E; lia|].
      rewrite sql_limit_length by lia. apply Nat.le_min_l.
    + intros [-> | ->]; cbn [limit_or_20 Z.eqb];
        rewrite sql_limit_length by lia; apply Nat.le_min_l.
    + intros n -> Hn. cbn [limit_or_20].
      destruct (n =? 0) eqn:E; [apply Z.eqb_eq in E; lia|].
      unfold sql_limit. apply Z.ltb_lt in Hn. rewrite Hn. apply order_by_length.
  - intros Hout. apply accepted_limit_false in Hout.
    now rewrite getRecentActivities_mismatch by exact Hout.
Qed.

Lemma get_activities_limit_witness :
  - 2 ^ 63 < limit_or_20 (Some 2) < 2 ^ 63 /\
  - 2 ^ 63 < limit_or_20 (Some (-1)) < 2 ^ 63 /\
  (limit_or_20 (Some (10 ^ 20)) <= - 2 ^ 63 \/ 2 ^ 63 <= limit_or_20 (Some (10 ^ 20))) /\
  0 < 2 /\ -1 < 0 /\
  (exists acts, fst (get_activities (Some 2) (mkServer (seeded true) [])) = GetJson acts /\
                (List.length acts <= 2)%nat) /\
  (exists acts, fst (get_activities (Some (-1)) (mkServer (seeded true) []))
                  = GetJson acts /\ List.length acts = 3%nat) /\
  fst (get_activities (Some (10 ^ 20)) (mkServer (seeded true) [])) =
    GetError 500 "datatype mismatch".
Proof.
  assert (R2 : - 2 ^ 63 < limit_or_20 (Some 2) < 2 ^ 63) by (split; reflexivity).
  assert (R1 : - 2 ^ 63 < limit_or_20 (Some (-1)) < 2 ^ 63) by (split; reflexivity).
  assert (R0 : limit_or_20 (Some (10 ^ 20)) <= - 2 ^ 63 \/
               2 ^ 63 <= limit_or_20 (Some (10 ^ 20))) by (right; discriminate).
  assert (H2 : 0 < 2) by lia. assert (H1 : -1 < 0) by lia.
  split; [exact R2|]. split; [exact R1|]. split; [exact R0|].
  split; [exact H2|]. split; [exact H1|]. split; [|split].
  - destruct (get_activities_limit (Some 2) true seeded_db []) as [Hin _].
    destruct (Hin R2) as [acts [E [_ [Hpos _]]]].
    exists acts. unfold seeded. rewrite E. split; [reflexivity|].
    exact (Hpos 2 eq_refl H2).
  - destruct (get_activities_limit (Some (-1)) true seeded_db []) as [Hin _].
    destruct (Hin R1) as [acts [E [_ [_ [_ Hneg]]]]].
    exists acts. unfold seeded. rewrite E. split; [reflexivity|].
    rewrite (Hneg (-1) eq_refl H1). reflexivity.
  - destruct (get_activities_limit (Some (10 ^ 20)) true seeded_db []) as [_ Hout].
    unfold seeded. now rewrite (Hout R0).
Defined.

(** X21: the agent routes answer 404 exactly for an id that is not in
    the table.  With the database open, for an id in the table the agent
    route answers with a row of that id and the activity route with at most
    20 records, all of that agent, newest first; for any other id both
    answer 404; and neither changes the server. *)
Theorem agent_routes_found_or_404 (id : string) (fk : bool) (d : database)
    (cl : list client) :
  let srv := mkServer (mkStore true fk d) cl in
  (agent_exists id d = true ->
   (exists ag, get_agent id srv = (GetJson ag, srv) /\ agent_id ag = id /\
               In ag (agents d)) /\
   (exists acts, get_agent_activity id srv = (GetJson acts, srv) /\
                 (List.length acts <= 20)%nat /\
                 Forall (fun a => activity_agent_id a = id /\ In a (activities d)) acts /\
                 StronglySorted newer_first acts)) /\
  (agent_exists id d = false ->
   get_agent id srv = (GetError 404 "Agent not found", srv) /\
   get_agent_activity id srv = (GetError 404 "Agent not found", srv)).
Proof.
  cbv zeta. unfold get_agent, get_agent_activity, call; cbn [srv_store clients].
  rewrite getAgent_open. unfold agent_exists. rewrite find_existsb.
  destruct (find (is_agent id) (agents d)) as [ag|] eqn:F; split; try discriminate.
  - intros _. split.
    + exists ag. split; [reflexivity|]. now apply find_is_agent_id.
    + cbn [srv_store clients]. rewrite getAgentActivities_open by reflexivity. eexists.
      split; [reflexivity|]. split; [|split].
      * rewrite sql_limit_length by lia. apply Nat.le_min_l.
      * apply Forall_forall. intros a Ha.
        destruct (sql_limit_split 20
                    (order_by timestamp_desc (filter (of_agent id) (activities d))))
          as [rest Hrest].
        assert (Hin : In a (order_by timestamp_desc
                              (filter (of_agent id) (activities d)))).
        { rewrite Hrest. apply in_or_app. now left. }
        apply order_by_In, filter_In in Hin. destruct Hin as [Hin Hid].
        split; [now apply String.eqb_eq in Hid | exact Hin].
      * apply sql_limit_sorted, order_by_timestamp_sorted.
  - intros _. split; reflexivity.
Qed.

Lemma agent_routes_found_or_404_witness :
  agent_exists "buppy" seeded_db = true /\ agent_exists "ghost" seeded_db = false /\
  (exists ag, fst (get_agent "buppy" (mkServer (seeded true) [])) = GetJson ag /\
              agent_id ag = "buppy") /\
  fst (get_agent_activity "ghost" (mkServer (seeded true) [])) =
    GetError 404 "Agent not found".
Proof.
  assert (Hb : agent_exists "buppy" seeded_db = true) by (vm_compute; reflexivity).
  assert (Hg : agent_exists "ghost" seeded_db = false) by (vm_compute; reflexivity).
  pose proof (agent_routes_found_or_404 "buppy" true seeded_db []) as [Hyes _].
  pose proof (agent_routes_found_or_404 "ghost" true seeded_db []) as [_ Hno].
  split; [exact Hb|]. split; [exact Hg|]. split.
  - destruct (Hyes Hb) as [[ag [E [Hid _]]] _]. exists ag.
    unfold seeded. rewrite E. split; [reflexivity | exact Hid].
  - destruct (Hno Hg) as [_ E]. unfold seeded. now rewrite E.
Defined.

(** ** Closing the database *)

(** X22: after [closeDb] every exported read and write throws the error
    [Database not initialized. Call initDb() first.] and changes nothing; a
    second [closeDb] does nothing; the file keeps its content, and [initDb]
    on a file with an agent opens it again with the content it had. *)
Theorem closeDb_then_calls_throw (now : timestamp) (o : op) (id : string) (limit : Z)
    (s : store) :
  let closed := snd (closeDb s) in
  let not_initialized := Error "Database not initialized. Call initDb() first." in
  file closed = file s /\
  (o <> OpInitDb -> o <> OpCloseDb ->
   apply_op now o closed = (Throw not_initialized, closed)) /\
  closeDb closed = (Ok tt, closed) /\
  getAllAgents closed = (Throw not_initialized, closed) /\
  getAgent id closed = (Throw not_initialized, closed) /\
  getRecentActivities limit closed = (Throw not_initialized, closed) /\
  getAgentActivities id limit closed = (Throw not_initialized, closed) /\
  getPendingReviews closed = (Throw not_initialized, closed) /\
  getStats closed = (Throw not_initialized, closed) /\
  (agents (file s) <> [] ->
   initDb now closed = (Ok (file s), mkStore true (foreign_keys s) (file s))).
Proof.
  cbv zeta. destruct s as [b fk d]. cbn [closeDb snd file foreign_keys].
  split; [reflexivity|]. split; [|repeat split].
  - intros Ho Hc. destruct o; try contradiction; reflexivity.
  - intros Hne. now rewrite initDb_seeded.
Qed.

Lemma closeDb_then_calls_throw_witness :
  OpResolveReview (IdNumber 1) <> OpInitDb /\ OpResolveReview (IdNumber 1) <> OpCloseDb /\
  agents (file (seeded true)) <> [] /\
  apply_op 7 (OpResolveReview (IdNumber 1)) (snd (closeDb (seeded true))) =
    (Throw (Error "Database not initialized. Call initDb() first."),
     snd (closeDb (seeded true))) /\
  initDb 7 (snd (closeDb (seeded true))) = (Ok seeded_db, seeded true).
Proof.
  assert (Ho : OpResolveReview (IdNumber 1) <> OpInitDb) by discriminate.
  assert (Hc : OpResolveReview (IdNumber 1) <> OpCloseDb) by discriminate.
  assert (Hne : agents (file (seeded true)) <> []) by discriminate.
  pose proof (closeDb_then_calls_throw 7 (OpResolveReview (IdNumber 1)) "buppy" 20 (seeded true))
    as [_ [Hthrow [_ [_ [_ [_ [_ [_ [_ Hinit]]]]]]]]].
  split; [exact Ho|]. split; [exact Hc|]. split; [exact Hne|].
  split; [exact (Hthrow Ho Hc) | exact (Hinit Hne)].
Defined.

(** * The flat-file server *)

Lemma legacy_find_update_first {A} (p : A -> bool) (f : A -> A) (l : list A) :
  (forall x, p (f x) = p x) ->
  find p (Legacy.update_first p f l) = option_map f (find p l).
Proof.
  intros Hp. induction l as [|x l IH]; [reflexivity|]. cbn [Legacy.update_first find].
  destruct (p x) eqn:E; cbn [find]; [now rewrite Hp, E | now rewrite E].
Qed.

Lemma firstn_app_firstn {A} (n : nat) (l m : list A) :
  firstn n (l ++ firstn n m) = firstn n (l ++ m).
Proof.
  rewrite !firstn_app, firstn_firstn. do 2 f_equal. lia.
Qed.

Lemma legacy_addActivity_known (now : timestamp) (agentId type description : string)
    (md : metadata) (srv : Legacy.server) (ag : Legacy.agent) :
  find (Legacy.is_agent agentId) (Legacy.agents srv) = Some ag ->
  find (Legacy.is_agent agentId)
    (Legacy.agents (Legacy.addActivity now agentId type description md srv)) =
  Some (Legacy.add_to (Legacy.mkActivity (Legacy.toString now) type description md now)
          now ag).
Proof.
  intros Hf. unfold Legacy.addActivity. rewrite Hf. cbv zeta.
  cbn [Legacy.broadcast Legacy.with_agents Legacy.agents].
  rewrite legacy_find_update_first by reflexivity. now rewrite Hf.
Qed.

Lemma legacy_add_each_bounded (items : list (timestamp * string * string * metadata))
    (agentId : string) (srv : Legacy.server) (ag : Legacy.agent) :
  find (Legacy.is_agent agentId) (Legacy.agents srv) = Some ag ->
  (List.length (Legacy.agent_activities ag) <= 50)%nat ->
  exists ag',
    find (Legacy.is_agent agentId)
      (Legacy.agents (Legacy.add_each items agentId srv)) = Some ag' /\
    Legacy.agent_activities ag' =
      firstn 50 (rev (map Legacy.record_of items) ++ Legacy.agent_activities ag).
Proof.
  revert srv ag. induction items as [|[[[now type] description] md] rest IH];
    intros srv ag Hf Hlen.
  - exists ag. split; [exact Hf|]. cbn [map rev app]. symmetry. now apply firstn_all2.
  - cbn [Legacy.add_each].
    destruct (IH _ _ (legacy_addActivity_known now agentId type description md srv ag Hf))
      as [ag' [Hf' Ha']].
    { cbn [Legacy.add_to Legacy.agent_activities]. apply firstn_le_length. }
    exists ag'. split; [exact Hf'|]. rewrite Ha'.
    cbn [Legacy.add_to Legacy.agent_activities map rev Legacy.record_of].
    rewrite firstn_app_firstn, <- app_assoc. reflexivity.
Qed.

(** X23: the flat-file store keeps the newest 50 records of an agent.
    After one or more [addActivity] calls for an agent of the file, the
    agent holds the new records, latest first, followed by the records it
    had, cut after 50; so it holds at most 50. *)
Theorem legacy_keeps_newest_50 (items : list (timestamp * string * string * metadata))
    (agentId : string) (srv : Legacy.server) (ag : Legacy.agent) :
  find (Legacy.is_agent agentId) (Legacy.agents srv) = Some ag ->
  items <> [] ->
  exists ag',
    find (Legacy.is_agent agentId)
      (Legacy.agents (Legacy.add_each items agentId srv)) = Some ag' /\
    Legacy.agent_activities ag' =
      firstn 50 (rev (map Legacy.record_of items) ++ Legacy.agent_activities ag) /\
    (List.length (Legacy.agent_activities ag') <= 50)%nat.
Proof.
  intros Hf Hne. destruct items as [|[[[now type] description] md] rest];
    [contradiction|].
  cbn [Legacy.add_each].
  destruct (legacy_add_each_bounded rest agentId _ _
              (legacy_addActivity_known now agentId type description md srv ag Hf))
    as [ag' [Hf' Ha']].
  { cbn [Legacy.add_to Legacy.agent_activities]. apply firstn_le_length. }
  exists ag'. split; [exact Hf'|]. split.
  - rewrite Ha'. cbn [Legacy.add_to Legacy.agent_activities map rev Legacy.record_of].
    rewrite firstn_app_firstn, <- app_assoc. reflexivity.
  - rewrite Ha'. apply firstn_le_length.
Qed.

Lemma legacy_keeps_newest_50_witness :
  option_map Legacy.agent_name
    (find (Legacy.is_agent "buppy") (Legacy.agents legacy_sample)) = Some "Buppy" /\
  legacy_two_items <> [] /\
  exists ag',
    find (Legacy.is_agent "buppy")
      (Legacy.agents (Legacy.add_each legacy_two_items "buppy" legacy_sample))
      = Some ag' /\
    (List.length (Legacy.agent_activities ag') <= 50)%nat.
Proof.
  split; [reflexivity|]. split; [discriminate|].
  destruct (find (Legacy.is_agent "buppy") (Legacy.agents legacy_sample)) as [ag0|] eqn:F;
    [|discriminate].
  assert (Hne : legacy_two_items <> []) by discriminate.
  destruct (legacy_keeps_newest_50 legacy_two_items "buppy" legacy_sample ag0 F Hne)
    as [ag' [H1 [_ H3]]].
  exists ag'. split; assumption.
Defined.

(** X24: in the flat-file server an activity is what the next read shows
    first.  For an agent of the file, after [addActivity] the activity
    route returns the new record followed by the first 19 records the agent
    had, and every open connection was handed that record; for an id that
    is not in the file [addActivity] writes and sends nothing. *)
Theorem legacy_addActivity_then_first (now : timestamp)
    (agentId type description : string) (md : metadata) (srv : Legacy.server) :
  let act := Legacy.mkActivity (Legacy.toString now) type description md now in
  (forall ag, find (Legacy.is_agent agentId) (Legacy.agents srv) = Some ag ->
     Legacy.get_agent_activity agentId
       (Legacy.addActivity now agentId type description md srv) =
       Some (act :: firstn 19 (Legacy.agent_activities ag)) /\
     Legacy.clients (Legacy.addActivity now agentId type description md srv) =
       map (fun c => if ready_state_eqb (Legacy.readyState c) OPEN
                     then Legacy.send (Legacy.MsgActivity agentId act) c else c)
         (Legacy.clients srv) /\
     Legacy.reviews (Legacy.addActivity now agentId type description md srv) =
       Legacy.reviews srv) /\
  (find (Legacy.is_agent agentId) (Legacy.agents srv) = None ->
   Legacy.addActivity now agentId type description md srv = srv /\
   Legacy.get_agent_activity agentId srv = None).
Proof.
  cbv zeta. split.
  - intros ag Hf. unfold Legacy.get_agent_activity.
    rewrite (legacy_addActivity_known now agentId type description md srv ag Hf).
    split.
    + cbn [Legacy.add_to Legacy.agent_activities].
      change (firstn 20 (firstn 50 (?x :: ?l))) with (x :: firstn 19 (firstn 49 l)).
      now rewrite firstn_firstn.
    + unfold Legacy.addActivity. rewrite Hf. split; reflexivity.
  - intros Hf. unfold Legacy.addActivity, Legacy.get_agent_activity.
    rewrite Hf. split; reflexivity.
Qed.

Lemma legacy_addActivity_then_first_witness :
  option_map Legacy.agent_name
    (find (Legacy.is_agent "buppy") (Legacy.agents legacy_sample)) = Some "Buppy" /\
  find (Legacy.is_agent "ghost") (Legacy.agents legacy_sample) = None /\
  option_map (fun l => (List.length l, option_map Legacy.activity_description (hd_error l)))
    (Legacy.get_agent_activity "buppy"
       (Legacy.addActivity 5 "buppy" "command" "Ran heartbeat check" [] legacy_sample))
    = Some (20%nat, Some "Ran heartbeat check") /\
  Legacy.addActivity 5 "ghost" "command" "Ran heartbeat check" [] legacy_sample
    = legacy_sample.
Proof.
  split; [reflexivity|].
  assert (Hg : find (Legacy.is_agent "ghost") (Legacy.agents legacy_sample) = None)
    by reflexivity.
  split; [exact Hg|].
  pose proof (legacy_addActivity_then_first 5 "buppy" "command" "Ran heartbeat check" []
                legacy_sample) as [Hyes _].
  pose proof (legacy_addActivity_then_first 5 "ghost" "command" "Ran heartbeat check" []
                legacy_sample) as [_ Hno].
  split; [|exact (proj1 (Hno Hg))].
  destruct (find (Legacy.is_agent "buppy") (Legacy.agents legacy_sample)) as [ag0|] eqn:F;
    [|discriminate].
  destruct (Hyes ag0 eq_refl) as [H _]. rewrite H.
  injection F as <-. reflexivity.
Defined.

(** X25: the flat-file review route.  With the agent id or the question
    missing or empty it answers 400, and for an agent that is not in the
    file 404, in both cases with nothing written or sent.  For an agent of
    the file it answers with the new pending review, which carries the
    agent's name and emoji and the priority given or [medium]; the file
    then holds that review first and the 19 first of the earlier reviews,
    whatever their status, so at most 20; and the pending list starts with
    the new review. *)
Theorem legacy_post_review (now : timestamp) (agentId question priority : option string)
    (srv : Legacy.server) :
  (falsy agentId || falsy question = true ->
   Legacy.post_review now agentId question priority srv =
     (Legacy.Refused 400 "agentId and question are required", srv)) /\
  (falsy agentId || falsy question = false ->
   find (Legacy.is_agent (field agentId)) (Legacy.agents srv) = None ->
   Legacy.post_review now agentId question priority srv =
     (Legacy.Refused 404 "Agent not found", srv)) /\
  (forall ag, falsy agentId || falsy question = false ->
   find (Legacy.is_agent (field agentId)) (Legacy.agents srv) = Some ag ->
   let rev := Legacy.mkReview (Legacy.toString now) (field agentId)
                (Legacy.agent_name ag) (Legacy.agent_emoji ag) (field question)
                (if falsy priority then "medium" else field priority) "pending" now None in
   exists srv',
     Legacy.post_review now agentId question priority srv = (Legacy.Created rev, srv') /\
     Legacy.reviews srv' = rev :: firstn 19 (Legacy.reviews srv) /\
     (List.length (Legacy.reviews srv') <= 20)%nat /\
     Legacy.get_reviews srv' =
       rev :: filter Legacy.is_pending (firstn 19 (Legacy.reviews srv)) /\
     Legacy.agents srv' = Legacy.agents srv).
Proof.
  unfold Legacy.post_review, Legacy.addReview. split; [|split].
  - now intros ->.
  - intros -> Hf. now rewrite Hf.
  - intros ag -> Hf. rewrite Hf. cbv zeta. eexists. split; [reflexivity|].
    cbn [Legacy.broadcast Legacy.with_reviews Legacy.reviews Legacy.agents firstn].
    split; [reflexivity|]. split; [|split; reflexivity].
    exact (firstn_le_length 20 (_ :: Legacy.reviews srv)).
Qed.

Lemma legacy_post_review_witness :
  falsy (Some "") || falsy (Some "Walk?") = true /\
  falsy (Some "zoomie") || falsy (Some "Walk?") = false /\
  find (Legacy.is_agent "zoomie") (Legacy.agents legacy_sample) = None /\
  falsy (Some "buppy") || falsy (Some "Walk?") = false /\
  option_map Legacy.agent_name
    (find (Legacy.is_agent "buppy") (Legacy.agents legacy_sample)) = Some "Buppy" /\
  fst (Legacy.post_review 9 (Some "") (Some "Walk?") None legacy_sample) =
    Legacy.Refused 400 "agentId and question are required" /\
  Legacy.post_review 9 (Some "zoomie") (Some "Walk?") None legacy_sample =
    (Legacy.Refused 404 "Agent not found", legacy_sample) /\
  map Legacy.review_id
    (Legacy.get_reviews
       (snd (Legacy.post_review 9 (Some "buppy") (Some "Walk?") None legacy_sample)))
    = ["9"; "1"; "2"].
Proof.
  assert (H1 : falsy (Some "") || falsy (Some "Walk?") = true) by reflexivity.
  assert (H2 : falsy (Some "zoomie") || falsy (Some "Walk?") = false) by reflexivity.
  assert (H3 : find (Legacy.is_agent "zoomie") (Legacy.agents legacy_sample) = None)
    by reflexivity.
  assert (H4 : falsy (Some "buppy") || falsy (Some "Walk?") = false) by reflexivity.
  pose proof (legacy_post_review 9 (Some "") (Some "Walk?") None legacy_sample)
    as [Hbad _].
  pose proof (legacy_post_review 9 (Some "zoomie") (Some "Walk?") None legacy_sample)
    as [_ [Hmissing _]].
  pose proof (legacy_post_review 9 (Some "buppy") (Some "Walk?") None legacy_sample)
    as [_ [_ Hknown]].
  split; [exact H1|]. split; [exact H2|]. split; [exact H3|]. split; [exact H4|].
  split; [reflexivity|].
  split; [now rewrite (Hbad H1)|]. split; [exact (Hmissing H2 H3)|].
  destruct (Hknown _ H4 eq_refl) as [srv' [E [_ [_ [G _]]]]].
  rewrite E. cbn [snd]. rewrite G. reflexivity.
Defined.

Lemma legacy_update_first_unique (now : timestamp) (id : string)
    (l : list Legacy.review) (x : Legacy.review) :
  NoDup (map Legacy.review_id l) ->
  In x (Legacy.update_first (Legacy.is_review id) (Legacy.resolve now) l) ->
  (Legacy.review_id x = id /\ Legacy.review_status x = "resolved") \/
  (Legacy.review_id x <> id /\ In x l).
Proof.
  induction l as [|y l IH]; intros Hnd Hx; [contradiction|].
  cbn [map] in Hnd. inversion Hnd as [|? ? Hnotin Hnd']; subst.
  cbn [Legacy.update_first] in Hx. destruct (Legacy.is_review id y) eqn:E.
  - apply String.eqb_eq in E. destruct Hx as [<-|Hx]; [left; split; [exact E | reflexivity]|].
    right. split; [|now right]. intros Hid. apply Hnotin.
    rewrite E, <- Hid. now apply in_map.
  - apply String.eqb_neq in E. destruct Hx as [<-|Hx]; [right; split; [exact E | now left]|].
    destruct (IH Hnd' Hx) as [H|[H1 H2]]; [now left | right; split; [exact H1 | now right]].
Qed.

(** X26: the flat-file resolve route.  For an id that no review has it
    answers 404 with nothing written or sent.  For an id that a review has,
    pending or resolved, it answers with that review marked resolved and
    hands [review-resolved] to the open connections; and when review ids
    are unique, the pending list afterwards has no review of that id and
    keeps only reviews that were pending before. *)
Theorem legacy_patch_resolve (now : timestamp) (id : string) (srv : Legacy.server) :
  (find (Legacy.is_review id) (Legacy.reviews srv) = None ->
   Legacy.patch_resolve now id srv = (Legacy.Refused 404 "Review not found", srv)) /\
  (forall r, find (Legacy.is_review id) (Legacy.reviews srv) = Some r ->
   exists srv',
     Legacy.patch_resolve now id srv = (Legacy.Resolved (Legacy.resolve now r), srv') /\
     Legacy.clients srv' =
       map (fun c => if ready_state_eqb (Legacy.readyState c) OPEN
                     then Legacy.send (Legacy.MsgReviewResolved id) c else c)
         (Legacy.clients srv) /\
     (NoDup (map Legacy.review_id (Legacy.reviews srv)) ->
      forall x, In x (Legacy.get_reviews srv') ->
        Legacy.review_id x <> id /\ In x (Legacy.get_reviews srv))).
Proof.
  unfold Legacy.patch_resolve, Legacy.resolveReview. split.
  - now intros ->.
  - intros r ->. eexists. split; [reflexivity|]. split; [reflexivity|].
    intros Hnd x Hx. unfold Legacy.get_reviews in *.
    cbn [Legacy.broadcast Legacy.with_reviews Legacy.reviews] in Hx.
    apply filter_In in Hx. destruct Hx as [Hx Hp].
    destruct (legacy_update_first_unique now id _ x Hnd Hx) as [[_ Hs]|[Hid Hin]].
    + unfold Legacy.is_pending in Hp. rewrite Hs in Hp. discriminate.
    + split; [exact Hid|]. apply filter_In. split; assumption.
Qed.

Lemma legacy_patch_resolve_witness :
  find (Legacy.is_review "7") (Legacy.reviews legacy_sample) = None /\
  option_map Legacy.review_agentId
    (find (Legacy.is_review "1") (Legacy.reviews legacy_sample)) = Some "zoomie" /\
  NoDup (map Legacy.review_id (Legacy.reviews legacy_sample)) /\
  Legacy.patch_resolve 9 "7" legacy_sample =
    (Legacy.Refused 404 "Review not found", legacy_sample) /\
  forall x, In x (Legacy.get_reviews (snd (Legacy.patch_resolve 9 "1" legacy_sample))) ->
    Legacy.review_id x <> "1".
Proof.
  assert (H7 : find (Legacy.is_review "7") (Legacy.reviews legacy_sample) = None)
    by reflexivity.
  assert (Hnd : NoDup (map Legacy.review_id (Legacy.reviews legacy_sample))).
  { cbn. repeat constructor; cbn; intuition discriminate. }
  pose proof (legacy_patch_resolve 9 "7" legacy_sample) as [Hmissing _].
  pose proof (legacy_patch_resolve 9 "1" legacy_sample) as [_ Hfound].
  split; [exact H7|]. split; [reflexivity|]. split; [exact Hnd|].
  split; [exact (Hmissing H7)|].
  destruct (Hfound _ eq_refl) as [srv' [E [_ G]]].
  rewrite E. cbn [snd]. intros x Hx. exact (proj1 (G Hnd x Hx)).
Defined.
